(** * Issue workflow of the pull-request extension: current-issue tracker and
      feature registrar

    A shallow embedding of [CurrentIssue] (the current-issue tracker) and of
    the command handlers of [IssueFeatureRegistrar] that start and stop work
    on an issue, show the status-bar menu, create issues and open the query
    settings.

    The code is orchestration over three collaborators it does not implement:
    the editor host, the source-control repository and the remote issue API.
    Every call to a collaborator is recorded in a trace, and its answer is
    given by an environment that may look at the whole trace so far, so a
    collaborator may answer the same call differently at different times and
    may fail (a rejected promise is an exception at the [await]). *)

From Stdlib Require Import Ascii String.
From stdpp Require Import base option list gmap strings pretty.

Local Open Scope string_scope.

(** ** Results and the state-and-exception monad

    An [async] method is run to completion: every [await] in the source is a
    sequencing point, a rejection is [Throw], and the state reached before a
    rejection is kept. *)

Definition Err := string.

Inductive Res (A : Type) : Type :=
| Ok (a : A)
| Throw (e : Err).
Arguments Ok {A} a.
Arguments Throw {A} e.

Definition M (S A : Type) : Type := S -> Res A * S.

Definition ret {S A} (a : A) : M S A := fun s => (Ok a, s).

Definition throw {S A} (e : Err) : M S A := fun s => (Throw e, s).

Definition bind {S A B} (c : M S A) (k : A -> M S B) : M S B :=
  fun s => match c s with
           | (Ok a, s') => k a s'
           | (Throw e, s') => (Throw e, s')
           end.

(** [try { c } catch (e) { h e }] *)
Definition try_catch {S A} (c : M S A) (h : Err -> M S A) : M S A :=
  fun s => match c s with
           | (Ok a, s') => (Ok a, s')
           | (Throw e, s') => h e s'
           end.

Definition get {S} : M S S := fun s => (Ok s, s).
Definition modify {S} (f : S -> S) : M S unit := fun s => (Ok tt, f s).

Notation "'let*' x ':=' c 'in' k" := (bind c (fun x => k))
  (at level 10, x name, c at level 100, k at level 200).
Notation "c ';;;' k" := (bind c (fun _ => k))
  (at level 100, k at level 200, right associativity).

Definition when {S} (b : bool) (c : M S unit) : M S unit :=
  if b then c else ret tt.

(** ** JavaScript values the code tests for truthiness *)

(** [!!s] for [s : string | undefined]: the empty string and [undefined] are
    falsy. *)
Definition truthy (o : option string) : bool :=
  match o with
  | Some s => negb (String.eqb s EmptyString)
  | None => false
  end.

(** A template literal prints [undefined] for a missing value. *)
Definition tpl (o : option string) : string :=
  match o with Some s => s | None => "undefined" end.

(** ** Data model *)

Record Remote := {
  remoteName : string;
  owner : string;
  repositoryName : string;
}.

Record IssueModel := {
  number : N;
  title : string;
  html_url : string;
  remote : Remote;
}.

Record PullRequestDefaults := {
  defaults_owner : string;
  defaults_repo : string;
  base : string;
}.

(** [IssueState] of the state manager: [{ branch?: string, hasDraftPR?:
    boolean }]; a missing [hasDraftPR] reads as [false], the code only tests
    it for truthiness. *)
Record IssueState := {
  branch : option string;
  hasDraftPR : bool;
}.

Definition emptyIssueState : IssueState :=
  {| branch := None; hasDraftPR := false |}.

Record StatusBarItem := {
  text : string;
  tooltip : string;
  command : string;
}.

(** A branch as the git API reports it. *)
Record Branch := {
  branch_name : string;
  commit : option string;
}.

(** A remote of a local repository, and a local repository of the git API
    (named by its position in [gitAPI.repositories]). *)
Record GitRemote := {
  git_remote_name : string;
  fetchUrl : option string;
}.

Record Repository := {
  remotes : list GitRemote;
}.

Record CurrentIssue := {
  issueModel : IssueModel;
  shouldPromptForBranch : bool;
  statusBarItem : option StatusBarItem;
  repoChangeDisposable : option unit;
  _branchName : option string;
  user : option string;
  repo : option nat;
  repoDefaults : option PullRequestDefaults;
}.

(** The settings of the [githubIssues] section the code reads. A key that is
    not set reads as [undefined]. *)
Record Query := {
  label : string;
  query : string;
}.

Record Inspect := {
  defaultValue : option (list Query);
  globalValue : option (list Query);
  workspaceValue : option (list Query);
  workspaceFolderValue : option (list Query);
}.

Record Config := {
  createIssueBranchConfig : option string;   (* BRANCH_CONFIGURATION *)
  branchNameConfig : option string;          (* BRANCH_NAME_CONFIGURATION *)
  alwaysCreateDraftPR : bool;                (* truthiness of the value *)
  workingIssueFormatScm : option string;     (* [None]: not a string *)
  createInsertFormat : option string;
  queriesInspect : option Inspect;           (* inspect(QUERIES_CONFIGURATION) *)
  queriesValue : option (list Query);        (* get(QUERIES_CONFIGURATION) *)
}.

(** A text document of the host, as far as the code looks at it. *)
Record Position := {
  line : nat;
  character : nat;
}.

Record Range := {
  range_start : Position;
  range_end : Position;
}.

Definition range_isEmpty (r : Range) : bool :=
  Nat.eqb (line (range_start r)) (line (range_end r)) &&
  Nat.eqb (character (range_start r)) (character (range_end r)).

Record TextDocument := {
  uri : string;
  isUntitled : bool;
  getText : option Range -> string;   (* [None]: the whole document *)
  lineAt_range : nat -> Range;
  positionAt : nat -> Position;
}.

Record TextEditor := {
  document : TextDocument;
  selection : Range;
}.

Record NewIssue := {
  ni_document : TextDocument;
  ni_lineNumber : nat;
  ni_line : string;
  ni_insertIndex : nat;
  ni_range : Range;
}.

(** The parameters of [manager.createIssue]. *)
Record CreateParams := {
  cp_owner : string;
  cp_repo : string;
  cp_title : string;
  cp_body : option string;
  cp_assignee : option string;
}.

(** ** Calls to collaborators

    One event per call, with the arguments the code passes. The draft-PR push
    also records its answer, so that successful pushes can be counted. *)

Inductive Event : Type :=
| EGetPullRequestDefaults
| EShowErrorMessage (msg : string)
| EGetBranch (b : string)
| ECheckout (b : string)
| ECreateBranch (b : string) (checkout : bool)
| EGetAuthenticatedUser
| EShowInputBox (placeHolder prompt : string)
| EVariableSubstitution (value : option string) (i : IssueModel)
    (d : option PullRequestDefaults) (u : option string)
| ESetInputBox (r : nat) (value : string)
| EStatusBarShow (item : StatusBarItem)
| EStatusBarHide
| EStatusBarDispose
| ERepoChangeDispose
| EPushAndCreatePR (draft : bool) (succeeded : Res bool)
| EShowQuickPick (choices : list string) (placeHolder : string)
| EOpenExternal (url : string)
| EGetMergeBase (c1 c2 : string)
| EGetCommit (c : string)
| EDiffBetween (c1 c2 path : string)
| ECreateDirectory (path : string)
| EWriteFile (path : string) (content : string)
| EPull
| EApply (path : string)
| ESetManagerInputBox (value : string)
| ECreateGithubPermalink (line : option nat)
| ECreateIssue (p : CreateParams)
| EApplyEdit (u : string) (p : Position) (t : string)
| ERefreshCacheNeeded
| EConfigUpdateGlobal (v : list Query)
| EExecuteCommand (c : string)
| ERevealRange (p : Position)
| ESetSelection (p : Position)
| EResolveIssue (o r : string) (n : N)
| EInputBoxShow (value : string)
| EInputBoxHide.

(** The collaborators. An answer may depend on every call made so far (the
    trace, latest call first). *)
Record Env := {
  env_getPullRequestDefaults : list Event -> Res PullRequestDefaults;
  env_getBranch : list Event -> string -> Res (option Branch);
  env_checkout : list Event -> string -> Res unit;
  env_createBranch : list Event -> string -> bool -> Res unit;
  env_getAuthenticatedUser : list Event -> Res string;
  env_showInputBox : list Event -> string -> string -> Res (option string);
  env_variableSubstitution :
    list Event -> option string -> IssueModel -> option PullRequestDefaults ->
    option string -> Res string;
  env_pushAndCreatePR : list Event -> bool -> Res bool;
  env_showQuickPick : list Event -> list string -> Res (option string);
  env_openExternal : list Event -> string -> Res bool;
  env_getMergeBase : list Event -> string -> string -> Res string;
  env_getCommitMessage : list Event -> string -> Res string;
  env_diffBetween : list Event -> string -> string -> string -> Res string;
  env_createDirectory : list Event -> string -> Res unit;
  env_writeFile : list Event -> string -> string -> Res unit;
  env_pull : list Event -> Res unit;
  env_apply : list Event -> string -> Res unit;
  env_HEAD : list Event -> option Branch;
  env_storagePath : string;
  env_createGithubPermalink : list Event -> option nat -> Res (option string);
  env_createIssue : list Event -> CreateParams -> Res (option IssueModel);
  env_applyEdit : list Event -> Res bool;
  env_executeCommand : list Event -> string -> Res unit;
  env_resolveIssue : list Event -> string -> string -> N -> Res (option IssueModel);
  env_activeTextEditor : list Event -> option TextEditor;
  (* pure helpers that are not in the source files *)
  env_getIssueNumberLabel : IssueModel -> option PullRequestDefaults -> string;
  env_toLowerCase : string -> string;
  env_search : string -> string -> Z;      (* [String.prototype.search] *)
  (* the error raised when a string is compiled as a regular expression,
     as [search] does with its argument, if it is not a valid one *)
  env_regExpError : string -> option Err;
  env_JSON_stringify : option (list Query) -> string;
}.

(** ** The state of the extension *)

Record World := {
  trace : list Event;
  saved : gmap N IssueState;
  config : Config;
  currentIssue : option CurrentIssue;
  userMap : gset string;
  repositories : list Repository;
}.

Definition log (ev : Event) (w : World) : World :=
  {| trace := ev :: trace w; saved := saved w; config := config w;
     currentIssue := currentIssue w; userMap := userMap w;
     repositories := repositories w |}.

Definition with_saved (m : gmap N IssueState) (w : World) : World :=
  {| trace := trace w; saved := m; config := config w;
     currentIssue := currentIssue w; userMap := userMap w;
     repositories := repositories w |}.

Definition with_config (c : Config) (w : World) : World :=
  {| trace := trace w; saved := saved w; config := c;
     currentIssue := currentIssue w; userMap := userMap w;
     repositories := repositories w |}.

Definition with_currentIssue (c : option CurrentIssue) (w : World) : World :=
  {| trace := trace w; saved := saved w; config := config w;
     currentIssue := c; userMap := userMap w;
     repositories := repositories w |}.

(** A call that is not awaited for a result the code uses: only recorded. *)
Definition emit (ev : Event) : M World unit := modify (log ev).

(** An awaited call: recorded, answered by the environment from the trace
    before the call. *)
Definition call {A} (ev : Event) (answer : list Event -> Res A) : M World A :=
  fun w => (answer (trace w), log ev w).

(** The state manager's persisted per-issue state. *)

(** Modelled from the spec: [StateManager.getSavedIssueState] is not in the
    source files. The persisted per-issue state is a mapping from issue number
    to branch name and draft-PR flag; an issue without an entry has neither. *)
Definition getSavedIssueState (n : N) (w : World) : IssueState :=
  default emptyIssueState (saved w !! n).

(** Modelled from the spec: [StateManager.setSavedIssueState] is not in the
    source files. The state is keyed by the issue's number. *)
Definition setSavedIssueState (i : IssueModel) (st : IssueState) : M World unit :=
  modify (fun w => with_saved (<[number i := st]> (saved w)) w).

(** ** The current-issue tracker *)

(** A method of [CurrentIssue] runs on the object and the world. *)
Record Sess := {
  this : CurrentIssue;
  world : World;
}.

Definition liftW {A} (m : M World A) : M Sess A :=
  fun s => let (r, w') := m (world s) in (r, {| this := this s; world := w' |}).

Definition getThis : M Sess CurrentIssue := fun s => (Ok (this s), s).
Definition getWorld : M Sess World := fun s => (Ok (world s), s).
Definition setThis (f : CurrentIssue -> CurrentIssue) : M Sess unit :=
  fun s => (Ok tt, {| this := f (this s); world := world s |}).

Definition set_statusBarItem (v : option StatusBarItem) (t : CurrentIssue) :=
  {| issueModel := issueModel t; shouldPromptForBranch := shouldPromptForBranch t;
     statusBarItem := v; repoChangeDisposable := repoChangeDisposable t;
     _branchName := _branchName t; user := user t; repo := repo t;
     repoDefaults := repoDefaults t |}.

Definition set_branchName (v : option string) (t : CurrentIssue) :=
  {| issueModel := issueModel t; shouldPromptForBranch := shouldPromptForBranch t;
     statusBarItem := statusBarItem t; repoChangeDisposable := repoChangeDisposable t;
     _branchName := v; user := user t; repo := repo t;
     repoDefaults := repoDefaults t |}.

Definition set_user (v : option string) (t : CurrentIssue) :=
  {| issueModel := issueModel t; shouldPromptForBranch := shouldPromptForBranch t;
     statusBarItem := statusBarItem t; repoChangeDisposable := repoChangeDisposable t;
     _branchName := _branchName t; user := v; repo := repo t;
     repoDefaults := repoDefaults t |}.

Definition set_repo (v : option nat) (t : CurrentIssue) :=
  {| issueModel := issueModel t; shouldPromptForBranch := shouldPromptForBranch t;
     statusBarItem := statusBarItem t; repoChangeDisposable := repoChangeDisposable t;
     _branchName := _branchName t; user := user t; repo := v;
     repoDefaults := repoDefaults t |}.

Definition set_repoDefaults (v : option PullRequestDefaults) (t : CurrentIssue) :=
  {| issueModel := issueModel t; shouldPromptForBranch := shouldPromptForBranch t;
     statusBarItem := statusBarItem t; repoChangeDisposable := repoChangeDisposable t;
     _branchName := _branchName t; user := user t; repo := repo t;
     repoDefaults := v |}.

(** [pushAndCreatePR] of the utilities (not in the source files) is a
    collaborator: the call is recorded with its answer. *)
Definition pushAndCreatePR (env : Env) (draft : bool) : M World bool :=
  fun w => let r := env_pushAndCreatePR env (trace w) draft in
           (r, log (EPushAndCreatePR draft r) w).

Section CurrentIssue.

Variable env : Env.

(** [new CurrentIssue(issueModel, manager, reviewManager, stateManager,
    shouldPromptForBranch)] before [setRepo] has run. *)
Definition newCurrentIssue (i : IssueModel) (prompt : bool) : CurrentIssue :=
  {| issueModel := i; shouldPromptForBranch := prompt;
     statusBarItem := None; repoChangeDisposable := None;
     _branchName := None; user := None; repo := None; repoDefaults := None |}.

(** The condition of [setRepo] on one remote. A remote without fetch URL
    passes the second test: [undefined !== -1]. The pattern searched for is
    made of the owner and the name of a GitHub repository (letters, digits,
    hyphens, underscores and dots), which is a valid regular expression. *)
Definition remoteMatches (i : IssueModel) (r : GitRemote) : bool :=
  String.eqb (git_remote_name r) (remoteName (remote i)) &&
  match fetchUrl r with
  | None => true
  | Some u =>
      negb (Z.eqb (env_search env (env_toLowerCase env u)
                     (env_toLowerCase env (owner (remote i)) +:+ "/" +:+
                      env_toLowerCase env (repositoryName (remote i))))
                  (-1))
  end.

(** The loops of [setRepo]: the first repository, from position [k] on, one
    of whose remotes matches. *)
Fixpoint setRepo_from (i : IssueModel) (k : nat) (rs : list Repository) : option nat :=
  match rs with
  | [] => None
  | r :: rs' =>
      if existsb (remoteMatches i) (remotes r) then Some k
      else setRepo_from i (S k) rs'
  end.

Definition setRepo (w : World) (t : CurrentIssue) : CurrentIssue :=
  match setRepo_from (issueModel t) 0 (repositories w) with
  | Some k => set_repo (Some k) t
  | None => t
  end.

(** The constructor. *)
Definition constructCurrentIssue (i : IssueModel) (prompt : bool) (w : World) :=
  setRepo w (newCurrentIssue i prompt).

Definition showErrorMessage (msg : string) : M Sess unit :=
  liftW (emit (EShowErrorMessage msg)).

Definition dispose : M Sess unit :=
  let* t := getThis in
  when (bool_decide (is_Some (statusBarItem t)))
       (liftW (emit EStatusBarHide) ;;; liftW (emit EStatusBarDispose)) ;;;
  when (bool_decide (is_Some (repoChangeDisposable t)))
       (liftW (emit ERepoChangeDispose)).

Definition stopWorking : M Sess unit :=
  let* t := getThis in
  match repo t with
  | Some r => liftW (emit (ESetInputBox r EmptyString))
  | None => ret tt
  end ;;;
  match repoDefaults t with
  | Some d => liftW (call (ECheckout (base d)) (fun tr => env_checkout env tr (base d)))
  | None => ret tt
  end ;;;
  dispose.

Definition getBasicBranchName (t : CurrentIssue) (u : string) : string :=
  u +:+ "/issue" +:+ pretty (number (issueModel t)).

Definition branchExists (b : string) : M Sess bool :=
  try_catch
    (let* repoBranch := liftW (call (EGetBranch b) (fun tr => env_getBranch env tr b)) in
     ret (bool_decide (is_Some repoBranch)))
    (fun _ => ret false).

Definition createOrCheckoutBranch (b : string) : M Sess unit :=
  let* ex := branchExists b in
  if ex
  then liftW (call (ECheckout b) (fun tr => env_checkout env tr b))
  else liftW (call (ECreateBranch b true) (fun tr => env_createBranch env tr b true)).

Definition getUser : M Sess string :=
  let* t := getThis in
  match user t with
  | Some u =>
      if truthy (Some u) then ret u
      else
        let* u' := liftW (call EGetAuthenticatedUser (env_getAuthenticatedUser env)) in
        setThis (set_user (Some u')) ;;; ret u'
  | None =>
      let* u' := liftW (call EGetAuthenticatedUser (env_getAuthenticatedUser env)) in
      setThis (set_user (Some u')) ;;; ret u'
  end.

(** The local [createBranchConfig] of [createIssueBranch]. *)
Definition createBranchConfig (t : CurrentIssue) (c : Config) : option string :=
  if shouldPromptForBranch t then Some "prompt" else createIssueBranchConfig c.

Definition with_branch (b : option string) (st : IssueState) : IssueState :=
  {| branch := b; hasDraftPR := hasDraftPR st |}.

Definition with_hasDraftPR (b : bool) (st : IssueState) : IssueState :=
  {| branch := branch st; hasDraftPR := b |}.

(** Line 115: the name by template substitution. *)
Definition substituteBranchName : M Sess unit :=
  let* t := getThis in
  let* w := getWorld in
  let* u := getUser in
  let* n := liftW (call (EVariableSubstitution (branchNameConfig (config w))
                           (issueModel t) None (Some u))
                        (fun tr => env_variableSubstitution env tr
                           (branchNameConfig (config w)) (issueModel t) None (Some u))) in
  setThis (set_branchName (Some n)).

(** Line 117: the name the user enters. *)
Definition promptBranchName : M Sess unit :=
  let* t := getThis in
  let ph := "issue" +:+ pretty (number (issueModel t)) in
  let pr := "Enter the label for the new branch." in
  let* n := liftW (call (EShowInputBox ph pr) (fun tr => env_showInputBox env tr ph pr)) in
  setThis (set_branchName n).

(** Lines 112-119: the candidate name, when none was read from the saved
    state. *)
Definition candidateBranchName (cfg : option string) : M Sess unit :=
  let* t := getThis in
  if truthy (_branchName t) then ret tt
  else if bool_decide (cfg = Some "on") then substituteBranchName
  else promptBranchName.

(** Line 121: the deterministic name. *)
Definition useBasicBranchName : M Sess string :=
  let* t := getThis in
  let* u := getUser in
  setThis (set_branchName (Some (getBasicBranchName t u))) ;;;
  ret (getBasicBranchName t u).

(** Lines 120-122: the deterministic name when the candidate is blank. *)
Definition resolveBranchName : M Sess string :=
  let* t := getThis in
  match _branchName t with
  | Some n => if truthy (Some n) then ret n else useBasicBranchName
  | None => useBasicBranchName
  end.

(** Lines 128-139: the handler of a failed checkout-or-create of [name]. *)
Definition checkoutFailed (name : string) (state : IssueState) : M Sess unit :=
  let* t := getThis in
  let* u := getUser in
  let basicBranchName := getBasicBranchName t u in
  if String.eqb name basicBranchName then
    showErrorMessage ("Unable to checkout branch " +:+ name +:+
      ". There may be file conflicts that prevent this branch change.") ;;;
    setThis (set_branchName None)
  else
    showErrorMessage ("Unable to create branch with name " +:+ name +:+
      ". Using " +:+ basicBranchName +:+ " instead.") ;;;
    setThis (set_branchName (Some basicBranchName)) ;;;
    liftW (setSavedIssueState (issueModel t) (with_branch (Some basicBranchName) state)) ;;;
    createOrCheckoutBranch basicBranchName.

(** Lines 111-122: the name the branch is to have. *)
Definition resolveIssueBranchName (cfg : option string) (state : IssueState) : M Sess string :=
  let* t := getThis in
  setThis (set_branchName (if shouldPromptForBranch t then None else branch state)) ;;;
  candidateBranchName cfg ;;;
  resolveBranchName.

(** Lines 124-125: the resolved name goes into the persisted state. *)
Definition saveBranchName (name : string) (state : IssueState) : M Sess unit :=
  let* t := getThis in
  liftW (setSavedIssueState (issueModel t) (with_branch (Some name) state)).

Definition createIssueBranch : M Sess unit :=
  let* t := getThis in
  let* w := getWorld in
  let cfg := createBranchConfig t (config w) in
  if bool_decide (cfg = Some "off") then ret tt
  else
    let state := getSavedIssueState (number (issueModel t)) w in
    let* name := resolveIssueBranchName cfg state in
    saveBranchName name state ;;;
    try_catch (createOrCheckoutBranch name)
              (fun _ => checkoutFailed name (with_branch (Some name) state)).

Definition setCommitMessageAndGitEvent : M Sess unit :=
  let* t := getThis in
  let* w := getWorld in
  match repo t, workingIssueFormatScm (config w) with
  | Some r, Some configuration =>
      let* v := liftW (call (EVariableSubstitution (Some configuration) (issueModel t)
                               (repoDefaults t) None)
                            (fun tr => env_variableSubstitution env tr (Some configuration)
                               (issueModel t) (repoDefaults t) None)) in
      liftW (emit (ESetInputBox r v))
  | _, _ => ret tt
  end.

Definition setStatusBar : M Sess unit :=
  let* t := getThis in
  let item := {| text := "$(issues) Issue " +:+
                         env_getIssueNumberLabel env (issueModel t) (repoDefaults t);
                 tooltip := title (issueModel t);
                 command := "issue.statusBar" |} in
  setThis (set_statusBarItem (Some item)) ;;;
  liftW (emit (EStatusBarShow item)).

Definition createDraftPR : M Sess unit :=
  let* t := getThis in
  let* w := getWorld in
  if alwaysCreateDraftPR (config w) && truthy (_branchName t) then
    let issueState := getSavedIssueState (number (issueModel t)) w in
    if negb (hasDraftPR issueState) then
      let* succeeded := liftW (pushAndCreatePR env true) in
      if succeeded then
        liftW (setSavedIssueState (issueModel t) (with_hasDraftPR true issueState))
      else ret tt
    else ret tt
  else ret tt.

(** Lines 48-53 of [startWorking]. *)
Definition fetchDefaults : M Sess unit :=
  try_catch
    (let* d := liftW (call EGetPullRequestDefaults (env_getPullRequestDefaults env)) in
     setThis (set_repoDefaults (Some d)))
    (fun _ => showErrorMessage "There is no remote. Can't start working on an issue.").

Definition startWorking : M Sess unit :=
  fetchDefaults ;;;
  createIssueBranch ;;;
  setCommitMessageAndGitEvent ;;;
  setStatusBar ;;;
  createDraftPR.

End CurrentIssue.

(** ** The feature registrar *)

(** The ASCII white space: tab, line feed, vertical tab, form feed, carriage
    return, space. *)
Definition isWhitespace (c : ascii) : bool :=
  let n := nat_of_ascii c in
  Nat.eqb n 32 || (Nat.leb 9 n && Nat.leb n 13).

Definition isAt (c : ascii) : bool := Nat.eqb (nat_of_ascii c) 64.

(** The longest run of characters that are not white space at the start of a
    string, and what follows it. *)
Fixpoint takeName (s : string) : string :=
  match s with
  | EmptyString => EmptyString
  | String c s' => if isWhitespace c then EmptyString else String c (takeName s')
  end.

Fixpoint dropName (s : string) : string :=
  match s with
  | EmptyString => EmptyString
  | String c s' => if isWhitespace c then s else dropName s'
  end.

(** The "@user" mentions of a text, in the order they occur: an at sign
    followed by one or more characters that are not white space; the user
    name is what follows the at sign. [inName] holds while the scan is
    inside a mention already taken. *)
Fixpoint userMentions (inName : bool) (s : string) : list string :=
  match s with
  | EmptyString => []
  | String c s' =>
      if inName then userMentions (negb (isWhitespace c)) s'
      else if isAt c && negb (String.eqb (takeName s') EmptyString)
           then takeName s' :: userMentions true s'
           else userMentions false s'
  end.

Definition mentions (text : string) : list string := userMentions false text.

(** Modelled from the spec: [USER_EXPRESSION] is not in the source files. By
    the spec an assignee is found in a text that holds exactly one "@user"
    mention, and none in a text with no mention or with several. So the
    pattern matches a text with exactly one mention and no other text; the
    match array, of which [createTodoIssue] reads the length and the second
    element, then holds the matched text and the user name. *)
Definition match_USER_EXPRESSION (text : string) : option (list string) :=
  match mentions text with
  | [name] => Some [String (ascii_of_nat 64) name; name]
  | _ => None
  end.

(** A text is held as the bytes of its UTF-8 form; the source has it in
    UTF-16. Beside the ASCII white space, [String.prototype.trim] removes
    U+00A0, U+1680, U+2000 to U+200A, U+2028, U+2029, U+202F, U+205F, U+3000
    and U+FEFF, which take two or three bytes. *)
Definition isWhitespace2 (c1 c2 : ascii) : bool :=
  Nat.eqb (nat_of_ascii c1) 194 && Nat.eqb (nat_of_ascii c2) 160.

Definition isWhitespace3 (c1 c2 c3 : ascii) : bool :=
  let b1 := nat_of_ascii c1 in
  let b2 := nat_of_ascii c2 in
  let b3 := nat_of_ascii c3 in
  (Nat.eqb b1 225 && Nat.eqb b2 154 && Nat.eqb b3 128) ||
  (Nat.eqb b1 226 && Nat.eqb b2 128 &&
   ((Nat.leb 128 b3 && Nat.leb b3 138) || Nat.eqb b3 168 || Nat.eqb b3 169 ||
    Nat.eqb b3 175)) ||
  (Nat.eqb b1 226 && Nat.eqb b2 129 && Nat.eqb b3 159) ||
  (Nat.eqb b1 227 && Nat.eqb b2 128 && Nat.eqb b3 128) ||
  (Nat.eqb b1 239 && Nat.eqb b2 187 && Nat.eqb b3 191).

(** [String.prototype.trim] *)
Fixpoint trimStart (s : string) : string :=
  match s with
  | EmptyString => EmptyString
  | String c1 s1 =>
      if isWhitespace c1 then trimStart s1
      else
        match s1 with
        | EmptyString => s
        | String c2 s2 =>
            if isWhitespace2 c1 c2 then trimStart s2
            else
              match s2 with
              | EmptyString => s
              | String c3 s3 => if isWhitespace3 c1 c2 c3 then trimStart s3 else s
              end
        end
  end.

(** What is left when the white space at the end is removed: nothing, from
    where only white space follows. *)
Fixpoint trimEnd (s : string) : string :=
  match s with
  | EmptyString => EmptyString
  | String c s' =>
      if String.eqb (trimStart s) EmptyString then EmptyString
      else String c (trimEnd s')
  end.

Definition trim (s : string) : string := trimEnd (trimStart s).

(** [text.substring(k)], with [k] counted in UTF-16 units as the source has
    it: a character of one to three bytes is one unit, a character of four
    bytes is two, and the bytes that continue a character count with its
    first byte. An index between the two units of a character of four bytes
    is taken as the index after it. *)
Definition isContinuation (c : ascii) : bool :=
  Nat.leb 128 (nat_of_ascii c) && Nat.leb (nat_of_ascii c) 191.

Definition utf16Units (c : ascii) : nat :=
  if Nat.leb 240 (nat_of_ascii c) then 2 else 1.

Fixpoint substringFromUnit (k : nat) (s : string) : string :=
  match s with
  | EmptyString => EmptyString
  | String c s' =>
      if isContinuation c then substringFromUnit k s'
      else
        match k with
        | O => s
        | S _ => substringFromUnit (k - utf16Units c) s'
        end
  end.

(** A command argument typed [any]: an [IssueModel] instance, an object with
    [owner], [repo] and [number], or something else. *)
Inductive Arg : Type :=
| AIssue (i : IssueModel)
| ARef (o r : string) (n : N)
| AOther.

(** What [createTodoIssue] leaves on screen: the input box and what its
    handlers have captured. *)
Record QuickInput := {
  qi_document : TextDocument;
  qi_newIssue : option NewIssue;
  qi_value : string;
  qi_body : option string;
  qi_assignee : option string;
  qi_lineNumber : option nat;
  qi_insertIndex : option nat;
}.

Section IssueFeatureRegistrar.

Variable env : Env.

(** Run a method on a tracker object and keep the object, as the state
    manager's current issue. *)
Definition runOn {A} (c : CurrentIssue) (m : M Sess A) : M World A :=
  fun w => let (r, s') := m {| this := c; world := w |} in
           (r, with_currentIssue (Some (this s')) (world s')).

(** Modelled from the spec: [StateManager.setCurrentIssue] is not in the
    source files. At most one session is active; the previous session is
    stopped and disposed before the next one starts, and stopping leaves no
    session. *)
Definition setCurrentIssue (issue : option CurrentIssue) : M World unit :=
  let* w := get in
  match currentIssue w with
  | Some cur => runOn cur (stopWorking env)
  | None => ret tt
  end ;;;
  modify (with_currentIssue issue) ;;;
  match issue with
  | Some c => runOn c (startWorking env)
  | None => ret tt
  end.

Definition registrar_startWorking (issue : Arg) : M World unit :=
  let* im :=
    match issue with
    | AIssue i => ret (Some i)
    | ARef o r n =>
        if truthy (Some r) && truthy (Some o) && negb (N.eqb n 0)
        then call (EResolveIssue o r n) (fun tr => env_resolveIssue env tr o r n)
        else ret None
    | AOther => ret None
    end in
  match im with
  | Some i =>
      let* w := get in
      setCurrentIssue (Some (constructCurrentIssue env i false w))
  | None => ret tt
  end.

Definition startWorkingBranchPrompt (issue : Arg) : M World unit :=
  match issue with
  | AIssue i =>
      let* w := get in
      setCurrentIssue (Some (constructCurrentIssue env i true w))
  | _ => ret tt
  end.

(** [IssueFeatureRegistrar.stopWorking] *)
Definition registrar_stopWorking (issue : Arg) : M World unit :=
  let* w := get in
  match issue, currentIssue w with
  | AIssue i, Some cur =>
      if N.eqb (number (issueModel cur)) (number i)
      then setCurrentIssue None
      else ret tt
  | _, _ => ret tt
  end.

Definition openIssue (issue : Arg) : M World unit :=
  match issue with
  | AIssue i =>
      let* _ := call (EOpenExternal (html_url i))
                     (fun tr => env_openExternal env tr (html_url i)) in
      ret tt
  | _ => ret tt
  end.

Definition applyPatch (baseBranch workingBranch : string) : M World unit :=
  try_catch
    (let* b := call (EGetBranch baseBranch) (fun tr => env_getBranch env tr baseBranch) in
     let* w := get in
     let currentHead := env_HEAD env (trace w) in
     match b, currentHead with
     | Some b', Some h =>
         if truthy (commit h) && truthy (commit b') then
           let hc := tpl (commit h) in
           let bc := tpl (commit b') in
           let* mergeBase := call (EGetMergeBase hc bc)
                                  (fun tr => env_getMergeBase env tr hc bc) in
           let* message := call (EGetCommit mergeBase)
                                (fun tr => env_getCommitMessage env tr mergeBase) in
           let* diffToApply := call (EDiffBetween mergeBase hc ".")
                                    (fun tr => env_diffBetween env tr mergeBase hc ".") in
           let storagePath := env_storagePath env in
           try_catch (call (ECreateDirectory storagePath)
                           (fun tr => env_createDirectory env tr storagePath))
                     (fun _ => ret tt) ;;;
           let patch := storagePath +:+ "/diff.patch" in
           call (EWriteFile patch diffToApply)
                (fun tr => env_writeFile env tr patch diffToApply) ;;;
           call (ECheckout baseBranch) (fun tr => env_checkout env tr baseBranch) ;;;
           call EPull (env_pull env) ;;;
           call (EApply patch) (fun tr => env_apply env tr patch) ;;;
           emit (ESetManagerInputBox message)
         else
           emit (EShowErrorMessage ("Current branch " +:+ workingBranch +:+
                                    " does not have base branch."))
     | _, _ =>
         emit (EShowErrorMessage ("Current branch " +:+ workingBranch +:+
                                  " does not have base branch."))
     end)
    (fun e => emit (EShowErrorMessage ("Could not complete patch: " +:+ e))).

(** The choices of the status-bar menu, for the current issue [c] and the
    defaults fetched for the menu. *)
Definition openIssueText (c : CurrentIssue) : string :=
  "$(globe) Open #" +:+ pretty (number (issueModel c)) +:+ " " +:+ title (issueModel c).
Definition pullRequestText (c : CurrentIssue) : string :=
  "$(git-pull-request) Create pull request for #" +:+ pretty (number (issueModel c))
  +:+ " (pushes branch)".
Definition draftPullRequestText (c : CurrentIssue) : string :=
  "$(comment-discussion) Create draft pull request for #" +:+
  pretty (number (issueModel c)) +:+ " (pushes branch)".
Definition applyPatchText (c : CurrentIssue) (d : option PullRequestDefaults) : string :=
  "$(beaker) Apply and patch of commits from " +:+ tpl (_branchName c) +:+ " to " +:+
  tpl (base <$> d).
Definition stopWorkingText (c : CurrentIssue) : string :=
  "$(circle-slash) Stop working on #" +:+ pretty (number (issueModel c)).

Definition choices (c : CurrentIssue) (d : option PullRequestDefaults) : list string :=
  if truthy (_branchName c) && bool_decide (is_Some d)
  then [openIssueText c; pullRequestText c; draftPullRequestText c;
        applyPatchText c d; stopWorkingText c]
  else [openIssueText c; pullRequestText c; draftPullRequestText c; stopWorkingText c].

Definition statusBar : M World unit :=
  let* w := get in
  match currentIssue w with
  | Some c =>
      let* defaults :=
        try_catch
          (let* d := call EGetPullRequestDefaults (env_getPullRequestDefaults env) in
           ret (Some d))
          (fun _ => ret None) in
      let* response := call (EShowQuickPick (choices c defaults) "Current issue options")
                            (fun tr => env_showQuickPick env tr (choices c defaults)) in
      match response with
      | Some r =>
          if String.eqb r (openIssueText c) then openIssue (AIssue (issueModel c))
          else if String.eqb r (pullRequestText c) then
            let* _ := pushAndCreatePR env false in ret tt
          else if String.eqb r (draftPullRequestText c) then
            let* _ := pushAndCreatePR env true in ret tt
          else if String.eqb r (applyPatchText c defaults) then
            applyPatch (match defaults with Some d => base d | None => EmptyString end)
                       (tpl (_branchName c))
          else if String.eqb r (stopWorkingText c) then setCurrentIssue None
          else ret tt
      | None => ret tt
      end
  | None => ret tt
  end.

(** [createIssue]: the promise of [openExternal] is returned, not awaited,
    inside the [try], so only the defaults lookup is guarded. *)
Definition createIssue : M World unit :=
  let* d :=
    try_catch
      (let* d := call EGetPullRequestDefaults (env_getPullRequestDefaults env) in
       ret (Some d))
      (fun _ =>
         emit (EShowErrorMessage "Unable to determine where to create the issue.") ;;;
         ret None) in
  match d with
  | Some d =>
      let url := "https://github.com/" +:+ defaults_owner d +:+ "/" +:+
                 defaults_repo d +:+ "/issues/new/choose" in
      let* _ := call (EOpenExternal url) (fun tr => env_openExternal env tr url) in
      ret tt
  | None => ret tt
  end.

(** [editQuery]. The label is searched for as a regular expression: a label
    that is not a valid one makes the search throw, after the command has
    run. *)
Definition editQuery (queryLabel : string) : M World unit :=
  let* w := get in
  let inspect := queriesInspect (config w) in
  let* command :=
    if bool_decide (is_Some (inspect ≫= workspaceValue)) then
      ret "workbench.action.openWorkspaceSettingsFile"
    else
      let value := queriesValue (config w) in
      match inspect ≫= defaultValue with
      | Some dv =>
          if String.eqb (env_JSON_stringify env (Some dv)) (env_JSON_stringify env value)
          then emit (EConfigUpdateGlobal dv)
          else ret tt
      | None => ret tt
      end ;;;
      ret "workbench.action.openSettingsJson" in
  call (EExecuteCommand command) (fun tr => env_executeCommand env tr command) ;;;
  let* w' := get in
  match env_activeTextEditor env (trace w') with
  | Some editor =>
      let text := getText (document editor) None in
      match env_regExpError env queryLabel with
      | Some e => throw e
      | None =>
          let search := env_search env text queryLabel in
          if Z.leb 0 search then
            let position := positionAt (document editor) (Z.to_nat search) in
            emit (ERevealRange position) ;;;
            emit (ESetSelection position)
          else ret tt
      end
  | None => ret tt
  end.

(** The body of a new issue: the given text when there is one or the
    document is untitled, else a permalink. *)
Definition issueBodyOf (newIssue : option NewIssue) (issueBody : option string)
  : M World (option string) :=
  if truthy issueBody ||
     match newIssue with Some ni => isUntitled (ni_document ni) | None => false end
  then ret issueBody
  else call (ECreateGithubPermalink (ni_lineNumber <$> newIssue))
            (fun tr => env_createGithubPermalink env tr (ni_lineNumber <$> newIssue)).

(** The text inserted after the line an issue was created from. *)
Definition insertText (c : Config) (issue : IssueModel) : string :=
  if String.eqb (default "number" (createInsertFormat c)) "number"
  then "#" +:+ pretty (number issue)
  else html_url issue.

Definition doCreateIssue (doc : TextDocument) (newIssue : option NewIssue)
    (title : string) (issueBody : option string) (assignee : option string)
    (lineNumber insertIndex : option nat) : M World unit :=
  let* origin :=
    try_catch
      (let* d := call EGetPullRequestDefaults (env_getPullRequestDefaults env) in
       ret (Some d))
      (fun _ =>
         emit (EShowErrorMessage "There is no remote. Can't create an issue.") ;;;
         ret None) in
  match origin with
  | None => ret tt
  | Some origin =>
      let* body := issueBodyOf newIssue issueBody in
      let params := {| cp_owner := defaults_owner origin; cp_repo := defaults_repo origin;
                       cp_title := title; cp_body := body; cp_assignee := assignee |} in
      let* issue := call (ECreateIssue params) (fun tr => env_createIssue env tr params) in
      match issue with
      | Some issue =>
          match insertIndex, lineNumber with
          | Some ii, Some ln =>
              let* w := get in
              let* _ := call (EApplyEdit (uri doc) {| line := ln; character := ii |}
                                (" " +:+ insertText (config w) issue))
                             (env_applyEdit env) in
              ret tt
          | _, _ =>
              let* _ := call (EOpenExternal (html_url issue))
                             (fun tr => env_openExternal env tr (html_url issue)) in
              ret tt
          end ;;;
          emit ERefreshCacheNeeded
      | None => ret tt
      end
  end.

(** Lines 420-422: the assignee read from a match array. *)
Definition assigneeFrom (users : gset string) (matches : option (list string))
  : option string :=
  match matches with
  | Some matches =>
      if Nat.eqb (length matches) 2 then
        match matches !! 1 with
        | Some name => if bool_decide (name ∈ users) then Some name else None
        | None => None
        end
      else None
  | None => None
  end.

(** The assignee [createTodoIssue] reads from the text an issue is generated
    from. *)
Definition assigneeOf (users : gset string) (issueGenerationText : string) : option string :=
  assigneeFrom users (match_USER_EXPRESSION issueGenerationText).

(** Lines 407-418: the document, insert index, line number, title
    placeholder and text an issue is generated from; nothing when there is
    neither a new issue nor an active editor. *)
Definition todoSource (newIssue : option NewIssue) (editor : option TextEditor)
  : option (TextDocument * option nat * option nat * option string * string) :=
  match newIssue, editor with
  | None, Some editor =>
      Some (document editor, None, None, None,
            getText (document editor) (Some (selection editor)))
  | Some ni, _ =>
      Some (ni_document ni, Some (ni_insertIndex ni), Some (ni_lineNumber ni),
            Some (trim (substringFromUnit (ni_insertIndex ni) (ni_line ni))),
            getText (ni_document ni)
                    (Some (if range_isEmpty (ni_range ni)
                           then lineAt_range (ni_document ni)
                                             (line (range_start (ni_range ni)))
                           else ni_range ni)))
  | None, None => None
  end.

(** [createTodoIssue] up to [quickInput.show()]: the input box shown, with
    what its handlers capture, or nothing when there is neither a new issue
    nor an active editor. *)
Definition createTodoIssue (newIssue : option NewIssue) (issueBody : option string)
  : M World (option QuickInput) :=
  let* w := get in
  match todoSource newIssue (env_activeTextEditor env (trace w)) with
  | None => ret None
  | Some (doc, insertIndex, lineNumber, titlePlaceholder, issueGenerationText) =>
      let assignee := assigneeOf (userMap w) issueGenerationText in
      let* body := issueBodyOf newIssue issueBody in
      let q := {| qi_document := doc; qi_newIssue := newIssue;
                  qi_value := default EmptyString titlePlaceholder;
                  qi_body := body; qi_assignee := assignee;
                  qi_lineNumber := lineNumber; qi_insertIndex := insertIndex |} in
      emit (EInputBoxShow (qi_value q)) ;;;
      ret (Some q)
  end.

(** The [onDidAccept] handler of the input box, with the value it holds when
    the user confirms. *)
Definition onDidAccept (q : QuickInput) (value : string) : M World unit :=
  (if truthy (Some value) then
     doCreateIssue (qi_document q) (qi_newIssue q) value (qi_body q) (qi_assignee q)
                   (qi_lineNumber q) (qi_insertIndex q)
   else ret tt) ;;;
  emit EInputBoxHide.

Definition createTodoIssueClipboard (clipboard : string) : M World (option QuickInput) :=
  createTodoIssue None (Some clipboard).

End IssueFeatureRegistrar.

(** ** Creating an issue from the draft file

    [createIssueFromFile] reads the editor that shows the draft written by
    the edit button of the input box. The field [createIssueInfo] of the
    registrar is threaded explicitly. Offsets are counted in bytes here and
    in UTF-16 units in the source; the text is cut at the start of an ASCII
    pattern and two characters after it, which is the same place in both. *)

Definition LF : ascii := "010".
Definition CR : ascii := "013".

(** The patterns of the two [indexOf] calls. *)
Definition emptyLineOther : string := String LF (String LF EmptyString).
Definition emptyLineWindows : string :=
  String CR (String LF (String CR (String LF EmptyString))).

Record CreateIssueInfo := {
  cii_document : TextDocument;
  cii_newIssue : option NewIssue;
  cii_assignee : option string;
  cii_lineNumber : option nat;
  cii_insertIndex : option nat;
}.

(** The registrar: its field [createIssueInfo], and the world. *)
Record Registrar := {
  createIssueInfo : option CreateIssueInfo;
  reg_world : World;
}.

Definition liftR {A} (m : M World A) : M Registrar A :=
  fun r => let (a, w') := m (reg_world r) in
           (a, {| createIssueInfo := createIssueInfo r; reg_world := w' |}).

Definition set_createIssueInfo (v : option CreateIssueInfo) (r : Registrar) : Registrar :=
  {| createIssueInfo := v; reg_world := reg_world r |}.

(** [text.substring(n)] *)
Definition substringFrom (n : nat) (text : string) : string :=
  substring n (String.length text - n) text.

(** Lines 231-244: the index of the first empty line, if there is one. *)
Definition indexOfEmptyLine (text : string) : option nat :=
  match index 0 emptyLineWindows text, index 0 emptyLineOther text with
  | None, None => None
  | None, Some other => Some other
  | Some windows, None => Some windows
  | Some windows, Some other => Some (Nat.min windows other)
  end.

(** Line 452: what the edit button keeps of the input box. *)
Definition infoOf (q : QuickInput) : CreateIssueInfo :=
  {| cii_document := qi_document q; cii_newIssue := qi_newIssue q;
     cii_assignee := qi_assignee q; cii_lineNumber := qi_lineNumber q;
     cii_insertIndex := qi_insertIndex q |}.

(** The instructions that end the draft. *)
Definition draftComment : string :=
  "<!--Edit the body of your new issue then click the ✓ " +:+
  String "034" "Create Issue" +:+ String "034"
  " button in the top right of the editor. The first line will be the issue title. Leave an empty line after the title.-->".

(** Line 455: the text written to the draft file by the edit button. *)
Definition draftText (title : string) (body : option string) : string :=
  title +:+ emptyLineOther +:+ default EmptyString body +:+ emptyLineOther +:+ draftComment.

Section CreateIssueFromFile.

Variable env : Env.

(** Lines 223-254. The command that closes the editor is started and not
    awaited, so its outcome is not looked at; a failure of [doCreateIssue]
    is passed on before the draft is forgotten. *)
Definition createIssueFromFile : M Registrar unit :=
  let* r := get in
  match createIssueInfo r with
  | None => ret tt
  | Some info =>
      match env_activeTextEditor env (trace (reg_world r)) with
      | None => ret tt
      | Some editor =>
          let text := getText (document editor) None in
          match indexOfEmptyLine text with
          | None => ret tt
          | Some i =>
              let title := substring 0 i text in
              let body := substringFrom (i + 2) text in
              if negb (truthy (Some title)) || negb (truthy (Some body)) then ret tt
              else
                liftR (doCreateIssue env (cii_document info) (cii_newIssue info) title
                                     (Some body) (cii_assignee info) (cii_lineNumber info)
                                     (cii_insertIndex info)) ;;;
                modify (set_createIssueInfo None) ;;;
                liftR (emit (EExecuteCommand "workbench.action.closeActiveEditor"))
          end
      end
  end.

End CreateIssueFromFile.

(** ** Reading a trace *)

Definition executedCommands (tr : list Event) : list string :=
  omap (fun e => match e with EExecuteCommand c => Some c | _ => None end) tr.

(** The checkout-or-create attempts: the branch each one names. *)
Definition attempts (tr : list Event) : list string :=
  omap (fun e => match e with
                 | ECheckout b => Some b
                 | ECreateBranch b _ => Some b
                 | _ => None
                 end) tr.

(** The issues created: the parameters of each creation. *)
Definition createdIssues (tr : list Event) : list CreateParams :=
  omap (fun e => match e with ECreateIssue p => Some p | _ => None end) tr.

(** The pushes for a draft pull request, each with its answer. *)
Definition draftPushes (tr : list Event) : list (Res bool) :=
  omap (fun e => match e with EPushAndCreatePR true r => Some r | _ => None end) tr.

Definition succeededPushes (tr : list Event) : nat :=
  length (omap (fun r => match r with Ok true => Some tt | _ => None end)
               (draftPushes tr)).

Definition inputBoxesShown (tr : list Event) : nat :=
  length (omap (fun e => match e with EShowInputBox _ _ => Some tt | _ => None end) tr).

(** ** Weakest preconditions *)

Definition wp {S A} (m : M S A) (Q : Res A -> S -> Prop) (s : S) : Prop :=
  Q (m s).1 (m s).2.
Arguments wp : simpl never.

(** ** What a step leaves alone *)

(** [frame n s s']: from [s] to [s'] the session is about the same issue and
    repository with the same defaults, the settings are the same, no draft
    pull request was pushed and the draft-PR flag of issue [n] is the same. *)
Record frame (n : N) (s s' : Sess) : Prop := {
  fr_issue : issueModel (this s') = issueModel (this s);
  fr_prompt : shouldPromptForBranch (this s') = shouldPromptForBranch (this s);
  fr_repo : repo (this s') = repo (this s);
  fr_defaults : repoDefaults (this s') = repoDefaults (this s);
  fr_config : config (world s') = config (world s);
  fr_pushes : draftPushes (trace (world s')) = draftPushes (trace (world s));
  fr_flag : hasDraftPR (getSavedIssueState n (world s')) =
            hasDraftPR (getSavedIssueState n (world s));
}.

(** [quiet s s']: moreover nothing was persisted and no checkout or branch
    creation was attempted. *)
Record quiet (s s' : Sess) : Prop := {
  qu_issue : issueModel (this s') = issueModel (this s);
  qu_prompt : shouldPromptForBranch (this s') = shouldPromptForBranch (this s);
  qu_repo : repo (this s') = repo (this s);
  qu_defaults : repoDefaults (this s') = repoDefaults (this s);
  qu_config : config (world s') = config (world s);
  qu_pushes : draftPushes (trace (world s')) = draftPushes (trace (world s));
  qu_saved : saved (world s') = saved (world s);
  qu_attempts : attempts (trace (world s')) = attempts (trace (world s));
}.

(** The resolved name, from a candidate: the candidate itself, or, when it is
    blank, the deterministic name of the user the session then holds. *)
Definition nameFrom (t : CurrentIssue) (candidate : option string) (s' : Sess)
    (name : string) : Prop :=
  if truthy candidate then candidate = Some name
  else exists u, user (this s') = Some u /\ name = getBasicBranchName t u.

(** The status-bar item of an issue, with the defaults the session holds. *)
Definition statusBarItemOf (env : Env) (i : IssueModel) (d : option PullRequestDefaults)
  : StatusBarItem :=
  {| text := "$(issues) Issue " +:+ env_getIssueNumberLabel env i d;
     tooltip := title i;
     command := "issue.statusBar" |}.

(** [extends tr tr']: the trace [tr'] is [tr] with later calls added. *)
Definition extends (tr tr' : list Event) : Prop :=
  exists later, tr' = (later ++ tr)%list.

(** ** Starting work repeatedly *)

(** Work is started on the same issue once per element of [calls], each time
    with a new tracker object, with or without a prompt request and under
    the settings of the time; a failed start does not prevent the next. *)
Fixpoint startWorkingRepeatedly (env : Env) (i : IssueModel)
    (calls : list (bool * Config)) (w : World) : World :=
  match calls with
  | [] => w
  | (prompt, c) :: rest =>
      let w1 := with_config c w in
      let s := {| this := constructCurrentIssue env i prompt w1; world := w1 |} in
      startWorkingRepeatedly env i rest (world (startWorking env s).2)
  end.

(** The pushes that succeeded so far, plus one while the draft-PR flag of
    issue [n] is not set. *)
Definition pushBudget (n : N) (w : World) : nat :=
  succeededPushes (trace w) +
  (if hasDraftPR (getSavedIssueState n w) then 0 else 1).

(** ** Sample collaborators and states *)

Definition sampleDefaults : PullRequestDefaults :=
  {| defaults_owner := "octo"; defaults_repo := "demo"; base := "main" |}.

Definition sampleIssue : IssueModel :=
  {| number := 7; title := "Fix parsing";
     html_url := "https://github.com/octo/demo/issues/7";
     remote := {| remoteName := "origin"; owner := "octo"; repositoryName := "demo" |} |}.

(** The same number in another repository. *)
Definition otherIssue : IssueModel :=
  {| number := 7; title := "Update docs";
     html_url := "https://github.com/octo/docs/issues/7";
     remote := {| remoteName := "origin"; owner := "octo"; repositoryName := "docs" |} |}.

(** Collaborators that answer every call, with the answers that vary between
    the examples as parameters; the authenticated user is alice. *)
Definition sampleEnv
    (defaults : list Event -> Res PullRequestDefaults)
    (git : list Event -> string -> Res unit)
    (input : option string)
    (subst : option string -> string)
    (push : list Event -> Res bool)
    (created : option IssueModel) : Env :=
  {| env_getPullRequestDefaults := defaults;
     env_getBranch := fun _ _ => Ok None;
     env_checkout := git;
     env_createBranch := fun tr b _ => git tr b;
     env_getAuthenticatedUser := fun _ => Ok "alice";
     env_showInputBox := fun _ _ _ => Ok input;
     env_variableSubstitution := fun _ v _ _ _ => Ok (subst v);
     env_pushAndCreatePR := fun tr _ => push tr;
     env_showQuickPick := fun _ _ => Ok None;
     env_openExternal := fun _ _ => Ok true;
     env_getMergeBase := fun _ _ _ => Ok "0a1b";
     env_getCommitMessage := fun _ _ => Ok "message";
     env_diffBetween := fun _ _ _ _ => Ok "diff";
     env_createDirectory := fun _ _ => Ok tt;
     env_writeFile := fun _ _ _ => Ok tt;
     env_pull := fun _ => Ok tt;
     env_apply := fun _ _ => Ok tt;
     env_HEAD := fun _ => None;
     env_storagePath := "/storage";
     env_createGithubPermalink := fun _ _ => Ok (Some "https://github.com/octo/demo/blob/0a1b/a.ts#L3");
     env_createIssue := fun _ _ => Ok created;
     env_applyEdit := fun _ => Ok true;
     env_executeCommand := fun _ _ => Ok tt;
     env_resolveIssue := fun _ _ _ _ => Ok None;
     env_activeTextEditor := fun _ => None;
     env_getIssueNumberLabel := fun i _ => "#" +:+ pretty (number i);
     env_toLowerCase := fun s => s;
     env_search := fun _ _ => (-1)%Z;
     env_regExpError := fun _ => None;
     env_JSON_stringify := fun _ => "[]" |}.

Definition gitOk : list Event -> string -> Res unit := fun _ _ => Ok tt.
Definition gitFails : list Event -> string -> Res unit := fun _ _ => Throw "conflict".
Definition defaultsOk : list Event -> Res PullRequestDefaults := fun _ => Ok sampleDefaults.
Definition defaultsFail : list Event -> Res PullRequestDefaults := fun _ => Throw "no remote".

(** Collaborators that all succeed. *)
Definition envOk : Env :=
  sampleEnv defaultsOk gitOk (Some "topic") (fun v => default "x" v)
            (fun _ => Ok true) (Some sampleIssue).

Definition sampleConfig (branchCfg : option string) (draft : bool) : Config :=
  {| createIssueBranchConfig := branchCfg;
     branchNameConfig := Some "${user}/issue${issueNumber}";
     alwaysCreateDraftPR := draft;
     workingIssueFormatScm := Some "${issueTitle} Fixes #${issueNumber}";
     createInsertFormat := None;
     queriesInspect := None;
     queriesValue := None |}.

Definition sampleWorld (c : Config) (m : gmap N IssueState) : World :=
  {| trace := []; saved := m; config := c; currentIssue := None;
     userMap := {[ "alice" ]}; repositories := [] |}.

(** A session on the sample issue, about to start. *)
Definition sampleSession (env : Env) (prompt : bool) (w : World) : Sess :=
  {| this := constructCurrentIssue env sampleIssue prompt w; world := w |}.

(** Every checkout and every branch creation fails. *)
Definition envConflict : Env :=
  sampleEnv defaultsOk gitFails (Some "topic") (fun v => default "x" v)
            (fun _ => Ok true) (Some sampleIssue).

(** The persisted state in which issue 7 has the given branch name. *)
Definition savedBranch (b : string) : gmap N IssueState :=
  {[ 7%N := {| branch := Some b; hasDraftPR := false |} ]}.

(** Checkout and creation fail on one branch name only. *)
Definition gitFailsOn (bad : string) : list Event -> string -> Res unit :=
  fun _ b => if String.eqb b bad then Throw "conflict" else Ok tt.

Definition envTopicTaken : Env :=
  sampleEnv defaultsOk (gitFailsOn "topic") (Some "topic") (fun v => default "x" v)
            (fun _ => Ok true) (Some sampleIssue).

(** The persisted state in which issue 7 has a branch name and a draft pull
    request already. *)
Definition savedDraft (b : string) : gmap N IssueState :=
  {[ 7%N := {| branch := Some b; hasDraftPR := true |} ]}.

(** The defaults lookup fails the first time it is made and succeeds from
    then on. *)
Definition defaultsLater : list Event -> Res PullRequestDefaults :=
  fun tr => match tr with
            | [] => Throw "no remote"
            | _ => Ok sampleDefaults
            end.

Definition envRemoteLater : Env :=
  sampleEnv defaultsLater gitOk (Some "topic") (fun _ => "alice/issue7")
            (fun _ => Ok true) (Some sampleIssue).

Definition workspaceQueries : Config :=
  {| createIssueBranchConfig := None; branchNameConfig := None;
     alwaysCreateDraftPR := false; workingIssueFormatScm := None;
     createInsertFormat := None;
     queriesInspect :=
       Some {| defaultValue := Some [ {| label := "My Issues"; query := "is:open" |} ];
               globalValue := None;
               workspaceValue := Some [ {| label := "Team"; query := "is:open label:team" |} ];
               workspaceFolderValue := None |};
     queriesValue := Some [ {| label := "Team"; query := "is:open label:team" |} ] |}.

(** A document with one line of text, and a new issue raised on that line
    at the end of its text. *)
Definition documentOf (content : string) : TextDocument :=
  {| uri := "file:///a.ts"; isUntitled := false;
     getText := fun _ => content;
     lineAt_range := fun l => {| range_start := {| line := l; character := 0 |};
                                 range_end := {| line := l;
                                                 character := String.length content |} |};
     positionAt := fun k => {| line := 0; character := k |} |}.

Definition newIssueOn (content : string) : NewIssue :=
  {| ni_document := documentOf content; ni_lineNumber := 0; ni_line := content;
     ni_insertIndex := String.length content;
     ni_range := {| range_start := {| line := 0; character := 0 |};
                    range_end := {| line := 0; character := 0 |} |} |}.

Definition sampleDocument : TextDocument := documentOf "// TODO fix parsing @alice".

(** ** Further readings of a trace *)

Definition errorMessages (tr : list Event) : list string :=
  omap (fun e => match e with EShowErrorMessage m => Some m | _ => None end) tr.

Definition userLookups (tr : list Event) : nat :=
  length (omap (fun e => match e with EGetAuthenticatedUser => Some tt | _ => None end) tr).

Definition configUpdates (tr : list Event) : list (list Query) :=
  omap (fun e => match e with EConfigUpdateGlobal v => Some v | _ => None end) tr.

(** The state in which [stopWorking] of the tracker reaches its checkout:
    the commit message box of the matched repository, if any, is cleared. *)
Definition messageCleared (s : Sess) : World :=
  match repo (this s) with
  | Some r => log (ESetInputBox r EmptyString) (world s)
  | None => world s
  end.

(** A branch at a commit, and collaborators whose branch lookup answers with
    a branch or fails. *)
Definition sampleBranch : Branch := {| branch_name := "main"; commit := Some "0a1b" |}.

Definition withGetBranch (answer : Res (option Branch)) (env : Env) : Env :=
  {| env_getPullRequestDefaults := env_getPullRequestDefaults env;
     env_getBranch := fun _ _ => answer;
     env_checkout := env_checkout env;
     env_createBranch := env_createBranch env;
     env_getAuthenticatedUser := env_getAuthenticatedUser env;
     env_showInputBox := env_showInputBox env;
     env_variableSubstitution := env_variableSubstitution env;
     env_pushAndCreatePR := env_pushAndCreatePR env;
     env_showQuickPick := env_showQuickPick env;
     env_openExternal := env_openExternal env;
     env_getMergeBase := env_getMergeBase env;
     env_getCommitMessage := env_getCommitMessage env;
     env_diffBetween := env_diffBetween env;
     env_createDirectory := env_createDirectory env;
     env_writeFile := env_writeFile env;
     env_pull := env_pull env;
     env_apply := env_apply env;
     env_HEAD := env_HEAD env;
     env_storagePath := env_storagePath env;
     env_createGithubPermalink := env_createGithubPermalink env;
     env_createIssue := env_createIssue env;
     env_applyEdit := env_applyEdit env;
     env_executeCommand := env_executeCommand env;
     env_resolveIssue := env_resolveIssue env;
     env_activeTextEditor := env_activeTextEditor env;
     env_getIssueNumberLabel := env_getIssueNumberLabel env;
     env_toLowerCase := env_toLowerCase env;
     env_search := env_search env;
     env_regExpError := env_regExpError env;
     env_JSON_stringify := env_JSON_stringify env |}.

(** A session that holds the defaults and a status-bar item. *)
Definition startedSession (w : World) : Sess :=
  {| this := set_statusBarItem (Some (statusBarItemOf envOk sampleIssue (Some sampleDefaults)))
               (set_repoDefaults (Some sampleDefaults) (newCurrentIssue sampleIssue false));
     world := w |}.

(** Two local repositories: one with another remote, one with the remote of
    the sample issue and no fetch URL. *)
Definition sampleRepositories : list Repository :=
  [ {| remotes := [ {| git_remote_name := "upstream"; fetchUrl := None |} ] |};
    {| remotes := [ {| git_remote_name := "origin"; fetchUrl := None |} ] |} ].

(** [elsewhere n s s']: the persisted state of every issue but [n] is the
    same in [s'] as in [s]. *)
Definition elsewhere (n : N) (s s' : Sess) : Prop :=
  forall m, m <> n -> saved (world s') !! m = saved (world s) !! m.

(** The commit messages put into the input box of the manager's repository,
    latest first. *)
Definition messagesSet (tr : list Event) : list string :=
  omap (fun e => match e with ESetManagerInputBox m => Some m | _ => None end) tr.

(** The calls of a complete run of [applyPatch] from HEAD commit [hc] to the
    commit [bc] of [baseBranch], latest first. *)
Definition patchRun (env : Env) (baseBranch hc bc mergeBase message diff : string)
    : list Event :=
  [ ESetManagerInputBox message;
    EApply (env_storagePath env +:+ "/diff.patch");
    EPull;
    ECheckout baseBranch;
    EWriteFile (env_storagePath env +:+ "/diff.patch") diff;
    ECreateDirectory (env_storagePath env);
    EDiffBetween mergeBase hc ".";
    EGetCommit mergeBase;
    EGetMergeBase hc bc;
    EGetBranch baseBranch ].

(** Collaborators with the given HEAD. *)
Definition withHEAD (h : option Branch) (env : Env) : Env :=
  {| env_getPullRequestDefaults := env_getPullRequestDefaults env;
     env_getBranch := env_getBranch env;
     env_checkout := env_checkout env;
     env_createBranch := env_createBranch env;
     env_getAuthenticatedUser := env_getAuthenticatedUser env;
     env_showInputBox := env_showInputBox env;
     env_variableSubstitution := env_variableSubstitution env;
     env_pushAndCreatePR := env_pushAndCreatePR env;
     env_showQuickPick := env_showQuickPick env;
     env_openExternal := env_openExternal env;
     env_getMergeBase := env_getMergeBase env;
     env_getCommitMessage := env_getCommitMessage env;
     env_diffBetween := env_diffBetween env;
     env_createDirectory := env_createDirectory env;
     env_writeFile := env_writeFile env;
     env_pull := env_pull env;
     env_apply := env_apply env;
     env_HEAD := fun _ => h;
     env_storagePath := env_storagePath env;
     env_createGithubPermalink := env_createGithubPermalink env;
     env_createIssue := env_createIssue env;
     env_applyEdit := env_applyEdit env;
     env_executeCommand := env_executeCommand env;
     env_resolveIssue := env_resolveIssue env;
     env_activeTextEditor := env_activeTextEditor env;
     env_getIssueNumberLabel := env_getIssueNumberLabel env;
     env_toLowerCase := env_toLowerCase env;
     env_search := env_search env;
     env_regExpError := env_regExpError env;
     env_JSON_stringify := env_JSON_stringify env |}.

(** Collaborators on a topic branch whose base branch exists. *)
Definition envPatch : Env :=
  withHEAD (Some {| branch_name := "topic"; commit := Some "9f3e" |})
           (withGetBranch (Ok (Some sampleBranch)) envOk).

(** Collaborators whose quick pick is always answered with [pick]. *)
Definition withQuickPick (pick : option string) (env : Env) : Env :=
  {| env_getPullRequestDefaults := env_getPullRequestDefaults env;
     env_getBranch := env_getBranch env;
     env_checkout := env_checkout env;
     env_createBranch := env_createBranch env;
     env_getAuthenticatedUser := env_getAuthenticatedUser env;
     env_showInputBox := env_showInputBox env;
     env_variableSubstitution := env_variableSubstitution env;
     env_pushAndCreatePR := env_pushAndCreatePR env;
     env_showQuickPick := fun _ _ => Ok pick;
     env_openExternal := env_openExternal env;
     env_getMergeBase := env_getMergeBase env;
     env_getCommitMessage := env_getCommitMessage env;
     env_diffBetween := env_diffBetween env;
     env_createDirectory := env_createDirectory env;
     env_writeFile := env_writeFile env;
     env_pull := env_pull env;
     env_apply := env_apply env;
     env_HEAD := env_HEAD env;
     env_storagePath := env_storagePath env;
     env_createGithubPermalink := env_createGithubPermalink env;
     env_createIssue := env_createIssue env;
     env_applyEdit := env_applyEdit env;
     env_executeCommand := env_executeCommand env;
     env_resolveIssue := env_resolveIssue env;
     env_activeTextEditor := env_activeTextEditor env;
     env_getIssueNumberLabel := env_getIssueNumberLabel env;
     env_toLowerCase := env_toLowerCase env;
     env_search := env_search env;
     env_regExpError := env_regExpError env;
     env_JSON_stringify := env_JSON_stringify env |}.

(** A world whose current issue is the sample issue, with a draft pull
    request already recorded for it. *)
Definition worldWithDraft : World :=
  with_currentIssue (Some (newCurrentIssue sampleIssue false))
                    (sampleWorld (sampleConfig None true) (savedDraft "topic")).

(** A text without a line feed. *)
Fixpoint singleLine (s : string) : bool :=
  match s with
  | EmptyString => true
  | String c s' => negb (Ascii.eqb c LF) && singleLine s'
  end.

(** A registrar that holds the draft of the input box [q]. *)
Definition draftingRegistrar (q : QuickInput) (w : World) : Registrar :=
  {| createIssueInfo := Some (infoOf q); reg_world := w |}.

(** Collaborators whose active editor shows [text] and whose creation of an
    issue is answered with [created]. *)
Definition withEditor (text : string) (created : Res (option IssueModel)) (env : Env)
    : Env :=
  {| env_getPullRequestDefaults := env_getPullRequestDefaults env;
     env_getBranch := env_getBranch env;
     env_checkout := env_checkout env;
     env_createBranch := env_createBranch env;
     env_getAuthenticatedUser := env_getAuthenticatedUser env;
     env_showInputBox := env_showInputBox env;
     env_variableSubstitution := env_variableSubstitution env;
     env_pushAndCreatePR := env_pushAndCreatePR env;
     env_showQuickPick := env_showQuickPick env;
     env_openExternal := env_openExternal env;
     env_getMergeBase := env_getMergeBase env;
     env_getCommitMessage := env_getCommitMessage env;
     env_diffBetween := env_diffBetween env;
     env_createDirectory := env_createDirectory env;
     env_writeFile := env_writeFile env;
     env_pull := env_pull env;
     env_apply := env_apply env;
     env_HEAD := env_HEAD env;
     env_storagePath := env_storagePath env;
     env_createGithubPermalink := env_createGithubPermalink env;
     env_createIssue := fun _ _ => created;
     env_applyEdit := env_applyEdit env;
     env_executeCommand := env_executeCommand env;
     env_resolveIssue := env_resolveIssue env;
     env_activeTextEditor := fun _ =>
       Some {| document := documentOf text;
               selection := {| range_start := {| line := 0; character := 0 |};
                               range_end := {| line := 0; character := 0 |} |} |};
     env_getIssueNumberLabel := env_getIssueNumberLabel env;
     env_toLowerCase := env_toLowerCase env;
     env_search := env_search env;
     env_regExpError := env_regExpError env;
     env_JSON_stringify := env_JSON_stringify env |}.

(** The input box of a to-do comment of the sample document. *)
Definition sampleInput : QuickInput :=
  {| qi_document := sampleDocument; qi_newIssue := None; qi_value := "Fix parsing";
     qi_body := Some "The parser stops early."; qi_assignee := Some "alice";
     qi_lineNumber := Some 0; qi_insertIndex := Some 26 |}.

(** A title and a body on two lines, with no empty line between them. *)
Definition twoLines : string := "Fix parsing" +:+ String LF "Stops.".

(** The draft of the sample input box, and the same title and body with
    Windows line ends. *)
Definition sampleDraft : string := draftText "Fix parsing" (qi_body sampleInput).

Definition windowsDraft : string :=
  "Fix parsing" +:+ emptyLineWindows +:+ "The parser stops early.".

(** The URLs opened in the browser, the edits applied to documents (where
    and what), and the number of times the input box was hidden. *)
Definition openedUrls (tr : list Event) : list string :=
  omap (fun e => match e with EOpenExternal u => Some u | _ => None end) tr.

Definition appliedEdits (tr : list Event) : list (string * Position * string) :=
  omap (fun e => match e with EApplyEdit u p t => Some (u, p, t) | _ => None end) tr.

Definition inputBoxesHidden (tr : list Event) : nat :=
  length (omap (fun e => match e with EInputBoxHide => Some tt | _ => None end) tr).

(** The values written to the commit message box of a repository. *)
Definition inputBoxValues (tr : list Event) : list (nat * string) :=
  omap (fun e => match e with ESetInputBox r v => Some (r, v) | _ => None end) tr.

(** [calm s s']: no commit message box was written and the session is on
    the same repository. *)
Definition calm (s s' : Sess) : Prop :=
  inputBoxValues (trace (world s')) = inputBoxValues (trace (world s)) /\
  repo (this s') = repo (this s).

(** ** The branch name by the words of the spec

    The names the spec gives, as functions of the session before the branch
    is resolved and of the trace then, to compare [createIssueBranch] with. *)

(** The user: the name the session holds, else the authenticated user of the
    remote, asked when the trace is [tr]. *)
Definition expectedUser (env : Env) (held : option string) (tr : list Event) : Res string :=
  if truthy held then Ok (tpl held) else env_getAuthenticatedUser env tr.

(** The deterministic name, [<user>/issue<number>]. *)
Definition expectedDeterministicName (env : Env) (held : option string) (tr : list Event)
    (n : N) : Res string :=
  match expectedUser env held tr with
  | Ok u => Ok (u +:+ "/issue" +:+ pretty n)
  | Throw e => Throw e
  end.

(** The name when the user is asked: the answer, or the deterministic name
    when the prompt is left blank. *)
Definition expectedAskedName (env : Env) (t : CurrentIssue) (tr : list Event) : Res string :=
  let n := number (issueModel t) in
  let placeHolder := "issue" +:+ pretty n in
  let prompt := "Enter the label for the new branch." in
  match env_showInputBox env tr placeHolder prompt with
  | Ok answer =>
      if truthy answer then Ok (tpl answer)
      else expectedDeterministicName env (user t) (EShowInputBox placeHolder prompt :: tr) n
  | Throw e => Throw e
  end.

(** The name by template substitution, for the user of the session; the
    deterministic name when the template gives a blank name. *)
Definition expectedTemplateName (env : Env) (t : CurrentIssue) (c : Config) (tr : list Event)
    : Res string :=
  let n := number (issueModel t) in
  let tr1 := if truthy (user t) then tr else EGetAuthenticatedUser :: tr in
  match expectedUser env (user t) tr with
  | Ok u =>
      match env_variableSubstitution env tr1 (branchNameConfig c) (issueModel t) None
              (Some u) with
      | Ok name =>
          if truthy (Some name) then Ok name
          else expectedDeterministicName env (Some u)
                 (EVariableSubstitution (branchNameConfig c) (issueModel t) None (Some u)
                  :: tr1) n
      | Throw e => Throw e
      end
  | Throw e => Throw e
  end.

(** Another issue and another user, for the names that are derived. *)
Definition issue42 : IssueModel :=
  {| number := 42; title := "Crash on start";
     html_url := "https://github.com/octo/demo/issues/42";
     remote := {| remoteName := "origin"; owner := "octo"; repositoryName := "demo" |} |}.

(** The prompt is dismissed and the template gives an empty name. *)
Definition envBlank : Env :=
  sampleEnv defaultsOk gitOk None (fun _ => EmptyString) (fun _ => Ok true) (Some sampleIssue).

(** The template gives a name. *)
Definition envTemplate : Env :=
  sampleEnv defaultsOk gitOk None (fun _ => "alice/crash-on-start") (fun _ => Ok true)
            (Some sampleIssue).

(** A session on issue 42, with or without prompt request, that holds the
    user name [held]. *)
Definition sessionOf42 (prompt : bool) (held : option string) (w : World) : Sess :=
  {| this := set_user held (newCurrentIssue issue42 prompt); world := w |}.

(** Lower case and search for the examples: ASCII letters, and a pattern
    without special characters, found where it first occurs. *)
Definition lowerCaseAscii (c : ascii) : ascii :=
  let n := nat_of_ascii c in
  if Nat.leb 65 n && Nat.leb n 90 then ascii_of_nat (n + 32) else c.

Fixpoint lowerCase (s : string) : string :=
  match s with
  | EmptyString => EmptyString
  | String c s' => String (lowerCaseAscii c) (lowerCase s')
  end.

Definition searchPlain (text pattern : string) : Z :=
  match index 0 pattern text with
  | Some k => Z.of_nat k
  | None => (-1)%Z
  end.

Definition withSearch (env : Env) : Env :=
  {| env_getPullRequestDefaults := env_getPullRequestDefaults env;
     env_getBranch := env_getBranch env;
     env_checkout := env_checkout env;
     env_createBranch := env_createBranch env;
     env_getAuthenticatedUser := env_getAuthenticatedUser env;
     env_showInputBox := env_showInputBox env;
     env_variableSubstitution := env_variableSubstitution env;
     env_pushAndCreatePR := env_pushAndCreatePR env;
     env_showQuickPick := env_showQuickPick env;
     env_openExternal := env_openExternal env;
     env_getMergeBase := env_getMergeBase env;
     env_getCommitMessage := env_getCommitMessage env;
     env_diffBetween := env_diffBetween env;
     env_createDirectory := env_createDirectory env;
     env_writeFile := env_writeFile env;
     env_pull := env_pull env;
     env_apply := env_apply env;
     env_HEAD := env_HEAD env;
     env_storagePath := env_storagePath env;
     env_createGithubPermalink := env_createGithubPermalink env;
     env_createIssue := env_createIssue env;
     env_applyEdit := env_applyEdit env;
     env_executeCommand := env_executeCommand env;
     env_resolveIssue := env_resolveIssue env;
     env_activeTextEditor := env_activeTextEditor env;
     env_getIssueNumberLabel := env_getIssueNumberLabel env;
     env_toLowerCase := lowerCase;
     env_search := searchPlain;
     env_regExpError := env_regExpError env;
     env_JSON_stringify := env_JSON_stringify env |}.

(** Three local repositories with fetch URLs: the remote of the first has
    the name of the issue's remote and the URL of another repository, the
    remote of the second has the URL of the issue's repository under another
    name, the remote of the third has the name and, in other case, the
    URL. *)
Definition repositoriesWithUrls : list Repository :=
  [ {| remotes := [ {| git_remote_name := "origin";
                       fetchUrl := Some "https://github.com/octo/docs.git" |} ] |};
    {| remotes := [ {| git_remote_name := "upstream";
                       fetchUrl := Some "https://github.com/Octo/Demo.git" |} ] |};
    {| remotes := [ {| git_remote_name := "origin";
                       fetchUrl := Some "git@github.com:Octo/Demo.git" |} ] |} ].

Definition worldWithRepositories (rs : list Repository) : World :=
  {| trace := []; saved := ∅; config := sampleConfig None false;
     currentIssue := None; userMap := ∅; repositories := rs |}.

(** * Properties *)

(** ** Rules of the weakest precondition *)

Section WpRules.

Context {S : Type}.

Lemma wp_run {A} (m : M S A) (Q : Res A -> S -> Prop) s r s' :
  m s = (r, s') -> wp m Q s -> Q r s'.
Proof. unfold wp. intros ->. done. Qed.

Lemma wp_intro {A} (m : M S A) (Q : Res A -> S -> Prop) s :
  (forall r s', m s = (r, s') -> Q r s') -> wp m Q s.
Proof. unfold wp. intros H. apply H. by destruct (m s). Qed.

Lemma wp_mono {A} (m : M S A) (Q Q' : Res A -> S -> Prop) s :
  wp m Q s -> (forall r s', Q r s' -> Q' r s') -> wp m Q' s.
Proof. unfold wp. auto. Qed.

Lemma wp_and {A} (m : M S A) (Q1 Q2 : Res A -> S -> Prop) s :
  wp m Q1 s -> wp m Q2 s -> wp m (fun r s' => Q1 r s' /\ Q2 r s') s.
Proof. unfold wp. auto. Qed.

Lemma wp_ret {A} (a : A) (Q : Res A -> S -> Prop) s :
  Q (Ok a) s -> wp (ret a) Q s.
Proof. done. Qed.

Lemma wp_throw {A} e (Q : Res A -> S -> Prop) s :
  Q (Throw e) s -> wp (throw e) Q s.
Proof. done. Qed.

Lemma wp_bind {A B} (c : M S A) (k : A -> M S B) (Q : Res B -> S -> Prop) s :
  wp c (fun r s' => match r with
                    | Ok a => wp (k a) Q s'
                    | Throw e => Q (Throw e) s'
                    end) s ->
  wp (bind c k) Q s.
Proof. unfold wp, bind. by destruct (c s) as [[a|e] s']. Qed.

Lemma wp_try_catch {A} (c : M S A) (h : Err -> M S A) (Q : Res A -> S -> Prop) s :
  wp c (fun r s' => match r with
                    | Ok a => Q (Ok a) s'
                    | Throw e => wp (h e) Q s'
                    end) s ->
  wp (try_catch c h) Q s.
Proof. unfold wp, try_catch. by destruct (c s) as [[a|e] s']. Qed.

Lemma wp_get (Q : Res S -> S -> Prop) s : Q (Ok s) s -> wp get Q s.
Proof. done. Qed.

Lemma wp_modify (f : S -> S) (Q : Res unit -> S -> Prop) s :
  Q (Ok tt) (f s) -> wp (modify f) Q s.
Proof. done. Qed.

Lemma wp_when (b : bool) (c : M S unit) (Q : Res unit -> S -> Prop) s :
  (if b then wp c Q s else Q (Ok tt) s) -> wp (when b c) Q s.
Proof. by destruct b. Qed.

End WpRules.

Lemma wp_call {A} ev (answer : list Event -> Res A) (Q : Res A -> World -> Prop) w :
  Q (answer (trace w)) (log ev w) -> wp (call ev answer) Q w.
Proof. done. Qed.

Lemma wp_emit ev (Q : Res unit -> World -> Prop) w :
  Q (Ok tt) (log ev w) -> wp (emit ev) Q w.
Proof. done. Qed.

Lemma wp_liftW {A} (m : M World A) (Q : Res A -> Sess -> Prop) s :
  wp m (fun r w' => Q r {| this := this s; world := w' |}) (world s) ->
  wp (liftW m) Q s.
Proof. unfold wp, liftW. by destruct (m (world s)). Qed.

Lemma wp_getThis (Q : Res CurrentIssue -> Sess -> Prop) s :
  Q (Ok (this s)) s -> wp getThis Q s.
Proof. done. Qed.

Lemma wp_getWorld (Q : Res World -> Sess -> Prop) s :
  Q (Ok (world s)) s -> wp getWorld Q s.
Proof. done. Qed.

Lemma wp_setThis f (Q : Res unit -> Sess -> Prop) s :
  Q (Ok tt) {| this := f (this s); world := world s |} -> wp (setThis f) Q s.
Proof. done. Qed.

Lemma wp_setSavedIssueState i st (Q : Res unit -> World -> Prop) w :
  Q (Ok tt) (with_saved (<[number i := st]> (saved w)) w) ->
  wp (setSavedIssueState i st) Q w.
Proof. done. Qed.

Lemma wp_pushAndCreatePR env draft (Q : Res bool -> World -> Prop) w :
  Q (env_pushAndCreatePR env (trace w) draft)
    (log (EPushAndCreatePR draft (env_pushAndCreatePR env (trace w) draft)) w) ->
  wp (pushAndCreatePR env draft) Q w.
Proof. done. Qed.

(** One step of symbolic execution: a rule for the head of the program, or a
    case split on what the program branches on. *)
Ltac wp_step :=
  lazymatch goal with
  | |- wp (bind _ _) _ _ => apply wp_bind
  | |- wp (try_catch _ _) _ _ => apply wp_try_catch
  | |- wp (ret _) _ _ => apply wp_ret
  | |- wp (throw _) _ _ => apply wp_throw
  | |- wp get _ _ => apply wp_get
  | |- wp (modify _) _ _ => apply wp_modify
  | |- wp (when _ _) _ _ => apply wp_when
  | |- wp (call _ _) _ _ => apply wp_call
  | |- wp (emit _) _ _ => apply wp_emit
  | |- wp (liftW _) _ _ => apply wp_liftW
  | |- wp getThis _ _ => apply wp_getThis
  | |- wp getWorld _ _ => apply wp_getWorld
  | |- wp (setThis _) _ _ => apply wp_setThis
  | |- wp (setSavedIssueState _ _) _ _ => apply wp_setSavedIssueState
  | |- wp (pushAndCreatePR _ _) _ _ => apply wp_pushAndCreatePR
  | |- wp (if ?b then _ else _) _ _ => destruct b eqn:?
  | |- wp (match ?x with _ => _ end) _ _ => destruct x eqn:?
  | |- match ?r with Ok _ => _ | Throw _ => _ end => destruct r eqn:?
  | |- if ?b then _ else _ => destruct b eqn:?
  end; cbn beta iota zeta.

Ltac wp_steps := repeat wp_step.

(** ** Opening the settings of the queries (C9) *)

Lemma editQuery_wp env label w :
  wp (editQuery env label)
     (fun _ w' =>
        executedCommands (trace w') =
          (if bool_decide (is_Some (queriesInspect (config w) ≫= workspaceValue))
           then "workbench.action.openWorkspaceSettingsFile"
           else "workbench.action.openSettingsJson") :: executedCommands (trace w)) w.
Proof.
  unfold editQuery. wp_steps; cbn; try done.
Qed.

(** C9. [editQuery] executes exactly one command: the one that opens the
    workspace settings file when the queries setting has a workspace value,
    and the one that opens the user settings JSON only when it has none. *)
Theorem editQuery_opens_settings env label w :
  let w' := (editQuery env label w).2 in
  (is_Some (queriesInspect (config w) ≫= workspaceValue) ->
     executedCommands (trace w') =
       "workbench.action.openWorkspaceSettingsFile" :: executedCommands (trace w)) /\
  (queriesInspect (config w) ≫= workspaceValue = None ->
     executedCommands (trace w') =
       "workbench.action.openSettingsJson" :: executedCommands (trace w)).
Proof.
  pose proof (editQuery_wp env label w) as H. unfold wp in H. cbn zeta.
  split; intros Hw; rewrite H.
  - by rewrite bool_decide_true.
  - rewrite bool_decide_false; [done|]. rewrite Hw. by intros [? ?].
Qed.

Lemma editQuery_opens_settings_witness :
  executedCommands (trace (editQuery envOk "Team" (sampleWorld workspaceQueries ∅)).2) =
    ["workbench.action.openWorkspaceSettingsFile"].
Proof.
  apply (proj1 (editQuery_opens_settings envOk "Team" (sampleWorld workspaceQueries ∅))).
  eexists. reflexivity.
Defined.

(** ** Creating an issue without a remote (C7) *)

(** C7. When the pull-request defaults cannot be determined, [doCreateIssue]
    and [createIssue] return normally, the only calls they make are the
    failed lookup and the error message, so no issue is created and no edit
    is applied; the input box that started the creation is then hidden. *)
Theorem createIssue_without_remote env w e :
  env_getPullRequestDefaults env (trace w) = Throw e ->
  (forall doc newIssue title issueBody assignee lineNumber insertIndex,
     doCreateIssue env doc newIssue title issueBody assignee lineNumber insertIndex w =
       (Ok tt, log (EShowErrorMessage "There is no remote. Can't create an issue.")
                   (log EGetPullRequestDefaults w))) /\
  (forall q value, truthy (Some value) = true ->
     onDidAccept env q value w =
       (Ok tt, log EInputBoxHide
                 (log (EShowErrorMessage "There is no remote. Can't create an issue.")
                      (log EGetPullRequestDefaults w)))) /\
  createIssue env w =
    (Ok tt, log (EShowErrorMessage "Unable to determine where to create the issue.")
                (log EGetPullRequestDefaults w)).
Proof.
  intros H.
  assert (Hdo : forall doc newIssue title issueBody assignee lineNumber insertIndex,
     doCreateIssue env doc newIssue title issueBody assignee lineNumber insertIndex w =
       (Ok tt, log (EShowErrorMessage "There is no remote. Can't create an issue.")
                   (log EGetPullRequestDefaults w))).
  { intros. unfold doCreateIssue, bind, try_catch, call. by rewrite H. }
  split; [exact Hdo|]. split.
  - intros q value Hv. unfold onDidAccept. rewrite Hv.
    unfold bind at 1. by rewrite Hdo.
  - unfold createIssue, bind, try_catch, call. by rewrite H.
Qed.

Lemma createIssue_without_remote_witness :
  createIssue (sampleEnv defaultsFail gitOk None (fun _ => "x") (fun _ => Ok true) None)
              (sampleWorld (sampleConfig None false) ∅) =
    (Ok tt, log (EShowErrorMessage "Unable to determine where to create the issue.")
                (log EGetPullRequestDefaults (sampleWorld (sampleConfig None false) ∅))).
Proof.
  apply (createIssue_without_remote
           (sampleEnv defaultsFail gitOk None (fun _ => "x") (fun _ => Ok true) None)
           (sampleWorld (sampleConfig None false) ∅) "no remote").
  reflexivity.
Defined.

(** ** The reference inserted after an issue is created (C8) *)

Lemma issueBodyOf_config env newIssue issueBody w r w' :
  issueBodyOf env newIssue issueBody w = (r, w') -> config w' = config w.
Proof.
  unfold issueBodyOf, ret, call. case_match; intros [= <- <-]; done.
Qed.

(** The inserted text is the number sign and the issue number when the
    insert format reads [number] (its default), and the issue URL else. *)
Lemma insertText_cases c issue :
  (default "number" (createInsertFormat c) = "number" ->
     insertText c issue = "#" +:+ pretty (number issue)) /\
  (default "number" (createInsertFormat c) <> "number" ->
     insertText c issue = html_url issue).
Proof.
  unfold insertText. split; intros H.
  - by rewrite H, String.eqb_refl.
  - apply String.eqb_neq in H. by rewrite H.
Qed.

(** C8. After [doCreateIssue] has created the remote issue: with both an
    insert index and a line number, one edit is applied that inserts a space
    and the reference (number or URL, by the insert format) at that line and
    index of the source document, and no URL is opened; without one of them,
    the issue URL is opened and no edit is applied. A failure of the edit or
    of the opening is passed on. *)
Theorem doCreateIssue_inserts_reference
    env doc newIssue title issueBody assignee lineNumber insertIndex w d body w2 issue :
  env_getPullRequestDefaults env (trace w) = Ok d ->
  issueBodyOf env newIssue issueBody (log EGetPullRequestDefaults w) = (Ok body, w2) ->
  let params := {| cp_owner := defaults_owner d; cp_repo := defaults_repo d;
                   cp_title := title; cp_body := body; cp_assignee := assignee |} in
  env_createIssue env (trace w2) params = Ok (Some issue) ->
  let w3 := log (ECreateIssue params) w2 in
  let reference :=
    if String.eqb (default "number" (createInsertFormat (config w))) "number"
    then "#" +:+ pretty (number issue) else html_url issue in
  doCreateIssue env doc newIssue title issueBody assignee lineNumber insertIndex w =
    match insertIndex, lineNumber with
    | Some ii, Some ln =>
        let w4 := log (EApplyEdit (uri doc) {| line := ln; character := ii |}
                                  (" " +:+ reference)) w3 in
        match env_applyEdit env (trace w3) with
        | Ok _ => (Ok tt, log ERefreshCacheNeeded w4)
        | Throw e => (Throw e, w4)
        end
    | _, _ =>
        let w4 := log (EOpenExternal (html_url issue)) w3 in
        match env_openExternal env (trace w3) (html_url issue) with
        | Ok _ => (Ok tt, log ERefreshCacheNeeded w4)
        | Throw e => (Throw e, w4)
        end
    end.
Proof.
  intros Hd Hb params Hc w3 reference.
  pose proof (issueBodyOf_config _ _ _ _ _ _ Hb) as Hcfg. cbn in Hcfg.
  unfold doCreateIssue.
  unfold bind at 1. unfold try_catch, bind at 1. unfold call at 1. rewrite Hd. cbn beta iota.
  unfold ret at 1. cbn beta iota.
  unfold bind at 1. rewrite Hb. cbn beta iota.
  unfold bind at 1. unfold call at 1. fold params. rewrite Hc. cbn beta iota.
  fold w3. unfold insertText.
  destruct insertIndex as [ii|], lineNumber as [ln|]; cbn beta iota zeta;
    unfold bind, call, get, emit, modify, ret; cbn;
    rewrite ?Hcfg; repeat case_match; simplify_eq; done.
Qed.

Lemma doCreateIssue_inserts_reference_witness :
  doCreateIssue envOk sampleDocument None "Fix parsing" (Some "body") (Some "alice")
                (Some 0) (Some 26) (sampleWorld (sampleConfig None false) ∅) =
    (Ok tt,
     log ERefreshCacheNeeded
       (log (EApplyEdit "file:///a.ts" {| line := 0; character := 26 |} " #7")
          (log (ECreateIssue {| cp_owner := "octo"; cp_repo := "demo";
                                cp_title := "Fix parsing"; cp_body := Some "body";
                                cp_assignee := Some "alice" |})
             (log EGetPullRequestDefaults (sampleWorld (sampleConfig None false) ∅))))).
Proof.
  apply (doCreateIssue_inserts_reference envOk sampleDocument None "Fix parsing"
           (Some "body") (Some "alice") (Some 0) (Some 26)
           (sampleWorld (sampleConfig None false) ∅) sampleDefaults (Some "body")
           (log EGetPullRequestDefaults (sampleWorld (sampleConfig None false) ∅))
           sampleIssue); reflexivity.
Defined.

(** ** Stopping work without a session (C4) *)

(** C4, as the code has it. [stopWorking] of the registrar does nothing and
    returns normally when there is no current issue, when its argument is not
    an issue, or when the number of its argument differs from the number of
    the current issue: the state, and with it the trace of repository calls,
    is unchanged; so is it after any number of such calls. *)
Theorem stopWorking_without_session env issue w :
  currentIssue w = None \/
  (forall i, issue <> AIssue i) \/
  (exists i cur, issue = AIssue i /\ currentIssue w = Some cur /\
                 number (issueModel cur) <> number i) ->
  registrar_stopWorking env issue w = (Ok tt, w) /\
  (registrar_stopWorking env issue ;;; registrar_stopWorking env issue) w = (Ok tt, w).
Proof.
  intros H.
  assert (Hone : registrar_stopWorking env issue w = (Ok tt, w)).
  { unfold registrar_stopWorking, bind, get, ret.
    destruct H as [H | [H | (i & cur & -> & -> & H)]].
    - rewrite H. by destruct issue.
    - destruct issue; try done. by destruct (H i).
    - apply N.eqb_neq in H. by rewrite H. }
  split; [done|]. unfold bind at 1. by rewrite Hone.
Qed.

Lemma stopWorking_without_session_witness :
  registrar_stopWorking envOk (AIssue sampleIssue) (sampleWorld (sampleConfig None false) ∅) =
    (Ok tt, sampleWorld (sampleConfig None false) ∅).
Proof.
  apply (stopWorking_without_session envOk (AIssue sampleIssue)
           (sampleWorld (sampleConfig None false) ∅)).
  left. reflexivity.
Defined.

(** C4 as stated fails for an issue other than the current one that has the
    same number: after work has started on issue 7 of one repository,
    [stopWorking] with issue 7 of another repository stops the session and
    checks out the base branch. *)
Lemma stopWorking_other_issue_same_number :
  let w1 := (registrar_startWorking envOk (AIssue sampleIssue)
               (sampleWorld (sampleConfig (Some "on") false) ∅)).2 in
  (issueModel <$> currentIssue w1) = Some sampleIssue /\
  otherIssue <> sampleIssue /\
  trace (registrar_stopWorking envOk (AIssue otherIssue) w1).2 =
    EStatusBarDispose :: EStatusBarHide :: ECheckout "main" :: trace w1 /\
  currentIssue (registrar_stopWorking envOk (AIssue otherIssue) w1).2 = None.
Proof.
  cbn zeta. split; [vm_compute; reflexivity|]. split; [discriminate|].
  split; vm_compute; reflexivity.
Qed.

(** ** The steps of the tracker, one by one *)

Lemma quiet_refl s : quiet s s.
Proof. by constructor. Qed.

Lemma quiet_trans s1 s2 s3 : quiet s1 s2 -> quiet s2 s3 -> quiet s1 s3.
Proof. intros [] []. constructor; congruence. Qed.

Lemma frame_refl n s : frame n s s.
Proof. by constructor. Qed.

Lemma frame_trans n s1 s2 s3 : frame n s1 s2 -> frame n s2 s3 -> frame n s1 s3.
Proof. intros [] []. constructor; congruence. Qed.

Lemma quiet_frame n s s' : quiet s s' -> frame n s s'.
Proof. intros []. constructor; try done. unfold getSavedIssueState. congruence. Qed.

Lemma getSavedIssueState_insert n k st w :
  getSavedIssueState n (with_saved (<[k := st]> (saved w)) w) =
    if decide (k = n) then st else getSavedIssueState n w.
Proof.
  unfold getSavedIssueState. cbn. rewrite lookup_insert. by case_decide.
Qed.

Lemma getSavedIssueState_log n ev w :
  getSavedIssueState n (log ev w) = getSavedIssueState n w.
Proof. done. Qed.

(** Use the specification of a called method, then go on with what it
    guarantees. *)
Ltac wp_use H :=
  eapply wp_mono; [apply H | cbn beta; intros ? ? ?].

(** [getUser] asks for the authenticated user at most once, only when no
    user name is held, and then holds the answer. *)
Lemma getUser_wp env s :
  wp (getUser env)
     (fun r s' =>
        quiet s s' /\ _branchName (this s') = _branchName (this s) /\
        inputBoxesShown (trace (world s')) = inputBoxesShown (trace (world s)) /\
        match r with
        | Ok u => user (this s') = Some u
        | Throw _ => True
        end) s.
Proof.
  unfold getUser. wp_steps; cbn; repeat split; try done.
Qed.

Lemma getUser_cached env s u :
  user (this s) = Some u -> truthy (Some u) = true ->
  getUser env s = (Ok u, s).
Proof.
  intros Hu Ht. unfold getUser, bind, getThis. rewrite Hu, Ht. done.
Qed.

(** [createOrCheckoutBranch] makes one attempt, on the branch it is given. *)
Lemma createOrCheckoutBranch_wp env b s :
  wp (createOrCheckoutBranch env b)
     (fun r s' =>
        this s' = this s /\ saved (world s') = saved (world s) /\
        config (world s') = config (world s) /\
        draftPushes (trace (world s')) = draftPushes (trace (world s)) /\
        inputBoxesShown (trace (world s')) = inputBoxesShown (trace (world s)) /\
        attempts (trace (world s')) = b :: attempts (trace (world s))) s.
Proof.
  unfold createOrCheckoutBranch, branchExists. wp_steps; cbn; repeat split; done.
Qed.

Lemma getBasicBranchName_truthy t u : truthy (Some (getBasicBranchName t u)) = true.
Proof. unfold getBasicBranchName. by destruct u. Qed.

(** Close a goal that says what a step left alone. *)
Ltac frame_solve :=
  repeat match goal with
         | H : quiet _ _ |- _ => destruct H
         | H : frame _ _ _ |- _ => destruct H
         end;
  constructor;
  unfold set_branchName, set_user, set_statusBarItem, set_repoDefaults, set_repo,
         draftPushes, attempts, inputBoxesShown in *;
  cbn in *; congruence.

Ltac post_solve :=
  cbn; split_and?;
  try match goal with
      | |- quiet _ _ => frame_solve
      | |- frame _ _ _ => frame_solve
      | |- _ = _ =>
          first [done
                | unfold draftPushes, attempts, inputBoxesShown in *; cbn in *; congruence]
      | |- True => done
      end.

Lemma promptBranchName_wp env s :
  wp (promptBranchName env)
     (fun r s' =>
        quiet s s' /\ user (this s') = user (this s) /\
        inputBoxesShown (trace (world s')) = S (inputBoxesShown (trace (world s))) /\
        (r = Ok tt ->
         exists answer,
           env_showInputBox env (trace (world s))
             ("issue" +:+ pretty (number (issueModel (this s))))
             "Enter the label for the new branch." = Ok answer /\
           _branchName (this s') = answer)) s.
Proof.
  unfold promptBranchName. wp_steps; post_solve; try done.
  intros _. eauto.
Qed.

Lemma substituteBranchName_wp env s :
  wp (substituteBranchName env)
     (fun r s' =>
        quiet s s' /\
        inputBoxesShown (trace (world s')) = inputBoxesShown (trace (world s)) /\
        (r = Ok tt ->
         exists u tr out,
           user (this s') = Some u /\
           env_variableSubstitution env tr (branchNameConfig (config (world s)))
             (issueModel (this s)) None (Some u) = Ok out /\
           _branchName (this s') = Some out)) s.
Proof.
  unfold substituteBranchName. wp_step. wp_step. wp_step. wp_step. wp_step.
  wp_use getUser_wp. destruct H as (Hq & Hb & Hi & Hu).
  wp_steps; post_solve; try done.
  intros _. eauto 10.
Qed.

Lemma useBasicBranchName_wp env s :
  wp (useBasicBranchName env)
     (fun r s' =>
        quiet s s' /\
        inputBoxesShown (trace (world s')) = inputBoxesShown (trace (world s)) /\
        forall name, r = Ok name ->
          _branchName (this s') = Some name /\
          exists u, user (this s') = Some u /\ name = getBasicBranchName (this s) u) s.
Proof.
  unfold useBasicBranchName. wp_step. wp_step. wp_step.
  wp_use getUser_wp. destruct H as (Hq & Hb & Hi & Hu).
  wp_steps; post_solve; try done.
  intros name [= <-]. eauto.
Qed.

Lemma resolveBranchName_wp env s :
  wp (resolveBranchName env)
     (fun r s' =>
        quiet s s' /\
        inputBoxesShown (trace (world s')) = inputBoxesShown (trace (world s)) /\
        forall name, r = Ok name ->
          _branchName (this s') = Some name /\ truthy (Some name) = true /\
          nameFrom (this s) (_branchName (this s)) s' name) s.
Proof.
  unfold resolveBranchName. wp_step. wp_step. unfold nameFrom.
  destruct (_branchName (this s)) as [b|] eqn:Hb; cbn beta iota.
  - destruct (truthy (Some b)) eqn:Ht.
    + wp_steps; post_solve. intros name [= <-]. by rewrite Hb.
    + wp_use useBasicBranchName_wp. destruct H as (Hq & Hi & Hn).
      split_and?; try done. intros name ->. destruct (Hn _ eq_refl) as (? & u & ? & ->).
      split_and?; eauto using getBasicBranchName_truthy.
  - wp_use useBasicBranchName_wp. destruct H as (Hq & Hi & Hn).
    split_and?; try done. intros name ->. destruct (Hn _ eq_refl) as (? & u & ? & ->).
    split_and?; cbn; eauto using getBasicBranchName_truthy.
Qed.

Lemma getBasicBranchName_issue t t' u :
  issueModel t' = issueModel t -> getBasicBranchName t' u = getBasicBranchName t u.
Proof. unfold getBasicBranchName. by intros ->. Qed.

(** A saved name is reused as it is: nothing is asked and nothing is
    called. *)
Lemma resolveIssueBranchName_saved env cfg state s B :
  shouldPromptForBranch (this s) = false ->
  branch state = Some B -> truthy (Some B) = true ->
  resolveIssueBranchName env cfg state s =
    (Ok B, {| this := set_branchName (Some B) (this s); world := world s |}).
Proof.
  intros Hp Hb Ht.
  unfold resolveIssueBranchName, candidateBranchName, resolveBranchName,
    bind, getThis, setThis, ret.
  rewrite Hp, Hb. cbn [this _branchName set_branchName]. rewrite Ht.
  cbn [this _branchName set_branchName]. by rewrite Ht.
Qed.

(** The end of a symbolic run of the name resolution: the states are
    reduced, the answers of the collaborators are put in, and the count of
    input boxes is read off the trace. *)
Ltac name_solve :=
  cbn [this world trace log set_branchName set_user _branchName user issueModel
       shouldPromptForBranch] in *; simplify_eq; try congruence;
  repeat first [ match goal with H : ?l = _ |- context [?l] => rewrite H end
               | progress change (truthy None) with false
               | progress cbn [tpl] ];
  (split; [try done|unfold inputBoxesShown; cbn; try done]).

(** When the user is asked: exactly one input box, and the name is the
    answer, or [<user>/issue<number>] when the answer is blank. *)
Lemma resolveIssueBranchName_asked env cfg state s :
  shouldPromptForBranch (this s) = true \/ truthy (branch state) = false ->
  cfg <> Some "on" ->
  wp (resolveIssueBranchName env cfg state)
     (fun r s' =>
        r = expectedAskedName env (this s) (trace (world s)) /\
        inputBoxesShown (trace (world s')) = S (inputBoxesShown (trace (world s)))) s.
Proof.
  intros H Hc.
  set (X := if shouldPromptForBranch (this s) then None else branch state).
  assert (HX : truthy X = false).
  { unfold X. destruct H as [-> | H]; [done|]. by destruct (shouldPromptForBranch _). }
  unfold resolveIssueBranchName. wp_step. wp_step. wp_step. wp_step. fold X. wp_step.
  unfold candidateBranchName. wp_step. wp_step. cbn [this _branchName set_branchName].
  rewrite HX. rewrite bool_decide_false by done.
  unfold promptBranchName, resolveBranchName, useBasicBranchName, getUser,
    expectedAskedName, expectedDeterministicName, expectedUser, getBasicBranchName.
  wp_steps. all: name_solve.
Qed.

(** With automatic branch creation: no input box, and the name is what the
    template substitution gives for the user of the session, or
    [<user>/issue<number>] when that is blank. *)
Lemma resolveIssueBranchName_template env state s :
  shouldPromptForBranch (this s) = false ->
  truthy (branch state) = false ->
  wp (resolveIssueBranchName env (Some "on") state)
     (fun r s' =>
        r = expectedTemplateName env (this s) (config (world s)) (trace (world s)) /\
        inputBoxesShown (trace (world s')) = inputBoxesShown (trace (world s))) s.
Proof.
  intros Hp Hb.
  unfold resolveIssueBranchName. wp_step. wp_step. wp_step. wp_step. rewrite Hp. wp_step.
  unfold candidateBranchName. wp_step. wp_step. cbn [this _branchName set_branchName].
  rewrite Hb. rewrite bool_decide_true by done.
  unfold substituteBranchName, resolveBranchName, useBasicBranchName, getUser,
    expectedTemplateName, expectedDeterministicName, expectedUser, getBasicBranchName.
  wp_steps. all: name_solve.
Qed.

(** Whatever way the name is resolved, nothing is persisted and no branch is
    touched yet, and the name is not blank. *)
Lemma resolveIssueBranchName_wp env cfg state s :
  wp (resolveIssueBranchName env cfg state)
     (fun r s' =>
        quiet s s' /\
        forall name, r = Ok name ->
          _branchName (this s') = Some name /\ truthy (Some name) = true) s.
Proof.
  unfold resolveIssueBranchName. wp_step. wp_step. wp_step. wp_step. wp_step.
  set (s1 := {| this := _; world := _ |}).
  assert (Hq1 : quiet s s1) by (by constructor).
  assert (Hc : wp (candidateBranchName env cfg) (fun _ s' => quiet s s') s1).
  { unfold candidateBranchName. wp_step. wp_step. wp_step; [by wp_step|].
    wp_step.
    - wp_use substituteBranchName_wp. destruct H as (Hq & _). by eapply quiet_trans.
    - wp_use promptBranchName_wp. destruct H as (Hq & _). by eapply quiet_trans. }
  wp_use Hc. destruct r as [[]|e]; [|by split].
  wp_use resolveBranchName_wp. destruct H0 as (Hq' & Hi' & Hn).
  split; [by eapply quiet_trans|].
  intros name ->. by destruct (Hn _ eq_refl) as (? & ? & _).
Qed.

(** ** The checkout phase of [createIssueBranch] *)

Lemma saveBranchName_eq name state s :
  saveBranchName name state s =
    (Ok tt, {| this := this s;
               world := with_saved (<[number (issueModel (this s)) :=
                                       with_branch (Some name) state]> (saved (world s)))
                                   (world s) |}).
Proof. done. Qed.

(** Once the name is resolved, it is persisted, and the first attempt starts
    from the state that holds it. *)
Lemma createIssueBranch_resolved env s name s1 :
  let cfg := createBranchConfig (this s) (config (world s)) in
  let state := getSavedIssueState (number (issueModel (this s))) (world s) in
  cfg <> Some "off" ->
  resolveIssueBranchName env cfg state s = (Ok name, s1) ->
  createIssueBranch env s =
    try_catch (createOrCheckoutBranch env name)
              (fun _ => checkoutFailed env name (with_branch (Some name) state))
              (saveBranchName name state s1).2.
Proof.
  intros cfg state Hc Hr.
  unfold createIssueBranch, bind at 1. unfold getThis at 1. cbn beta iota.
  unfold bind at 1. unfold getWorld at 1. cbn beta iota.
  fold cfg state. rewrite bool_decide_false by done.
  unfold bind at 1. rewrite Hr. cbn beta iota.
  unfold bind at 1. by rewrite saveBranchName_eq.
Qed.

(** The handler of a failed attempt, once the user is known: with the
    deterministic name itself it reports the failure and gives up the name;
    with another name it reports, persists the deterministic name and makes
    one attempt on it. *)
Lemma checkoutFailed_eq env name state s u s4 :
  getUser env s = (Ok u, s4) ->
  let basic := getBasicBranchName (this s) u in
  checkoutFailed env name state s =
    if String.eqb name basic then
      (Ok tt,
       {| this := set_branchName None (this s4);
          world := log (EShowErrorMessage
                          ("Unable to checkout branch " +:+ name +:+
                           ". There may be file conflicts that prevent this branch change."))
                       (world s4) |})
    else
      createOrCheckoutBranch env basic
        {| this := set_branchName (Some basic) (this s4);
           world := with_saved (<[number (issueModel (this s)) :=
                                   with_branch (Some basic) state]> (saved (world s4)))
                      (log (EShowErrorMessage
                              ("Unable to create branch with name " +:+ name +:+
                               ". Using " +:+ basic +:+ " instead."))
                           (world s4)) |}.
Proof.
  intros Hu basic.
  unfold checkoutFailed, bind at 1. unfold getThis at 1. cbn beta iota.
  unfold bind at 1. rewrite Hu. cbn beta iota. fold basic.
  destruct (String.eqb name basic); reflexivity.
Qed.

Lemma checkoutFailed_throw env name state s e s4 :
  getUser env s = (Throw e, s4) ->
  checkoutFailed env name state s = (Throw e, s4).
Proof.
  intros Hu. unfold checkoutFailed, bind at 1. unfold getThis at 1. cbn beta iota.
  unfold bind at 1. by rewrite Hu.
Qed.

(** ** The other steps of [startWorking] *)

Lemma fetchDefaults_wp env s :
  wp (fetchDefaults env)
     (fun r s' =>
        r = Ok tt /\
        issueModel (this s') = issueModel (this s) /\
        shouldPromptForBranch (this s') = shouldPromptForBranch (this s) /\
        repo (this s') = repo (this s) /\
        _branchName (this s') = _branchName (this s) /\
        config (world s') = config (world s) /\
        saved (world s') = saved (world s) /\
        draftPushes (trace (world s')) = draftPushes (trace (world s)) /\
        attempts (trace (world s')) = attempts (trace (world s))) s.
Proof.
  unfold fetchDefaults, showErrorMessage. wp_steps; post_solve.
Qed.

Lemma setCommitMessageAndGitEvent_wp env s :
  wp (setCommitMessageAndGitEvent env)
     (fun r s' =>
        this s' = this s /\
        config (world s') = config (world s) /\
        saved (world s') = saved (world s) /\
        draftPushes (trace (world s')) = draftPushes (trace (world s)) /\
        attempts (trace (world s')) = attempts (trace (world s))) s.
Proof.
  unfold setCommitMessageAndGitEvent. wp_steps; post_solve.
Qed.

Lemma setStatusBar_eq env s :
  setStatusBar env s =
    let item := {| text := "$(issues) Issue " +:+
                           env_getIssueNumberLabel env (issueModel (this s))
                                                   (repoDefaults (this s));
                   tooltip := title (issueModel (this s));
                   command := "issue.statusBar" |} in
    (Ok tt, {| this := set_statusBarItem (Some item) (this s);
               world := log (EStatusBarShow item) (world s) |}).
Proof. done. Qed.

(** Without a branch name, or with the setting off, [createDraftPR] does
    nothing. *)
Lemma createDraftPR_nothing env s :
  alwaysCreateDraftPR (config (world s)) && truthy (_branchName (this s)) = false ->
  createDraftPR env s = (Ok tt, s).
Proof.
  intros H. unfold createDraftPR, bind, getThis, getWorld. by rewrite H.
Qed.

(** After the branch step has given up the name, the rest of [startWorking]
    pushes nothing and persists nothing. *)
Lemma startWorking_rest_without_branch env s :
  _branchName (this s) = None ->
  wp (setCommitMessageAndGitEvent env ;;; setStatusBar env ;;; createDraftPR env)
     (fun r s' =>
        _branchName (this s') = None /\
        saved (world s') = saved (world s) /\
        draftPushes (trace (world s')) = draftPushes (trace (world s)) /\
        attempts (trace (world s')) = attempts (trace (world s))) s.
Proof.
  intros Hb. wp_step.
  wp_use setCommitMessageAndGitEvent_wp. destruct H as (Ht & Hc & Hs & Hp & Ha).
  destruct r as [[]|e]; [|split_and?; congruence].
  wp_step. unfold wp at 1. rewrite setStatusBar_eq. cbn [fst snd].
  unfold wp. rewrite createDraftPR_nothing.
  - cbn. rewrite Ht. split_and?; try done.
  - cbn. rewrite Ht, Hb. cbn. by rewrite andb_false_r.
Qed.

(** ** A failed checkout of the deterministic name (C10) *)

(** C10. The resolved name is persisted before the first checkout-or-create
    attempt. When that name is the deterministic name of the user and the
    attempt fails, [createIssueBranch] returns with no branch name in the
    session while the persisted state still holds the name, and the
    [startWorking] call it belongs to ends without a branch name and without
    any push for a draft pull request. *)
Theorem fallback_checkout_failure env s0 name s1 e s3 u s4 :
  let s := (fetchDefaults env s0).2 in
  let n := number (issueModel (this s)) in
  let cfg := createBranchConfig (this s) (config (world s)) in
  let state := getSavedIssueState n (world s) in
  cfg <> Some "off" ->
  resolveIssueBranchName env cfg state s = (Ok name, s1) ->
  let s2 := (saveBranchName name state s1).2 in
  createOrCheckoutBranch env name s2 = (Throw e, s3) ->
  getUser env s3 = (Ok u, s4) ->
  name = getBasicBranchName (this s) u ->
  branch (getSavedIssueState n (world s2)) = Some name /\
  createIssueBranch env s =
    try_catch (createOrCheckoutBranch env name)
              (fun _ => checkoutFailed env name (with_branch (Some name) state)) s2 /\
  (exists s5, createIssueBranch env s = (Ok tt, s5) /\
              _branchName (this s5) = None /\
              branch (getSavedIssueState n (world s5)) = Some name /\
              attempts (trace (world s5)) = name :: attempts (trace (world s))) /\
  (exists r6 s6, startWorking env s0 = (r6, s6) /\
                 _branchName (this s6) = None /\
                 branch (getSavedIssueState n (world s6)) = Some name /\
                 draftPushes (trace (world s6)) = draftPushes (trace (world s0))).
Proof.
  intros s n cfg state Hcfg Hres s2 Hatt Hu Hname.
  pose proof (fetchDefaults_wp env s0) as Hf. unfold wp in Hf. fold s in Hf.
  destruct Hf as (Hfr & _ & _ & _ & _ & _ & _ & Hfp & _).
  pose proof (wp_run _ _ _ _ _ Hres (resolveIssueBranchName_wp env cfg state s))
    as (Hq1 & _).
  pose proof (wp_run _ _ _ _ _ Hatt (createOrCheckoutBranch_wp env name s2))
    as (Ht3 & Hs3 & _ & Hp3 & _ & Ha3).
  pose proof (wp_run _ _ _ _ _ Hu (getUser_wp env s3)) as (Hq4 & _).
  pose proof (createIssueBranch_resolved env s name s1 Hcfg Hres) as Hstep.
  fold n state s2 in Hstep.
  assert (Hn1 : number (issueModel (this s1)) = n) by (unfold n; by destruct Hq1 as [-> _]).
  assert (H2t : this s2 = this s1) by done.
  assert (H2s : saved (world s2) =
                <[n := with_branch (Some name) state]> (saved (world s1))).
  { unfold s2. rewrite saveBranchName_eq. cbn. by rewrite Hn1. }
  assert (H2tr : trace (world s2) = trace (world s1)) by done.
  clearbody s2.
  assert (Hsaved2 : branch (getSavedIssueState n (world s2)) = Some name).
  { unfold getSavedIssueState. rewrite H2s, lookup_insert_eq. done. }
  assert (Hbasic : getBasicBranchName (this s3) u = name).
  { rewrite Hname. apply getBasicBranchName_issue. rewrite Ht3, H2t. by destruct Hq1. }
  set (s5 := {| this := set_branchName None (this s4);
                world := log (EShowErrorMessage
                          ("Unable to checkout branch " +:+ name +:+
                           ". There may be file conflicts that prevent this branch change."))
                          (world s4) |}).
  assert (H5 : createIssueBranch env s = (Ok tt, s5)).
  { rewrite Hstep. unfold try_catch. rewrite Hatt.
    rewrite (checkoutFailed_eq env name _ s3 u s4 Hu). cbn zeta.
    rewrite Hbasic, String.eqb_refl. done. }
  assert (Hs5 : saved (world s5) = saved (world s2)).
  { change (saved (world s4) = saved (world s2)). destruct Hq4. congruence. }
  assert (Hsaved5 : branch (getSavedIssueState n (world s5)) = Some name).
  { unfold getSavedIssueState in *. by rewrite Hs5. }
  assert (Hp5 : draftPushes (trace (world s5)) = draftPushes (trace (world s0))).
  { change (draftPushes (trace (world s4)) = draftPushes (trace (world s0))).
    destruct Hq4, Hq1. congruence. }
  assert (Ha5 : attempts (trace (world s5)) = name :: attempts (trace (world s))).
  { change (attempts (trace (world s4)) = name :: attempts (trace (world s))).
    destruct Hq4, Hq1. congruence. }
  split_and!; try done.
  - by exists s5.
  - pose proof (startWorking_rest_without_branch env s5 eq_refl) as Hrest.
    unfold wp in Hrest.
    destruct ((setCommitMessageAndGitEvent env ;;; setStatusBar env ;;;
               createDraftPR env) s5) as [r6 s6] eqn:H6.
    cbn [fst snd] in Hrest. destruct Hrest as (Hb6 & Hs6 & Hp6 & _).
    exists r6, s6. split_and!; try done.
    + unfold startWorking. unfold bind at 1.
      destruct (fetchDefaults env s0) as [rf sf] eqn:Hfd. cbn in Hfr. subst rf.
      unfold bind at 1. change sf with s. by rewrite H5.
    + unfold getSavedIssueState in *. by rewrite Hs6.
    + congruence.
Qed.

Lemma fallback_checkout_failure_witness :
  let s0 := sampleSession envConflict false
              (sampleWorld (sampleConfig (Some "on") true) (savedBranch "alice/issue7")) in
  exists r6 s6,
    startWorking envConflict s0 = (r6, s6) /\
    _branchName (this s6) = None /\
    branch (getSavedIssueState 7 (world s6)) = Some "alice/issue7" /\
    draftPushes (trace (world s6)) = [].
Proof.
  cbn zeta.
  edestruct (fallback_checkout_failure envConflict
               (sampleSession envConflict false
                  (sampleWorld (sampleConfig (Some "on") true) (savedBranch "alice/issue7")))
               "alice/issue7")
    as (_ & _ & _ & H); [ discriminate | reflexivity | reflexivity | reflexivity
                        | reflexivity | exact H ].
Defined.

(** ** The retry with the deterministic name (C1) *)

(** C1 as stated fails when the resolved name already is the deterministic
    name: with the saved name [alice/issue7] for issue 7 of user alice and a
    failing checkout, [createIssueBranch] makes the one failed attempt and no
    retry. *)
Lemma no_retry_on_deterministic_name :
  let s := sampleSession envConflict false
             (sampleWorld (sampleConfig (Some "on") true) (savedBranch "alice/issue7")) in
  (resolveIssueBranchName envConflict (Some "on") (getSavedIssueState 7 (world s)) s).1 =
    Ok "alice/issue7" /\
  (createOrCheckoutBranch envConflict "alice/issue7" s).1 = Throw "conflict" /\
  (createIssueBranch envConflict s).1 = Ok tt /\
  attempts (trace (world (createIssueBranch envConflict s).2)) = ["alice/issue7"].
Proof. cbn zeta. split_and!; vm_compute; reflexivity. Qed.

(** C1, as the code has it. When the checkout-or-create of the resolved name
    fails and the user is known: if the name differs from the deterministic
    name of the user, the failure is reported, the deterministic name is
    persisted and exactly one more attempt is made, on that name, its outcome
    being the outcome of [createIssueBranch] (a failure is passed on, there
    is no further attempt); if the name is the deterministic name, there is
    no retry: the failure is reported and the session keeps no branch
    name. *)
Theorem createIssueBranch_retry env s name s1 e s3 u s4 :
  let n := number (issueModel (this s)) in
  let cfg := createBranchConfig (this s) (config (world s)) in
  let state := getSavedIssueState n (world s) in
  let basic := getBasicBranchName (this s) u in
  cfg <> Some "off" ->
  resolveIssueBranchName env cfg state s = (Ok name, s1) ->
  createOrCheckoutBranch env name (saveBranchName name state s1).2 = (Throw e, s3) ->
  getUser env s3 = (Ok u, s4) ->
  (name <> basic ->
   let s5 :=
     {| this := set_branchName (Some basic) (this s4);
        world := with_saved (<[n := with_branch (Some basic) state]> (saved (world s4)))
                   (log (EShowErrorMessage
                           ("Unable to create branch with name " +:+ name +:+
                            ". Using " +:+ basic +:+ " instead."))
                        (world s4)) |} in
   createIssueBranch env s = createOrCheckoutBranch env basic s5 /\
   forall r s', createIssueBranch env s = (r, s') ->
     attempts (trace (world s')) = basic :: name :: attempts (trace (world s)) /\
     branch (getSavedIssueState n (world s')) = Some basic /\
     _branchName (this s') = Some basic) /\
  (name = basic ->
   exists s5,
     createIssueBranch env s = (Ok tt, s5) /\
     attempts (trace (world s5)) = name :: attempts (trace (world s)) /\
     _branchName (this s5) = None /\
     trace (world s5) =
       EShowErrorMessage
         ("Unable to checkout branch " +:+ name +:+
          ". There may be file conflicts that prevent this branch change.")
       :: trace (world s4)).
Proof.
  intros n cfg state basic Hcfg Hres Hatt Hu.
  set (s2 := (saveBranchName name state s1).2) in *.
  pose proof (wp_run _ _ _ _ _ Hres (resolveIssueBranchName_wp env cfg state s))
    as (Hq1 & _).
  pose proof (wp_run _ _ _ _ _ Hatt (createOrCheckoutBranch_wp env name s2))
    as (Ht3 & Hs3 & _ & Hp3 & _ & Ha3).
  pose proof (wp_run _ _ _ _ _ Hu (getUser_wp env s3)) as (Hq4 & _).
  pose proof (createIssueBranch_resolved env s name s1 Hcfg Hres) as Hstep.
  fold n state s2 in Hstep.
  assert (H2t : this s2 = this s1) by done.
  assert (H2tr : trace (world s2) = trace (world s1)) by done.
  clearbody s2.
  assert (Hi3 : issueModel (this s3) = issueModel (this s)).
  { rewrite Ht3, H2t. by destruct Hq1. }
  assert (Hbasic : getBasicBranchName (this s3) u = basic).
  { by apply getBasicBranchName_issue. }
  assert (Ha4 : attempts (trace (world s4)) = name :: attempts (trace (world s))).
  { destruct Hq4, Hq1. congruence. }
  assert (Hfail : createIssueBranch env s =
                  checkoutFailed env name (with_branch (Some name) state) s3).
  { rewrite Hstep. unfold try_catch. by rewrite Hatt. }
  rewrite (checkoutFailed_eq env name _ s3 u s4 Hu) in Hfail. cbn zeta in Hfail.
  rewrite Hbasic, Hi3 in Hfail. fold n in Hfail.
  split.
  - intros Hne s5. apply String.eqb_neq in Hne. rewrite Hne in Hfail.
    split; [exact Hfail|].
    intros r s' Hrun. rewrite Hfail in Hrun.
    pose proof (wp_run _ _ _ _ _ Hrun (createOrCheckoutBranch_wp env basic s5))
      as (Ht & Hs & _ & _ & _ & Ha).
    split_and!.
    + rewrite Ha. cbn. by rewrite <- Ha4.
    + unfold getSavedIssueState. rewrite Hs. cbn. by rewrite lookup_insert_eq.
    + by rewrite Ht.
  - intros Heq. apply String.eqb_eq in Heq. rewrite Heq in Hfail.
    eexists. split; [exact Hfail|]. by split_and!.
Qed.

Lemma createIssueBranch_retry_witness :
  let s := sampleSession envTopicTaken false
             (sampleWorld (sampleConfig (Some "on") true) (savedBranch "topic")) in
  let s' := (createIssueBranch envTopicTaken s).2 in
  attempts (trace (world s')) = ["alice/issue7"; "topic"] /\
  branch (getSavedIssueState 7 (world s')) = Some "alice/issue7" /\
  _branchName (this s') = Some "alice/issue7".
Proof.
  cbn zeta.
  refine (proj2 (proj1 (createIssueBranch_retry envTopicTaken
            (sampleSession envTopicTaken false
               (sampleWorld (sampleConfig (Some "on") true) (savedBranch "topic")))
            "topic" _ "conflict" _ "alice" _ _ _ _ _) _) _ _ _).
  - discriminate.
  - reflexivity.
  - reflexivity.
  - reflexivity.
  - discriminate.
  - apply surjective_pairing.
Defined.

(** ** The checkout phase in general *)

Lemma frame_flag_insert n s s' k st :
  issueModel (this s') = issueModel (this s) ->
  shouldPromptForBranch (this s') = shouldPromptForBranch (this s) ->
  repo (this s') = repo (this s) ->
  repoDefaults (this s') = repoDefaults (this s) ->
  config (world s') = config (world s) ->
  draftPushes (trace (world s')) = draftPushes (trace (world s)) ->
  saved (world s') = <[k := st]> (saved (world s)) ->
  hasDraftPR st = hasDraftPR (getSavedIssueState k (world s)) ->
  frame n s s'.
Proof.
  intros. constructor; try done.
  unfold getSavedIssueState in *. rewrite H5, lookup_insert.
  case_decide; [by subst|done].
Qed.

(** The checkout-or-create of a name that is persisted already, with the
    handler of its failure: the draft-PR flags are kept, no input box is
    shown, and a name that is not blank stays persisted. *)
Lemma checkoutPhase_wp env name st s n' :
  let n := number (issueModel (this s)) in
  hasDraftPR st = hasDraftPR (getSavedIssueState n (world s)) ->
  branch (getSavedIssueState n (world s)) = Some name ->
  truthy (Some name) = true ->
  wp (try_catch (createOrCheckoutBranch env name) (fun _ => checkoutFailed env name st))
     (fun r s' =>
        frame n' s s' /\
        inputBoxesShown (trace (world s')) = inputBoxesShown (trace (world s)) /\
        exists B, branch (getSavedIssueState n (world s')) = Some B /\
                  truthy (Some B) = true) s.
Proof.
  intros n Hflag Hsaved Htruthy. wp_step.
  wp_use createOrCheckoutBranch_wp. destruct H as (Ht & Hs & Hc & Hp & Hi & Ha).
  assert (Hf1 : frame n' s s').
  { constructor; try congruence. unfold getSavedIssueState. by rewrite Hs. }
  assert (Hn1 : branch (getSavedIssueState n (world s')) = Some name).
  { unfold getSavedIssueState in *. by rewrite Hs. }
  destruct r as [[]|e]; [by eauto|].
  unfold checkoutFailed. wp_step. wp_step. wp_step.
  wp_use getUser_wp. destruct H as (Hq & Hb & Hi2 & Hu).
  assert (Hn2 : branch (getSavedIssueState n (world s'0)) = Some name).
  { unfold getSavedIssueState in *. destruct Hq. congruence. }
  assert (Hf2 : frame n' s s'0) by (eapply frame_trans; [exact Hf1|by apply quiet_frame]).
  destruct r as [u|e']; [|split_and!; [done|congruence|by eauto]].
  unfold showErrorMessage. wp_step.
  - wp_steps. split_and!; [| |by eauto].
    + eapply frame_trans; [exact Hf2|]. by constructor.
    + unfold inputBoxesShown in *. cbn. congruence.
  - wp_steps.
    set (basic := getBasicBranchName (this s') u).
    set (s5 := {| this := _; world := _ |}).
    wp_use createOrCheckoutBranch_wp. destruct H as (Ht6 & Hs6 & Hc6 & Hp6 & Hi6 & Ha6).
    assert (Hk : number (issueModel (this s')) = n) by (unfold n; by rewrite Ht).
    assert (Hf5 : frame n' s'0 s5).
    { eapply (frame_flag_insert n' s'0 s5 n (with_branch (Some basic) st)); try done.
      - cbn. by rewrite Hk.
      - cbn. rewrite Hflag. unfold getSavedIssueState. destruct Hq. congruence. }
    split_and!.
    + eapply frame_trans; [exact Hf2|]. eapply frame_trans; [exact Hf5|].
      constructor; try congruence. unfold getSavedIssueState. by rewrite Hs6.
    + unfold inputBoxesShown in *. cbn in *. congruence.
    + exists basic. split; [|apply getBasicBranchName_truthy].
      unfold getSavedIssueState. rewrite Hs6. cbn. rewrite Hk.
      by rewrite lookup_insert_eq.
Qed.

(** The state the first attempt starts from. *)
Lemma saveBranchName_facts name state s s1 n' :
  let n := number (issueModel (this s)) in
  let s2 := (saveBranchName name state s1).2 in
  state = getSavedIssueState n (world s) ->
  quiet s s1 ->
  frame n' s s2 /\
  number (issueModel (this s2)) = n /\
  getSavedIssueState n (world s2) = with_branch (Some name) state /\
  inputBoxesShown (trace (world s2)) = inputBoxesShown (trace (world s1)).
Proof.
  intros n s2 Hst Hq. unfold s2. rewrite saveBranchName_eq. cbn [snd].
  assert (Hn : number (issueModel (this s1)) = n) by (unfold n; by destruct Hq as [-> _]).
  split_and!; try done.
  - eapply frame_trans; [by apply quiet_frame|].
    eapply (frame_flag_insert n' s1 _ n (with_branch (Some name) state)); try done.
    + cbn. by rewrite Hn.
    + cbn. rewrite Hst. unfold getSavedIssueState. by destruct Hq as [_ _ _ _ _ _ -> _].
  - cbn. rewrite Hn. unfold getSavedIssueState. cbn. by rewrite lookup_insert_eq.
Qed.

(** [createIssueBranch] keeps the draft-PR flags and pushes nothing. *)
Lemma createIssueBranch_wp env s n' :
  wp (createIssueBranch env) (fun _ s' => frame n' s s') s.
Proof.
  unfold createIssueBranch. wp_step. wp_step. wp_step. wp_step.
  wp_step; [wp_step; apply frame_refl|].
  set (cfg := createBranchConfig _ _). set (state := getSavedIssueState _ _).
  wp_step. wp_use resolveIssueBranchName_wp. destruct H as (Hq & Hn).
  destruct r as [name|e]; [|by apply quiet_frame].
  destruct (Hn _ eq_refl) as (_ & Htruthy).
  wp_step. unfold wp at 1.
  pose proof (saveBranchName_facts name state s s' n' eq_refl Hq) as (Hf2 & Hn2 & Hs2 & _).
  rewrite saveBranchName_eq in *. cbn [fst snd] in *.
  set (s2 := {| this := _; world := _ |}) in *.
  eapply wp_mono.
  - apply (checkoutPhase_wp env name (with_branch (Some name) state) s2 n').
    + rewrite Hn2, Hs2. done.
    + rewrite Hn2, Hs2. done.
    + done.
  - cbn beta. intros r s3 (Hf3 & _). by eapply frame_trans.
Qed.

(** ** The precedence of branch names (C3) *)

(** C3 as stated fails for a session with a prompt request while branch
    creation is set to [off]: line 106 puts [prompt] in force, so the user is
    asked, and the answer is persisted and the branch created. *)
Lemma prompt_request_overrides_off :
  let s := sampleSession envOk true (sampleWorld (sampleConfig (Some "off") false) ∅) in
  let s' := (createIssueBranch envOk s).2 in
  createIssueBranchConfig (config (world s)) = Some "off" /\
  (createIssueBranch envOk s).1 = Ok tt /\
  inputBoxesShown (trace (world s')) = 1 /\
  _branchName (this s') = Some "topic" /\
  branch (getSavedIssueState 7 (world s')) = Some "topic" /\
  attempts (trace (world s')) = ["topic"].
Proof. cbn zeta. split_and!; vm_compute; reflexivity. Qed.

(** C3, as the code has it. For a session on any issue, with [setting] the
    branch-creation setting, [cfg] the configuration in force ([prompt] when
    a prompt was requested, else the setting) and [state] the persisted
    state of the issue:
    - with no prompt request and the setting [off] nothing is resolved, and
      nothing happens at all;
    - if a prompt was requested, [prompt] is in force whatever the setting,
      exactly one input box is shown, whatever is saved, and the name is the
      answer, or [<user>/issue<number>] when the answer is blank;
    - else a saved name is the name, and nothing is asked or called;
    - else with [on] no input box is shown and the name is what the template
      substitution gives for the user ([<user>/issue<number>] when that is
      blank);
    - else exactly one input box is shown and the name is the answer, or
      [<user>/issue<number>] when the answer is blank;
    - after a run that resolved a name, the persisted state holds a name, and
      a second session on the same issue without a prompt request resolves
      to that name without showing an input box.
    The user is the one the session holds, else the authenticated user of
    the remote. *)
Theorem branch_name_precedence env s :
  let t := this s in
  let w := world s in
  let n := number (issueModel t) in
  let setting := createIssueBranchConfig (config w) in
  let cfg := createBranchConfig t (config w) in
  let state := getSavedIssueState n w in
  let run := resolveIssueBranchName env cfg state s in
  (shouldPromptForBranch t = false -> setting = Some "off" ->
     createIssueBranch env s = (Ok tt, s)) /\
  (shouldPromptForBranch t = true ->
     cfg = Some "prompt" /\
     run.1 = expectedAskedName env t (trace w) /\
     inputBoxesShown (trace (world run.2)) = S (inputBoxesShown (trace w))) /\
  (forall B, shouldPromptForBranch t = false ->
     branch state = Some B -> B <> EmptyString ->
     run = (Ok B, {| this := set_branchName (Some B) t; world := w |})) /\
  (shouldPromptForBranch t = false -> truthy (branch state) = false ->
   setting = Some "on" ->
     run.1 = expectedTemplateName env t (config w) (trace w) /\
     inputBoxesShown (trace (world run.2)) = inputBoxesShown (trace w)) /\
  (shouldPromptForBranch t = false -> truthy (branch state) = false ->
   setting <> Some "on" -> setting <> Some "off" ->
     run.1 = expectedAskedName env t (trace w) /\
     inputBoxesShown (trace (world run.2)) = S (inputBoxesShown (trace w))) /\
  (forall name s1 r s',
     cfg <> Some "off" ->
     run = (Ok name, s1) ->
     createIssueBranch env s = (r, s') ->
     exists B,
       branch (getSavedIssueState n (world s')) = Some B /\ B <> EmptyString /\
       forall env2 t2 w2,
         number (issueModel t2) = n -> shouldPromptForBranch t2 = false ->
         saved w2 = saved (world s') ->
         let s2 := {| this := t2; world := w2 |} in
         let cfg2 := createBranchConfig t2 (config w2) in
         resolveIssueBranchName env2 cfg2 (getSavedIssueState n w2) s2 =
           (Ok B, {| this := set_branchName (Some B) t2; world := w2 |}) /\
         (cfg2 <> Some "off" ->
          inputBoxesShown (trace (world (createIssueBranch env2 s2).2)) =
            inputBoxesShown (trace w2))).
Proof.
  intros t w n setting cfg state run. subst w.
  assert (Htr : forall B, B <> EmptyString <-> truthy (Some B) = true).
  { intros B. cbn. rewrite negb_true_iff. symmetry. apply String.eqb_neq. }
  assert (Hcfg : shouldPromptForBranch t = false -> cfg = setting).
  { intros Hp. unfold cfg, createBranchConfig. fold t. by rewrite Hp. }
  split_and!.
  - intros Hp Hoff. unfold createIssueBranch, bind, getThis, getWorld, ret.
    fold t cfg. rewrite (Hcfg Hp), Hoff. by rewrite bool_decide_true.
  - intros Hp.
    assert (Hc : cfg = Some "prompt").
    { unfold cfg, createBranchConfig. fold t. by rewrite Hp. }
    split; [exact Hc|].
    apply (resolveIssueBranchName_asked env cfg state s); [by left|by rewrite Hc].
  - intros B Hp Hb HB. apply resolveIssueBranchName_saved; try done. by apply Htr.
  - intros Hp Hb Hon. unfold run. rewrite (Hcfg Hp), Hon.
    by apply (resolveIssueBranchName_template env state s).
  - intros Hp Hb Hon Hoff.
    apply (resolveIssueBranchName_asked env cfg state s); [by right|by rewrite (Hcfg Hp)].
  - intros name s1 r s' Hoff Hres Hrun. unfold run in Hres.
    pose proof (wp_run _ _ _ _ _ Hres (resolveIssueBranchName_wp env cfg state s))
      as (Hq & Hn).
    destruct (Hn _ eq_refl) as (_ & Htruthy).
    pose proof (createIssueBranch_resolved env s name s1 Hoff Hres) as Hstep.
    fold t n cfg state in Hstep.
    pose proof (saveBranchName_facts name state s s1 n eq_refl Hq)
      as (Hf2 & Hn2 & Hs2 & _).
    fold t n in Hn2, Hs2.
    set (s2 := (saveBranchName name state s1).2) in *. clearbody s2.
    rewrite Hstep in Hrun.
    assert (Hph : wp (try_catch (createOrCheckoutBranch env name)
                        (fun _ => checkoutFailed env name (with_branch (Some name) state)))
                     (fun _ s' => exists B,
                        branch (getSavedIssueState n (world s')) = Some B /\
                        truthy (Some B) = true) s2).
    { eapply wp_mono.
      - apply (checkoutPhase_wp env name (with_branch (Some name) state) s2 n);
          [by rewrite Hn2, Hs2|by rewrite Hn2, Hs2|done].
      - cbn beta. rewrite Hn2. by intros ? ? (_ & _ & ?). }
    destruct (wp_run _ _ _ _ _ Hrun Hph) as (B & HB & HBt). exists B. split_and!; [done|by apply Htr|].
    intros env2 t2 w2 Hn' Hp' Hsv s2' cfg2. subst s2' cfg2.
    set (s2' := {| this := t2; world := w2 |}).
    set (cfg2 := createBranchConfig t2 (config w2)).
    assert (Hst : branch (getSavedIssueState n w2) = Some B).
    { unfold getSavedIssueState in *. by rewrite Hsv. }
    assert (Hres2 : resolveIssueBranchName env2 cfg2 (getSavedIssueState n w2) s2' =
                    (Ok B, {| this := set_branchName (Some B) t2; world := w2 |})).
    { by apply resolveIssueBranchName_saved. }
    split; [exact Hres2|].
    intros Hoff2.
    assert (Hstep2 :
      createIssueBranch env2 s2' =
        try_catch (createOrCheckoutBranch env2 B)
          (fun _ => checkoutFailed env2 B
                      (with_branch (Some B) (getSavedIssueState n w2)))
          (saveBranchName B (getSavedIssueState n w2)
             {| this := set_branchName (Some B) t2; world := w2 |}).2).
    { revert Hres2. rewrite <- Hn'. intros Hres2.
      by apply (createIssueBranch_resolved env2 s2' B). }
    rewrite Hstep2.
    rewrite saveBranchName_eq. cbn [snd this world].
    set (s3 := {| this := _; world := _ |}).
    pose proof (checkoutPhase_wp env2 B
      (with_branch (Some B) (getSavedIssueState n w2)) s3 n) as Hph2.
    unfold wp in Hph2. destruct Hph2 as (_ & Hi & _); [| |done|exact Hi].
    + unfold s3, getSavedIssueState. cbn. rewrite Hn'. by rewrite lookup_insert_eq.
    + unfold s3, getSavedIssueState. cbn. rewrite Hn'. by rewrite lookup_insert_eq.
Qed.

Lemma branch_name_precedence_witness :
  let saved7 := sampleSession envOk false
                  (sampleWorld (sampleConfig (Some "on") false) (savedBranch "topic")) in
  let w := sampleWorld (sampleConfig (Some "on") false) ∅ in
  let asked := sessionOf42 true (Some "bob") w in
  let derived := sessionOf42 false None w in
  (resolveIssueBranchName envBlank (Some "prompt") (getSavedIssueState 42 w) asked).1 =
    Ok "bob/issue42" /\
  (resolveIssueBranchName envBlank (Some "on") (getSavedIssueState 42 w) derived).1 =
    Ok "alice/issue42" /\
  (resolveIssueBranchName envTemplate (Some "on") (getSavedIssueState 42 w) derived).1 =
    Ok "alice/crash-on-start" /\
  resolveIssueBranchName envOk (Some "on") (getSavedIssueState 7 (world saved7)) saved7 =
    (Ok "topic", {| this := set_branchName (Some "topic") (this saved7);
                    world := world saved7 |}).
Proof.
  cbn zeta. split_and!.
  - etrans.
    + apply (proj1 (proj2 (branch_name_precedence envBlank
               (sessionOf42 true (Some "bob")
                  (sampleWorld (sampleConfig (Some "on") false) ∅))))).
      reflexivity.
    + vm_compute. reflexivity.
  - etrans.
    + apply (proj1 (proj2 (proj2 (proj2 (branch_name_precedence envBlank
               (sessionOf42 false None
                  (sampleWorld (sampleConfig (Some "on") false) ∅))))))); reflexivity.
    + vm_compute. reflexivity.
  - etrans.
    + apply (proj1 (proj2 (proj2 (proj2 (branch_name_precedence envTemplate
               (sessionOf42 false None
                  (sampleWorld (sampleConfig (Some "on") false) ∅))))))); reflexivity.
    + vm_compute. reflexivity.
  - apply (proj1 (proj2 (proj2 (branch_name_precedence envOk
             (sampleSession envOk false
                (sampleWorld (sampleConfig (Some "on") false) (savedBranch "topic"))))))).
    + reflexivity.
    + reflexivity.
    + discriminate.
Defined.

(** ** At most one draft pull request (C2) *)

Lemma succeededPushes_frame n s s' :
  frame n s s' -> pushBudget n (world s') = pushBudget n (world s).
Proof.
  intros [_ _ _ _ _ Hp Hf]. unfold pushBudget, succeededPushes. by rewrite Hp, Hf.
Qed.

(** [createDraftPR] with the flag set does nothing; else it pushes at most
    once, and a push that succeeded sets the flag. *)
Lemma createDraftPR_wp env s :
  let n := number (issueModel (this s)) in
  wp (createDraftPR env)
     (fun r s' =>
        (hasDraftPR (getSavedIssueState n (world s)) = true -> s' = s) /\
        (hasDraftPR (getSavedIssueState n (world s)) = true ->
         hasDraftPR (getSavedIssueState n (world s')) = true) /\
        pushBudget n (world s') <= pushBudget n (world s) /\
        (draftPushes (trace (world s')) = draftPushes (trace (world s)) \/
         exists r0,
           hasDraftPR (getSavedIssueState n (world s)) = false /\
           draftPushes (trace (world s')) = r0 :: draftPushes (trace (world s)) /\
           (r0 = Ok true -> hasDraftPR (getSavedIssueState n (world s')) = true))) s.
Proof.
  intros n. unfold createDraftPR. wp_step. wp_step. wp_step. wp_step.
  fold n. unfold pushBudget, succeededPushes, draftPushes.
  destruct (hasDraftPR (getSavedIssueState n (world s))) eqn:Hflag.
  - wp_steps; try done; rewrite ?Hflag; split_and!; auto.
  - wp_step; [|wp_steps; rewrite ?Hflag; split_and!; auto; done].
    cbn [negb]. wp_step. wp_step. wp_step.
    destruct (env_pushAndCreatePR env (trace (world s)) true) as [[|]|e] eqn:Hpush.
    + wp_steps. cbn [world this].
      rewrite getSavedIssueState_insert, decide_True by done.
      cbn. split_and!; [done|done|lia|]. right. eexists. split_and!; done.
    + wp_steps. cbn -[getSavedIssueState]. rewrite !getSavedIssueState_log, Hflag.
      split_and!; [done|done|lia|]. right. eexists. split_and!; done.
    + cbn -[getSavedIssueState]. rewrite !getSavedIssueState_log, Hflag.
      split_and!; [done|done|lia|]. right. eexists. split_and!; done.
Qed.

(** One [startWorking]: the budget does not grow, and with the flag set
    nothing is pushed and the flag stays set. *)
Lemma startWorking_budget env s :
  let n := number (issueModel (this s)) in
  wp (startWorking env)
     (fun _ s' =>
        pushBudget n (world s') <= pushBudget n (world s) /\
        (hasDraftPR (getSavedIssueState n (world s)) = true ->
         hasDraftPR (getSavedIssueState n (world s')) = true /\
         draftPushes (trace (world s')) = draftPushes (trace (world s)))) s.
Proof.
  intros n.
  assert (Hkeep : forall s1 : Sess,
            draftPushes (trace (world s1)) = draftPushes (trace (world s)) ->
            hasDraftPR (getSavedIssueState n (world s1)) =
              hasDraftPR (getSavedIssueState n (world s)) ->
            pushBudget n (world s1) <= pushBudget n (world s) /\
            (hasDraftPR (getSavedIssueState n (world s)) = true ->
             hasDraftPR (getSavedIssueState n (world s1)) = true /\
             draftPushes (trace (world s1)) = draftPushes (trace (world s)))).
  { intros s1 Hp Hf. unfold pushBudget, succeededPushes. rewrite Hp, Hf.
    split; [lia|]. by intros ->. }
  unfold startWorking. wp_step.
  wp_use fetchDefaults_wp.
  destruct H as (-> & Hi1 & _ & _ & _ & _ & Hs1 & Hp1 & _).
  assert (Hf1 : hasDraftPR (getSavedIssueState n (world s')) =
                hasDraftPR (getSavedIssueState n (world s))).
  { unfold getSavedIssueState. by rewrite Hs1. }
  wp_step. wp_use (createIssueBranch_wp env s' n).
  assert (Hp2 : draftPushes (trace (world s'0)) = draftPushes (trace (world s)))
    by (destruct H; congruence).
  assert (Hf2 : hasDraftPR (getSavedIssueState n (world s'0)) =
                hasDraftPR (getSavedIssueState n (world s)))
    by (destruct H; congruence).
  assert (Hi2 : issueModel (this s'0) = issueModel (this s))
    by (destruct H; congruence).
  destruct r as [[]|e]; [|by apply Hkeep].
  wp_step. wp_use setCommitMessageAndGitEvent_wp.
  destruct H0 as (Ht3 & _ & Hs3 & Hp3 & _).
  assert (Hf3 : hasDraftPR (getSavedIssueState n (world s'1)) =
                hasDraftPR (getSavedIssueState n (world s))).
  { unfold getSavedIssueState in *. by rewrite Hs3. }
  destruct r as [[]|e]; [|apply Hkeep; congruence].
  wp_step. unfold setStatusBar. wp_steps.
  set (s4 := {| this := _; world := _ |}).
  assert (Hn4 : number (issueModel (this s4)) = n).
  { unfold n. cbn. by rewrite Ht3, Hi2. }
  assert (Hp4 : draftPushes (trace (world s4)) = draftPushes (trace (world s))).
  { cbn. unfold draftPushes in *. cbn. congruence. }
  assert (Hf4 : hasDraftPR (getSavedIssueState n (world s4)) =
                hasDraftPR (getSavedIssueState n (world s))) by done.
  wp_use createDraftPR_wp. rewrite Hn4 in H0.
  destruct H0 as (Hsame & Hflag & Hbudget & _).
  destruct (Hkeep s4 Hp4 Hf4) as (Hb4 & _).
  split; [lia|].
  intros Hset. rewrite <- Hf4 in Hset.
  split; [by apply Hflag|]. by rewrite (Hsame Hset).
Qed.

Lemma constructCurrentIssue_issue env i prompt w :
  issueModel (constructCurrentIssue env i prompt w) = i.
Proof.
  unfold constructCurrentIssue, setRepo. by case_match.
Qed.

(** C2. Across any number of [startWorking] calls for the same issue, each
    on a new tracker object, under any settings and whatever the
    collaborators answer: while the persisted draft-PR flag of the issue is
    set, no push for a draft pull request is made at all and the flag stays
    set; and since [createDraftPR] pushes only while the flag is not set and
    sets it after a push that succeeded, at most one push succeeds. *)
Theorem draft_pr_at_most_once env i calls w :
  let n := number i in
  let w' := startWorkingRepeatedly env i calls w in
  (hasDraftPR (getSavedIssueState n w) = true ->
     draftPushes (trace w') = draftPushes (trace w) /\
     hasDraftPR (getSavedIssueState n w') = true) /\
  succeededPushes (trace w') <= succeededPushes (trace w) + 1 /\
  (forall s,
     number (issueModel (this s)) = n ->
     wp (createDraftPR env)
        (fun _ s' =>
           (hasDraftPR (getSavedIssueState n (world s)) = true -> s' = s) /\
           (draftPushes (trace (world s')) = draftPushes (trace (world s)) \/
            exists r0,
              hasDraftPR (getSavedIssueState n (world s)) = false /\
              draftPushes (trace (world s')) = r0 :: draftPushes (trace (world s)) /\
              (r0 = Ok true -> hasDraftPR (getSavedIssueState n (world s')) = true))) s).
Proof.
  intros n w'.
  assert (Hall : pushBudget n w' <= pushBudget n w /\
                 (hasDraftPR (getSavedIssueState n w) = true ->
                  draftPushes (trace w') = draftPushes (trace w) /\
                  hasDraftPR (getSavedIssueState n w') = true)).
  { unfold w'. clear w'. revert w.
    induction calls as [|[prompt c] rest IH]; intros w; cbn [startWorkingRepeatedly].
    - split; [lia|done].
    - set (w1 := with_config c w).
      set (s := {| this := constructCurrentIssue env i prompt w1; world := w1 |}).
      pose proof (startWorking_budget env s) as Hs. unfold wp in Hs.
      cbn zeta in Hs. change (this s) with (constructCurrentIssue env i prompt w1) in Hs.
      rewrite constructCurrentIssue_issue in Hs. fold n in Hs.
      change (world s) with w1 in Hs.
      change (pushBudget n w1) with (pushBudget n w) in Hs.
      change (getSavedIssueState n w1) with (getSavedIssueState n w) in Hs.
      change (trace w1) with (trace w) in Hs.
      destruct Hs as (Hb & Hf).
      destruct (IH (world (startWorking env s).2)) as (IHb & IHf).
      split; [lia|].
      intros Hset. destruct (Hf Hset) as (Hf1 & Hp1).
      destruct (IHf Hf1) as (Hp2 & Hf2). split; [congruence|done]. }
  destruct Hall as (Hb & Hf). split_and!; [exact Hf| |].
  - unfold pushBudget in Hb. repeat case_match; lia.
  - intros s Hn. wp_use createDraftPR_wp. rewrite Hn in H.
    destruct H as (H1 & _ & _ & H4). by split.
Qed.

Lemma draft_pr_at_most_once_witness :
  let w := sampleWorld (sampleConfig (Some "on") true) (savedDraft "topic") in
  let calls := [(false, sampleConfig (Some "on") true);
                (true, sampleConfig None true)] in
  draftPushes (trace (startWorkingRepeatedly envOk sampleIssue calls w)) = [] /\
  hasDraftPR (getSavedIssueState 7 (startWorkingRepeatedly envOk sampleIssue calls w)) = true.
Proof.
  cbn zeta.
  apply (proj1 (draft_pr_at_most_once envOk sampleIssue
                  [(false, sampleConfig (Some "on") true); (true, sampleConfig None true)]
                  (sampleWorld (sampleConfig (Some "on") true) (savedDraft "topic")))).
  reflexivity.
Defined.

(** Three starts with pushes that succeed: one push in all. *)
Example one_push_in_three_starts :
  let cfg := sampleConfig (Some "on") true in
  draftPushes (trace (startWorkingRepeatedly envOk sampleIssue
                        [(false, cfg); (false, cfg); (true, cfg)]
                        (sampleWorld cfg ∅))) = [Ok true].
Proof. vm_compute. reflexivity. Qed.

(** ** A failed defaults lookup at the start of work (C5) *)

Lemma extends_refl tr : extends tr tr.
Proof. by exists []. Qed.

Lemma extends_cons tr tr' e : extends tr tr' -> extends tr (e :: tr').
Proof. intros [later ->]. by exists (e :: later). Qed.

Lemma extends_trans tr1 tr2 tr3 : extends tr1 tr2 -> extends tr2 tr3 -> extends tr1 tr3.
Proof. intros [l1 ->] [l2 ->]. exists (l2 ++ l1)%list. by rewrite app_assoc. Qed.

Ltac extends_solve :=
  cbn; repeat first [ apply extends_refl | assumption | apply extends_cons ].

Lemma wp_runOn {A} (c : CurrentIssue) (m : M Sess A) (Q : Res A -> World -> Prop) w :
  wp m (fun r s' => Q r (with_currentIssue (Some (this s')) (world s')))
     {| this := c; world := w |} ->
  wp (runOn c m) Q w.
Proof. unfold wp, runOn. by destruct (m _). Qed.

Lemma stopWorking_extends env s :
  wp (stopWorking env) (fun _ s' => extends (trace (world s)) (trace (world s'))) s.
Proof.
  unfold stopWorking, dispose. wp_steps; extends_solve.
Qed.

Lemma applyPatch_extends env b wb w :
  wp (applyPatch env b wb) (fun _ w' => extends (trace w) (trace w')) w.
Proof.
  unfold applyPatch. wp_steps; extends_solve.
Qed.

Lemma stop_current_extends env w :
  wp (setCurrentIssue env None) (fun _ w' => extends (trace w) (trace w')) w.
Proof.
  unfold setCurrentIssue. wp_step. wp_step. wp_step.
  destruct (currentIssue w) as [cur|]; [|wp_steps; extends_solve].
  apply wp_runOn. wp_use stopWorking_extends.
  cbn in H. wp_steps; extends_solve.
Qed.

(** The status-bar menu looks the defaults up itself, and shows the choices
    for the current issue and what that lookup gave. *)
Lemma statusBar_wp env w c :
  currentIssue w = Some c ->
  let d := match env_getPullRequestDefaults env (trace w) with
           | Ok d => Some d
           | Throw _ => None
           end in
  wp (statusBar env)
     (fun _ w' =>
        extends (EShowQuickPick (choices c d) "Current issue options"
                 :: EGetPullRequestDefaults :: trace w) (trace w')) w.
Proof.
  intros Hc. cbn zeta. unfold statusBar, openIssue. wp_step. wp_step.
  rewrite Hc. cbn iota.
  wp_steps; first [ apply applyPatch_extends | apply stop_current_extends | extends_solve ].
Qed.

Lemma extends_elem_of e tr tr' : extends (e :: tr) tr' -> e ∈ tr'.
Proof. intros [later ->]. apply elem_of_app. right. by left. Qed.

Lemma elem_of_extends e tr tr' : e ∈ tr -> extends tr tr' -> e ∈ tr'.
Proof. intros He [later ->]. apply elem_of_app. by right. Qed.

Lemma setCommitMessageAndGitEvent_trace env s :
  wp (setCommitMessageAndGitEvent env)
     (fun r s' =>
        extends (trace (world s)) (trace (world s')) /\
        (r = Ok tt ->
         forall k f, repo (this s) = Some k ->
           workingIssueFormatScm (config (world s)) = Some f ->
           EVariableSubstitution (Some f) (issueModel (this s)) (repoDefaults (this s)) None
             ∈ trace (world s'))) s.
Proof.
  unfold setCommitMessageAndGitEvent. wp_steps; (split; [extends_solve|]); try done.
  all: intros _ k f ? ?; simplify_eq; cbn; right; by left.
Qed.

Lemma createDraftPR_trace env s :
  wp (createDraftPR env)
     (fun _ s' => this s' = this s /\ extends (trace (world s)) (trace (world s'))) s.
Proof.
  unfold createDraftPR. wp_steps; (split; [done|extends_solve]).
Qed.

(** The steps after the defaults lookup keep the defaults the session holds;
    when they all succeed, the commit message has been templated with those
    defaults and the status-bar item made from them is shown. *)
Lemma startWorking_rest_wp env s :
  wp (createIssueBranch env ;;; setCommitMessageAndGitEvent env ;;;
      setStatusBar env ;;; createDraftPR env)
     (fun r s' =>
        repoDefaults (this s') = repoDefaults (this s) /\
        (r = Ok tt ->
         let item := statusBarItemOf env (issueModel (this s)) (repoDefaults (this s)) in
         statusBarItem (this s') = Some item /\
         EStatusBarShow item ∈ trace (world s') /\
         forall k f, repo (this s) = Some k ->
           workingIssueFormatScm (config (world s)) = Some f ->
           EVariableSubstitution (Some f) (issueModel (this s)) (repoDefaults (this s)) None
             ∈ trace (world s'))) s.
Proof.
  wp_step. wp_use (createIssueBranch_wp env s 0%N).
  destruct H as [Hi Hp Hr Hd Hc _ _].
  destruct r as [[]|e]; [|by split].
  wp_step.
  wp_use (wp_and _ _ _ _ (setCommitMessageAndGitEvent_wp env s')
                         (setCommitMessageAndGitEvent_trace env s')).
  destruct H as ((Ht1 & _) & (Hx1 & Hsub)).
  destruct r as [[]|e]; [|split; congruence].
  wp_step. unfold setStatusBar. wp_steps.
  wp_use createDraftPR_trace. cbn [this world] in H. destruct H as (Ht2 & Hx2).
  rewrite Ht2. unfold set_statusBarItem, statusBarItemOf.
  cbn [repoDefaults statusBarItem]. rewrite Ht1, Hi, Hd.
  split; [done|]. intros _. cbn zeta. split_and!; [done| |].
  - eapply elem_of_extends; [|exact Hx2]. cbn. rewrite Ht1, Hi, Hd. by left.
  - intros k f Hk Hf. eapply elem_of_extends; [|exact Hx2]. cbn. right.
    rewrite <- Hi, <- Hd. apply (Hsub eq_refl k f); congruence.
Qed.

(** The apply-patch choice is none of the other four. *)
Lemma applyPatchText_choices c d :
  applyPatchText c d ∈ choices c d <->
  truthy (_branchName c) = true /\ is_Some d.
Proof.
  unfold choices. destruct (truthy (_branchName c)); cbn [andb].
  - case_bool_decide as Hd.
    + split; [done|]. intros _. do 3 right. by left.
    + split; [|by intros [_ ?]]. intros Hin. exfalso.
      unfold applyPatchText, openIssueText, pullRequestText, draftPullRequestText,
        stopWorkingText in Hin.
      repeat (apply elem_of_cons in Hin as [Hin|Hin]; [cbn in Hin; discriminate|]).
      by apply elem_of_nil in Hin.
  - split; [|by intros [? _]]. intros Hin. exfalso.
    unfold applyPatchText, openIssueText, pullRequestText, draftPullRequestText,
      stopWorkingText in Hin.
    repeat (apply elem_of_cons in Hin as [Hin|Hin]; [cbn in Hin; discriminate|]).
    by apply elem_of_nil in Hin.
Qed.

(** C5 as stated fails when the defaults can be fetched by the time the menu
    is opened: the lookup fails at the start of [startWorking], the session
    keeps no defaults, and the menu, which looks the defaults up itself,
    offers the apply-patch choice. *)
Lemma applyPatch_offered_after_failed_fetch :
  let w0 := sampleWorld (sampleConfig (Some "on") false) ∅ in
  let c0 := constructCurrentIssue envRemoteLater sampleIssue false w0 in
  let w1 := (runOn c0 (startWorking envRemoteLater) w0).2 in
  env_getPullRequestDefaults envRemoteLater (trace w0) = Throw "no remote" /\
  exists c,
    currentIssue w1 = Some c /\
    repoDefaults c = None /\
    _branchName c = Some "alice/issue7" /\
    trace (statusBar envRemoteLater w1).2 =
      EShowQuickPick [openIssueText c; pullRequestText c; draftPullRequestText c;
                      applyPatchText c (Some sampleDefaults); stopWorkingText c]
                     "Current issue options"
      :: EGetPullRequestDefaults :: trace w1.
Proof.
  cbn zeta. split; [reflexivity|]. eexists. split; [vm_compute; reflexivity|].
  split_and!; vm_compute; reflexivity.
Qed.

(** C5, as the code has it. When the defaults lookup fails at the start of
    [startWorking], an error message is shown and the flow goes on with the
    branch step, the commit message, the status bar and the draft pull
    request, the session keeping the defaults it had (none, for a new
    session); when these steps succeed, the commit message has been
    templated and the status-bar item shown, both without defaults. The
    status-bar menu looks the defaults up again: it shows the apply-patch
    choice exactly when the session has a branch name and that lookup
    succeeds, and the four other choices only when that lookup fails. *)
Theorem startWorking_without_defaults env s e :
  env_getPullRequestDefaults env (trace (world s)) = Throw e ->
  let s1 := {| this := this s;
               world := log (EShowErrorMessage
                               "There is no remote. Can't start working on an issue.")
                            (log EGetPullRequestDefaults (world s)) |} in
  startWorking env s =
    (createIssueBranch env ;;; setCommitMessageAndGitEvent env ;;;
     setStatusBar env ;;; createDraftPR env) s1 /\
  (forall i prompt w, repoDefaults (constructCurrentIssue env i prompt w) = None) /\
  (forall r s', startWorking env s = (r, s') ->
     repoDefaults (this s') = repoDefaults (this s) /\
     (r = Ok tt ->
      let item := statusBarItemOf env (issueModel (this s)) (repoDefaults (this s)) in
      statusBarItem (this s') = Some item /\
      EStatusBarShow item ∈ trace (world s') /\
      forall k f, repo (this s) = Some k ->
        workingIssueFormatScm (config (world s)) = Some f ->
        EVariableSubstitution (Some f) (issueModel (this s)) (repoDefaults (this s)) None
          ∈ trace (world s'))) /\
  (forall w c, currentIssue w = Some c ->
     let d := match env_getPullRequestDefaults env (trace w) with
              | Ok d => Some d
              | Throw _ => None
              end in
     wp (statusBar env)
        (fun _ w' =>
           extends (EShowQuickPick (choices c d) "Current issue options"
                    :: EGetPullRequestDefaults :: trace w) (trace w')) w /\
     (applyPatchText c d ∈ choices c d <->
      truthy (_branchName c) = true /\ is_Some d) /\
     (d = None ->
      choices c d = [openIssueText c; pullRequestText c; draftPullRequestText c;
                     stopWorkingText c])).
Proof.
  intros Hfail s1.
  assert (Hstart : startWorking env s =
    (createIssueBranch env ;;; setCommitMessageAndGitEvent env ;;;
     setStatusBar env ;;; createDraftPR env) s1).
  { unfold startWorking. unfold bind at 1.
    unfold fetchDefaults, try_catch, bind at 1. unfold liftW at 1, call at 1.
    by rewrite Hfail. }
  split_and!; [exact Hstart| | |].
  - intros i prompt w. unfold constructCurrentIssue, setRepo. by case_match.
  - intros r s' Hrun. rewrite Hstart in Hrun.
    exact (wp_run _ _ _ _ _ Hrun (startWorking_rest_wp env s1)).
  - intros w c Hc d. split_and!.
    + by apply statusBar_wp.
    + apply applyPatchText_choices.
    + intros ->. unfold choices. by rewrite andb_false_r.
Qed.

Lemma startWorking_without_defaults_witness :
  let env := sampleEnv defaultsFail gitOk None (fun _ => "alice/issue7")
                       (fun _ => Ok true) None in
  let s := sampleSession env false (sampleWorld (sampleConfig (Some "on") false) ∅) in
  startWorking env s =
    (createIssueBranch env ;;; setCommitMessageAndGitEvent env ;;;
     setStatusBar env ;;; createDraftPR env)
      {| this := this s;
         world := log (EShowErrorMessage
                         "There is no remote. Can't start working on an issue.")
                      (log EGetPullRequestDefaults (world s)) |}.
Proof.
  cbn zeta.
  apply (startWorking_without_defaults
           (sampleEnv defaultsFail gitOk None (fun _ => "alice/issue7")
                      (fun _ => Ok true) None)
           (sampleSession _ false (sampleWorld (sampleConfig (Some "on") false) ∅))
           "no remote").
  reflexivity.
Defined.

(** ** The assignee of an issue created from text (C6) *)

Lemma truthy_nonempty s : s <> EmptyString -> truthy (Some s) = true.
Proof. intros H. cbn. by apply negb_true_iff, String.eqb_neq. Qed.

(** The assignee read at lines 419-422: the user of the only mention, when
    that user is known. *)
Lemma assigneeOf_cases users content :
  assigneeOf users content =
    match mentions content with
    | [u] => if bool_decide (u ∈ users) then Some u else None
    | _ => None
    end.
Proof.
  unfold assigneeOf, match_USER_EXPRESSION.
  by destruct (mentions content) as [|u [|u2 rest]].
Qed.

(** With the defaults at hand and no failing permalink, [doCreateIssue]
    requests one issue, with the title and the assignee it was given. *)
Lemma doCreateIssue_requests env doc newIssue title issueBody assignee ln ii w d :
  (forall tr, env_getPullRequestDefaults env tr = Ok d) ->
  (forall tr l e, env_createGithubPermalink env tr l <> Throw e) ->
  wp (doCreateIssue env doc newIssue title issueBody assignee ln ii)
     (fun _ w' =>
        exists p, createdIssues (trace w') = p :: createdIssues (trace w) /\
                  cp_owner p = defaults_owner d /\ cp_repo p = defaults_repo d /\
                  cp_title p = title /\ cp_assignee p = assignee) w.
Proof.
  intros Hd Hp. unfold doCreateIssue, issueBodyOf.
  wp_step. wp_step. wp_step. wp_step. rewrite Hd. wp_step. cbn beta iota.
  wp_step.
  assert (Hk : forall body w1,
             createdIssues (trace w1) = createdIssues (trace w) ->
             wp (let params := {| cp_owner := defaults_owner d; cp_repo := defaults_repo d;
                                  cp_title := title; cp_body := body;
                                  cp_assignee := assignee |} in
                 let* issue := call (ECreateIssue params)
                                    (fun tr => env_createIssue env tr params) in
                 match issue with
                 | Some issue =>
                     match ii, ln with
                     | Some ii, Some ln =>
                         let* w := get in
                         let* _ := call (EApplyEdit (uri doc) {| line := ln; character := ii |}
                                           (" " +:+ insertText (config w) issue))
                                        (env_applyEdit env) in
                         ret tt
                     | _, _ =>
                         let* _ := call (EOpenExternal (html_url issue))
                                        (fun tr => env_openExternal env tr (html_url issue)) in
                         ret tt
                     end ;;;
                     emit ERefreshCacheNeeded
                 | None => ret tt
                 end)
                (fun _ w' =>
                   exists p, createdIssues (trace w') = p :: createdIssues (trace w) /\
                             cp_owner p = defaults_owner d /\ cp_repo p = defaults_repo d /\
                             cp_title p = title /\ cp_assignee p = assignee) w1).
  { intros body w1 H1. cbn zeta. wp_steps.
    all: eexists; split; [unfold createdIssues in *; cbn; by rewrite H1|done]. }
  destruct (truthy issueBody || _).
  - wp_step. by apply Hk.
  - wp_step.
    destruct (env_createGithubPermalink env _ _) as [pl|e] eqn:Hpl; [|by destruct (Hp _ _ _ Hpl)].
    by apply Hk.
Qed.

(** C6. An issue created from text has as assignee the user of the only
    "@user" mention of the text, when that user is known. For a text from
    which [createTodoIssue] generates an issue, with the defaults at hand
    and no failing permalink: the input box is shown, and when a title is
    confirmed one issue is requested with that title; its assignee is the
    mentioned user when the text holds exactly one mention and the user is
    in the map of known users, and there is no assignee when the text
    holds no mention, when it holds more than one, and when the only
    mention is of a user that is not known. *)
Theorem todo_issue_assignee env newIssue issueBody w doc ii ln ph content title d :
  todoSource newIssue (env_activeTextEditor env (trace w)) =
    Some (doc, ii, ln, ph, content) ->
  title <> EmptyString ->
  (forall tr, env_getPullRequestDefaults env tr = Ok d) ->
  (forall tr l e, env_createGithubPermalink env tr l <> Throw e) ->
  exists q w1 p,
    createTodoIssue env newIssue issueBody w = (Ok (Some q), w1) /\
    createdIssues (trace (onDidAccept env q title w1).2) = p :: createdIssues (trace w) /\
    cp_title p = title /\
    (forall u, mentions content = [u] -> u ∈ userMap w -> cp_assignee p = Some u) /\
    (forall u, mentions content = [u] -> u ∉ userMap w -> cp_assignee p = None) /\
    (mentions content = [] -> cp_assignee p = None) /\
    (forall u1 u2 others, mentions content = u1 :: u2 :: others -> cp_assignee p = None).
Proof.
  intros Hsrc Ht Hd Hp.
  set (assignee := assigneeOf (userMap w) content).
  assert (Hshow : wp (createTodoIssue env newIssue issueBody)
                     (fun r w1 =>
                        exists q, r = Ok (Some q) /\ qi_assignee q = assignee /\
                                  createdIssues (trace w1) = createdIssues (trace w)) w).
  { unfold createTodoIssue. wp_step. wp_step. rewrite Hsrc. cbn iota beta zeta.
    fold assignee. unfold issueBodyOf. wp_step.
    destruct (truthy issueBody || _).
    - wp_steps. eexists. by split_and!.
    - wp_step.
      destruct (env_createGithubPermalink env _ _) as [pl|e] eqn:Hpl;
        [|by destruct (Hp _ _ _ Hpl)].
      wp_steps. eexists. by split_and!. }
  unfold wp in Hshow. destruct (createTodoIssue env newIssue issueBody w) as [r w1].
  cbn [fst snd] in Hshow. destruct Hshow as (q & -> & Hq & Hw1).
  assert (Hacc : wp (onDidAccept env q title)
                    (fun _ w2 =>
                       exists p, createdIssues (trace w2) = p :: createdIssues (trace w1) /\
                                 cp_title p = title /\ cp_assignee p = assignee) w1).
  { unfold onDidAccept. rewrite (truthy_nonempty title) by done. wp_step.
    eapply wp_mono; [by apply (doCreateIssue_requests env _ _ title _ _ _ _ w1 d)|].
    cbn beta. intros r w2 (p & Hc & _ & _ & Htitle & Ha).
    destruct r as [[]|e]; [wp_step|]; exists p; (split_and!; [|done|by rewrite Ha]).
    - unfold createdIssues in *. cbn. exact Hc.
    - exact Hc. }
  unfold wp in Hacc. destruct Hacc as (p & Hc & Htitle & Ha).
  exists q, w1, p. rewrite Hc, Hw1. split_and!; try done.
  all: rewrite Ha; unfold assignee; rewrite assigneeOf_cases.
  - intros u -> Hu. by rewrite bool_decide_true.
  - intros u -> Hu. by rewrite bool_decide_false.
  - by intros ->.
  - by intros u1 u2 others ->.
Qed.

Lemma todo_issue_assignee_witness :
  let content := "// TODO fix parsing @alice" in
  let w := sampleWorld (sampleConfig None false) ∅ in
  mentions content = ["alice"] /\
  exists q w1 p,
    createTodoIssue envOk (Some (newIssueOn content)) (Some "body") w = (Ok (Some q), w1) /\
    createdIssues (trace (onDidAccept envOk q "Parsing" w1).2) = p :: createdIssues (trace w) /\
    cp_title p = "Parsing" /\ cp_assignee p = Some "alice".
Proof.
  cbn zeta. split; [vm_compute; reflexivity|].
  destruct (todo_issue_assignee envOk (Some (newIssueOn "// TODO fix parsing @alice"))
              (Some "body") (sampleWorld (sampleConfig None false) ∅)
              _ _ _ _ _ "Parsing" sampleDefaults eq_refl)
    as (q & w1 & p & Hq & Hc & Ht & Hone & _); [done|done|done|].
  exists q, w1, p. split_and!; [done|done|done|].
  apply (Hone "alice"); [vm_compute; reflexivity|]. vm_compute. set_solver.
Defined.

(** The same line with a second mention, and with a mention of a user that
    is not known: the issues are requested without assignee. *)
Example two_mentions_no_assignee :
  let content := "// TODO ask @alice or @bob" in
  let w := sampleWorld (sampleConfig None false) ∅ in
  mentions content = ["alice"; "bob"] /\
  exists q w1,
    createTodoIssue envOk (Some (newIssueOn content)) (Some "body") w = (Ok (Some q), w1) /\
    createdIssues (trace (onDidAccept envOk q "Ask" w1).2) =
      [ {| cp_owner := "octo"; cp_repo := "demo"; cp_title := "Ask";
           cp_body := Some "body"; cp_assignee := None |} ].
Proof.
  cbn zeta. split; [vm_compute; reflexivity|].
  eexists _, _. split; vm_compute; reflexivity.
Qed.

Example unknown_mention_no_assignee :
  let content := "// TODO ask @carol" in
  let w := sampleWorld (sampleConfig None false) ∅ in
  mentions content = ["carol"] /\
  exists q w1,
    createTodoIssue envOk (Some (newIssueOn content)) (Some "body") w = (Ok (Some q), w1) /\
    createdIssues (trace (onDidAccept envOk q "Ask" w1).2) =
      [ {| cp_owner := "octo"; cp_repo := "demo"; cp_title := "Ask";
           cp_body := Some "body"; cp_assignee := None |} ].
Proof.
  cbn zeta. split; [vm_compute; reflexivity|].
  eexists _, _. split; vm_compute; reflexivity.
Qed.

(** The title placeholder of an issue raised on a line: the text after the
    insert index, trimmed. The index counts an accented letter (two bytes)
    as one unit, and a no-break space (U+00A0) is trimmed like a space. *)
Example title_placeholder_non_ascii :
  let line := "// d" +:+ String "195" (String "169" "j") +:+ String "195" (String "160" " TODO") +:+
              String "194" (String "160" " fix parsing ") +:+ String "194" (String "160" EmptyString) in
  substringFromUnit 12 line =
    String "194" (String "160" " fix parsing ") +:+ String "194" (String "160" EmptyString) /\
  trim (substringFromUnit 12 line) = "fix parsing".
Proof. cbn zeta. split; vm_compute; reflexivity. Qed.

(** * Further properties of the tracker and the registrar *)

(** ** Branches and the user name *)

(** X1. [createOrCheckoutBranch] looks the branch up once and then makes one
    attempt: a checkout when the lookup gave a branch, and the creation of
    the branch, with checkout, when the lookup gave none or failed. A failed
    lookup is never passed on; the outcome of the attempt is. *)
Theorem createOrCheckoutBranch_cases env b s :
  let w1 := log (EGetBranch b) (world s) in
  createOrCheckoutBranch env b s =
    match env_getBranch env (trace (world s)) b with
    | Ok (Some _) =>
        (env_checkout env (trace w1) b,
         {| this := this s; world := log (ECheckout b) w1 |})
    | Ok None | Throw _ =>
        (env_createBranch env (trace w1) b true,
         {| this := this s; world := log (ECreateBranch b true) w1 |})
    end.
Proof.
  cbn zeta. unfold createOrCheckoutBranch, branchExists, bind, try_catch, liftW, call, ret.
  cbn. by destruct (env_getBranch env (trace (world s)) b) as [[?|]|?].
Qed.

(** X2. Once [getUser] has returned a user name that is not empty, the
    session holds it: every later [getUser] on the object returns the same
    name without asking the remote again, whatever the collaborators would
    answer then. *)
Theorem getUser_asks_once env s u s1 :
  getUser env s = (Ok u, s1) -> u <> EmptyString ->
  userLookups (trace (world s1)) <= S (userLookups (trace (world s))) /\
  forall env2 s2, user (this s2) = user (this s1) -> getUser env2 s2 = (Ok u, s2).
Proof.
  intros Hrun Hu.
  assert (Htruthy : truthy (Some u) = true).
  { cbn. apply negb_true_iff. by apply String.eqb_neq. }
  pose proof (wp_run _ _ _ _ _ Hrun (getUser_wp env s)) as (_ & _ & _ & Huser).
  split.
  - revert Hrun. unfold getUser, bind, getThis, liftW, call, setThis, ret. cbn.
    destruct (user (this s)) as [u0|]; [destruct (truthy (Some u0))|];
      repeat case_match; intros; simplify_eq; unfold userLookups; cbn; lia.
  - intros env2 s2 H2. apply getUser_cached; [|done]. by rewrite H2.
Qed.

Lemma getUser_asks_once_witness :
  let s := sampleSession envOk false (sampleWorld (sampleConfig None false) ∅) in
  getUser envConflict (getUser envOk s).2 = (Ok "alice", (getUser envOk s).2).
Proof.
  cbn zeta.
  apply (proj2 (getUser_asks_once envOk
                  (sampleSession envOk false (sampleWorld (sampleConfig None false) ∅))
                  "alice" _ eq_refl ltac:(discriminate))).
  reflexivity.
Defined.

(** ** Stopping and starting *)

Lemma dispose_quiet s :
  wp dispose
     (fun r s' => r = Ok tt /\ this s' = this s /\
                  attempts (trace (world s')) = attempts (trace (world s)) /\
                  saved (world s') = saved (world s)) s.
Proof. unfold dispose. wp_steps; by split_and!. Qed.

Lemma messageCleared_attempts s :
  attempts (trace (messageCleared s)) = attempts (trace (world s)).
Proof. unfold messageCleared. by destruct (repo (this s)). Qed.

Lemma stopWorking_without_defaults_eq env s :
  repoDefaults (this s) = None ->
  stopWorking env s = dispose {| this := this s; world := messageCleared s |}.
Proof.
  intros Hd. destruct s as [t w]. cbn in Hd.
  unfold stopWorking, messageCleared, bind, getThis, liftW, emit, modify, ret.
  cbn. rewrite Hd. by destruct (repo t).
Qed.

Lemma stopWorking_with_defaults_eq env s d :
  repoDefaults (this s) = Some d ->
  stopWorking env s =
    match env_checkout env (trace (messageCleared s)) (base d) with
    | Ok _ => dispose {| this := this s;
                         world := log (ECheckout (base d)) (messageCleared s) |}
    | Throw e => (Throw e, {| this := this s;
                              world := log (ECheckout (base d)) (messageCleared s) |})
    end.
Proof.
  intros Hd. destruct s as [t w]. cbn in Hd.
  unfold stopWorking, messageCleared, bind, getThis, liftW, emit, modify, call, ret.
  cbn. rewrite Hd. destruct (repo t); cbn;
    by destruct (env_checkout env _ (base d)) as [[]|e].
Qed.

Lemma stopWorking_attempts env s d :
  repoDefaults (this s) = Some d ->
  attempts (trace (world (stopWorking env s).2)) = base d :: attempts (trace (world s)).
Proof.
  intros Hd. rewrite (stopWorking_with_defaults_eq env s d Hd).
  destruct (env_checkout env _ (base d)) as [[]|e]; cbn [snd world].
  - pose proof (dispose_quiet
      {| this := this s; world := log (ECheckout (base d)) (messageCleared s) |}) as H.
    unfold wp in H. destruct H as (_ & _ & H3 & _). rewrite H3. cbn.
    by rewrite messageCleared_attempts.
  - cbn. by rewrite messageCleared_attempts.
Qed.

(** X3. [stopWorking] of the tracker clears the commit message box first,
    then checks out the base branch of the defaults the session holds, then
    disposes the status-bar item. Without defaults it makes no checkout and
    returns normally. When the checkout fails, the failure is passed on and
    the status-bar item is neither hidden nor disposed, although the commit
    message box is cleared already. *)
Theorem stopWorking_base_checkout env s :
  (repoDefaults (this s) = None ->
     (stopWorking env s).1 = Ok tt /\
     attempts (trace (world (stopWorking env s).2)) = attempts (trace (world s))) /\
  (forall d, repoDefaults (this s) = Some d ->
     attempts (trace (world (stopWorking env s).2)) = base d :: attempts (trace (world s)) /\
     stopWorking env s =
       match env_checkout env (trace (messageCleared s)) (base d) with
       | Ok _ => dispose {| this := this s;
                            world := log (ECheckout (base d)) (messageCleared s) |}
       | Throw e => (Throw e, {| this := this s;
                                 world := log (ECheckout (base d)) (messageCleared s) |})
       end).
Proof.
  split.
  - intros Hd. rewrite (stopWorking_without_defaults_eq env s Hd).
    pose proof (dispose_quiet {| this := this s; world := messageCleared s |}) as H.
    unfold wp in H. destruct H as (H1 & _ & H3 & _).
    split; [done|]. rewrite H3. apply messageCleared_attempts.
  - intros d Hd. split; [by apply stopWorking_attempts|by apply stopWorking_with_defaults_eq].
Qed.

Lemma stopWorking_base_checkout_witness :
  stopWorking envConflict (startedSession (sampleWorld (sampleConfig None false) ∅)) =
    (Throw "conflict",
     {| this := this (startedSession (sampleWorld (sampleConfig None false) ∅));
        world := log (ECheckout "main") (sampleWorld (sampleConfig None false) ∅) |}).
Proof.
  apply (proj2 (proj2 (stopWorking_base_checkout envConflict
           (startedSession (sampleWorld (sampleConfig None false) ∅)))
           sampleDefaults eq_refl)).
Defined.

(** X4. After a [startWorking] at whose start the defaults lookup gave
    defaults, the session holds these defaults however the rest of
    [startWorking] ends, and [stopWorking] on the object then attempts the
    checkout of their base branch. *)
Theorem stopWorking_after_startWorking env s d r s' :
  env_getPullRequestDefaults env (trace (world s)) = Ok d ->
  startWorking env s = (r, s') ->
  repoDefaults (this s') = Some d /\
  forall env2 s2, this s2 = this s' ->
    attempts (trace (world (stopWorking env2 s2).2)) = base d :: attempts (trace (world s2)).
Proof.
  intros Hd Hrun.
  assert (Hstart : startWorking env s =
    (createIssueBranch env ;;; setCommitMessageAndGitEvent env ;;;
     setStatusBar env ;;; createDraftPR env)
      {| this := set_repoDefaults (Some d) (this s);
         world := log EGetPullRequestDefaults (world s) |}).
  { unfold startWorking. unfold bind at 1.
    unfold fetchDefaults, try_catch, bind at 1. unfold liftW at 1, call at 1.
    by rewrite Hd. }
  rewrite Hstart in Hrun.
  pose proof (wp_run _ _ _ _ _ Hrun (startWorking_rest_wp env _)) as (Hkeep & _).
  cbn in Hkeep. split; [done|].
  intros env2 s2 H2. apply stopWorking_attempts. by rewrite H2.
Qed.

Lemma stopWorking_after_startWorking_witness :
  let s := sampleSession envOk false (sampleWorld (sampleConfig (Some "on") true) ∅) in
  repoDefaults (this (startWorking envOk s).2) = Some sampleDefaults /\
  attempts (trace (world (stopWorking envOk (startWorking envOk s).2).2)) =
    "main" :: attempts (trace (world (startWorking envOk s).2)).
Proof.
  cbn zeta.
  destruct (stopWorking_after_startWorking envOk
              (sampleSession envOk false (sampleWorld (sampleConfig (Some "on") true) ∅))
              sampleDefaults _ _ eq_refl (surjective_pairing _)) as (H1 & H2).
  split; [exact H1|]. by apply H2.
Defined.

(** ** The repository of a session *)

Lemma setRepo_from_spec env i rs k0 :
  match setRepo_from env i k0 rs with
  | Some k =>
      k0 <= k /\
      exists r, rs !! (k - k0) = Some r /\
        existsb (remoteMatches env i) (remotes r) = true /\
        forall j r', j < k - k0 -> rs !! j = Some r' ->
          existsb (remoteMatches env i) (remotes r') = false
  | None => forall r, r ∈ rs -> existsb (remoteMatches env i) (remotes r) = false
  end.
Proof.
  revert k0. induction rs as [|r0 rs IH]; intros k0; cbn.
  - intros r Hr. by apply elem_of_nil in Hr.
  - destruct (existsb (remoteMatches env i) (remotes r0)) eqn:H0.
    + split; [lia|]. exists r0. rewrite Nat.sub_diag. split_and!; [done|done|].
      intros j r' Hj. lia.
    + specialize (IH (S k0)). destruct (setRepo_from env i (S k0) rs) as [k|].
      * destruct IH as (Hle & r & Hr & Hm & Hfirst). split; [lia|].
        exists r. replace (k - k0) with (S (k - S k0)) by lia.
        split_and!; [done|done|].
        intros [|j] r' Hj Hr'; cbn in Hr'; [by simplify_eq|].
        apply (Hfirst j r'); [lia|done].
      * intros r Hr. apply elem_of_cons in Hr as [->|Hr]; [done|by apply IH].
Qed.

Lemma remoteMatches_spec env i rm :
  remoteMatches env i rm = true <->
  git_remote_name rm = remoteName (remote i) /\
  forall u, fetchUrl rm = Some u ->
    env_search env (env_toLowerCase env u)
      (env_toLowerCase env (owner (remote i)) +:+ "/" +:+
       env_toLowerCase env (repositoryName (remote i))) <> (-1)%Z.
Proof.
  unfold remoteMatches. rewrite andb_true_iff, String.eqb_eq.
  destruct (fetchUrl rm) as [u|].
  - rewrite negb_true_iff, Z.eqb_neq. split; intros [Hn Hu]; (split; [done|]).
    + by intros ? [= <-].
    + by apply Hu.
  - split; intros [Hn _]; by split.
Qed.

Lemma existsb_remoteMatches env i r :
  existsb (remoteMatches env i) (remotes r) = true <->
  exists rm, rm ∈ remotes r /\
    git_remote_name rm = remoteName (remote i) /\
    forall u, fetchUrl rm = Some u ->
      env_search env (env_toLowerCase env u)
        (env_toLowerCase env (owner (remote i)) +:+ "/" +:+
         env_toLowerCase env (repositoryName (remote i))) <> (-1)%Z.
Proof.
  rewrite existsb_exists. split; intros (rm & Hin & Hm); exists rm.
  - apply list_elem_of_In in Hin. by apply remoteMatches_spec in Hm.
  - split; [by apply list_elem_of_In|]. by apply remoteMatches_spec.
Qed.

(** X5. The constructor gives a new session the first local repository that
    has a matching remote, and no repository when none has one; every other
    field of the session starts empty. A remote matches when it has the name
    of the issue's remote and its fetch URL, if it has one, put in lower
    case holds the owner and the repository name of the issue, put in lower
    case and joined by a slash; a remote without fetch URL matches by its
    name alone. *)
Theorem constructCurrentIssue_repo env i prompt w :
  let c := constructCurrentIssue env i prompt w in
  let pattern := env_toLowerCase env (owner (remote i)) +:+ "/" +:+
                 env_toLowerCase env (repositoryName (remote i)) in
  let matching (r : Repository) :=
    exists rm, rm ∈ remotes r /\
      git_remote_name rm = remoteName (remote i) /\
      forall u, fetchUrl rm = Some u ->
        env_search env (env_toLowerCase env u) pattern <> (-1)%Z in
  issueModel c = i /\ shouldPromptForBranch c = prompt /\
  _branchName c = None /\ user c = None /\ repoDefaults c = None /\
  statusBarItem c = None /\
  match repo c with
  | Some k =>
      exists r, repositories w !! k = Some r /\ matching r /\
        forall j r', j < k -> repositories w !! j = Some r' -> ~ matching r'
  | None => forall r, r ∈ repositories w -> ~ matching r
  end.
Proof.
  cbn zeta. unfold constructCurrentIssue, setRepo.
  pose proof (setRepo_from_spec env i (repositories w) 0) as H.
  cbn [issueModel newCurrentIssue] in *.
  destruct (setRepo_from env i 0 (repositories w)) as [k|]; cbn.
  - destruct H as (_ & r & Hr & Hm & Hfirst). rewrite Nat.sub_0_r in *.
    split_and!; try done. exists r. split_and!; [done|by apply existsb_remoteMatches|].
    intros j r' Hj Hr' Hm'%existsb_remoteMatches.
    by rewrite (Hfirst j r' Hj Hr') in Hm'.
  - split_and!; try done.
    intros r Hr Hm%existsb_remoteMatches. by rewrite (H r Hr) in Hm.
Qed.

(** The second repository is the first with the remote of the issue. *)
Example constructCurrentIssue_second_repository :
  repo (constructCurrentIssue envOk sampleIssue false
          (worldWithRepositories sampleRepositories)) = Some 1.
Proof. reflexivity. Qed.

(** With fetch URLs: the name alone is not enough, nor is the URL alone; the
    third repository has both. Without it no repository is found. *)
Example constructCurrentIssue_fetch_url :
  repo (constructCurrentIssue (withSearch envOk) sampleIssue false
          (worldWithRepositories repositoriesWithUrls)) = Some 2 /\
  repo (constructCurrentIssue (withSearch envOk) sampleIssue false
          (worldWithRepositories (take 2 repositoriesWithUrls))) = None.
Proof. split; vm_compute; reflexivity. Qed.

(** ** Starting work with branch creation off *)

(** X6. With branch creation set to [off] and no prompt request,
    [startWorking] on a session without branch name attempts no checkout
    and no branch creation, persists nothing, and pushes no draft pull
    request, even when draft pull requests are to be created always; the
    session ends without a branch name. *)
Theorem startWorking_branch_off env s :
  shouldPromptForBranch (this s) = false ->
  createIssueBranchConfig (config (world s)) = Some "off" ->
  _branchName (this s) = None ->
  let s' := (startWorking env s).2 in
  _branchName (this s') = None /\
  attempts (trace (world s')) = attempts (trace (world s)) /\
  draftPushes (trace (world s')) = draftPushes (trace (world s)) /\
  saved (world s') = saved (world s).
Proof.
  intros Hp Hoff Hb.
  assert (H : wp (startWorking env)
                 (fun _ s' =>
                    _branchName (this s') = None /\
                    attempts (trace (world s')) = attempts (trace (world s)) /\
                    draftPushes (trace (world s')) = draftPushes (trace (world s)) /\
                    saved (world s') = saved (world s)) s); [|exact H].
  unfold startWorking. wp_step. wp_use fetchDefaults_wp.
  destruct H as (-> & _ & Hp1 & _ & Hb1 & Hc1 & Hs1 & Hd1 & Ha1).
  wp_step.
  assert (Hskip : createIssueBranch env s' = (Ok tt, s')).
  { unfold createIssueBranch, bind, getThis, getWorld, ret, createBranchConfig.
    rewrite Hp1, Hp, Hc1, Hoff. by rewrite bool_decide_true. }
  unfold wp at 1. rewrite Hskip. cbn [fst snd].
  eapply wp_mono; [apply startWorking_rest_without_branch; congruence|].
  cbn beta. intros r s2 (H1 & H2 & H3 & H4). split_and!; congruence.
Qed.

Lemma startWorking_branch_off_witness :
  let s := sampleSession envOk false (sampleWorld (sampleConfig (Some "off") true) ∅) in
  _branchName (this (startWorking envOk s).2) = None /\
  attempts (trace (world (startWorking envOk s).2)) = [] /\
  draftPushes (trace (world (startWorking envOk s).2)) = [] /\
  saved (world (startWorking envOk s).2) = ∅.
Proof.
  cbn zeta.
  apply (startWorking_branch_off envOk
           (sampleSession envOk false (sampleWorld (sampleConfig (Some "off") true) ∅)));
    reflexivity.
Defined.

(** ** The persisted state of other issues *)

Lemma elsewhere_saved n s s' : saved (world s') = saved (world s) -> elsewhere n s s'.
Proof. intros H m _. by rewrite H. Qed.

Lemma elsewhere_trans n s1 s2 s3 : elsewhere n s1 s2 -> elsewhere n s2 s3 -> elsewhere n s1 s3.
Proof. intros H1 H2 m Hm. by rewrite H2, H1. Qed.

Lemma elsewhere_insert n s s' st :
  saved (world s') = <[n := st]> (saved (world s)) -> elsewhere n s s'.
Proof. intros H m Hm. rewrite H. by apply lookup_insert_ne. Qed.

Lemma checkoutPhase_elsewhere env name st s :
  let n := number (issueModel (this s)) in
  wp (try_catch (createOrCheckoutBranch env name) (fun _ => checkoutFailed env name st))
     (fun _ s' => elsewhere n s s' /\ issueModel (this s') = issueModel (this s)) s.
Proof.
  intros n. wp_step.
  wp_use createOrCheckoutBranch_wp. destruct H as (Ht & Hs & _).
  destruct r as [[]|e]; [split; [by apply elsewhere_saved|by rewrite Ht]|].
  unfold checkoutFailed. wp_step. wp_step. wp_step.
  wp_use getUser_wp. destruct H as (Hq & _).
  assert (Hs2 : saved (world s'0) = saved (world s)) by (destruct Hq; congruence).
  assert (Hi2 : issueModel (this s'0) = issueModel (this s)) by (destruct Hq; congruence).
  destruct r as [u|e']; [|split; [by apply elsewhere_saved|done]].
  unfold showErrorMessage. wp_step.
  - wp_steps. split; [by apply elsewhere_saved|done].
  - wp_steps. set (s5 := {| this := _; world := _ |}).
    wp_use createOrCheckoutBranch_wp. destruct H as (Ht6 & Hs6 & _).
    split; [|by rewrite Ht6].
    eapply (elsewhere_insert n s s'1). rewrite Hs6. cbn. rewrite Ht, Hs2. done.
Qed.

Lemma createIssueBranch_elsewhere env s :
  let n := number (issueModel (this s)) in
  wp (createIssueBranch env)
     (fun _ s' => elsewhere n s s' /\ issueModel (this s') = issueModel (this s)) s.
Proof.
  intros n. unfold createIssueBranch. wp_step. wp_step. wp_step. wp_step.
  wp_step; [wp_step; split; [by apply elsewhere_saved|done]|].
  wp_step. wp_use resolveIssueBranchName_wp. destruct H as (Hq & _).
  destruct r as [name|e]; [|split; [apply elsewhere_saved|]; by destruct Hq].
  wp_step. unfold wp at 1. rewrite saveBranchName_eq. cbn [fst snd].
  set (s2 := {| this := _; world := _ |}).
  assert (Hn2 : number (issueModel (this s2)) = n) by (unfold n; cbn; by destruct Hq as [-> _]).
  assert (He2 : elsewhere n s s2).
  { eapply elsewhere_insert. cbn. destruct Hq as [Hi _ _ _ _ _ Hs _]. rewrite Hs.
    unfold n. by rewrite Hi. }
  eapply wp_mono; [apply checkoutPhase_elsewhere|].
  cbn beta. rewrite Hn2. intros r s3 (He3 & Hi3). split.
  - by eapply elsewhere_trans.
  - rewrite Hi3. cbn. by destruct Hq.
Qed.

(** X7. [startWorking] on an issue changes the persisted state of no other
    issue: whatever the settings and the collaborators, the entry of every
    other issue number is the same afterwards. *)
Theorem startWorking_other_issues env s m :
  m <> number (issueModel (this s)) ->
  saved (world (startWorking env s).2) !! m = saved (world s) !! m.
Proof.
  intros Hm. set (n := number (issueModel (this s))).
  assert (H : wp (startWorking env) (fun _ s' => elsewhere n s s') s);
    [|by apply H].
  unfold startWorking. wp_step. wp_use fetchDefaults_wp.
  destruct H as (-> & Hi1 & _ & _ & _ & _ & Hs1 & _).
  assert (He1 : elsewhere n s s') by (by apply elsewhere_saved).
  wp_step. wp_use createIssueBranch_elsewhere. rewrite Hi1 in H. fold n in H.
  destruct H as (He2 & Hi2).
  assert (He2' : elsewhere n s s'0) by (by eapply elsewhere_trans).
  destruct r as [[]|e]; [|done].
  wp_step. wp_use setCommitMessageAndGitEvent_wp. destruct H as (Ht3 & _ & Hs3 & _).
  assert (He3 : elsewhere n s s'1).
  { eapply elsewhere_trans; [exact He2'|by apply elsewhere_saved]. }
  destruct r as [[]|e]; [|done].
  wp_step. unfold setStatusBar. wp_steps.
  set (s4 := {| this := _; world := _ |}).
  assert (He4 : elsewhere n s s4) by (intros k Hk; by apply He3).
  assert (Hn4 : number (issueModel (this s4)) = n).
  { unfold n. cbn. by rewrite Ht3, Hi2. }
  unfold createDraftPR. wp_steps.
  all: try exact He4.
  eapply elsewhere_trans; [exact He4|]. eapply elsewhere_insert. cbn. by rewrite <- Hn4.
Qed.

Lemma startWorking_other_issues_witness :
  saved (world (startWorking envOk
                  (sampleSession envOk false
                     (sampleWorld (sampleConfig (Some "on") true)
                                  {[ 8%N := {| branch := Some "eight"; hasDraftPR := false |} ]})
                  )).2) !! 8%N =
    Some {| branch := Some "eight"; hasDraftPR := false |}.
Proof.
  etrans.
  - apply (startWorking_other_issues envOk
             (sampleSession envOk false
                (sampleWorld (sampleConfig (Some "on") true)
                             {[ 8%N := {| branch := Some "eight"; hasDraftPR := false |} ]}))
             8%N).
    discriminate.
  - vm_compute. reflexivity.
Defined.

(** ** Applying the patch of the working branch to its base *)

(** X8. [applyPatch] never throws, and it ends in exactly one of two ways:
    the commit message of the repository is set once and no error message is
    shown, or one error message is shown and the commit message is left as it
    was. *)
Theorem applyPatch_outcome env baseBranch workingBranch w :
  (applyPatch env baseBranch workingBranch w).1 = Ok tt /\
  let tr := trace w in
  let tr' := trace (applyPatch env baseBranch workingBranch w).2 in
  (exists m, messagesSet tr' = m :: messagesSet tr /\ errorMessages tr' = errorMessages tr) \/
  (exists m, errorMessages tr' = m :: errorMessages tr /\ messagesSet tr' = messagesSet tr).
Proof.
  assert (H : wp (applyPatch env baseBranch workingBranch)
                 (fun r w' =>
                    r = Ok tt /\
                    ((exists m, messagesSet (trace w') = m :: messagesSet (trace w) /\
                                errorMessages (trace w') = errorMessages (trace w)) \/
                     (exists m, errorMessages (trace w') = m :: errorMessages (trace w) /\
                                messagesSet (trace w') = messagesSet (trace w)))) w);
    [|exact H].
  unfold applyPatch. wp_steps.
  all: split; [done|].
  all: unfold messagesSet, errorMessages; cbn [trace log omap list_omap mbind option_bind].
  all: first [ left; eexists; split; reflexivity | right; eexists; split; reflexivity ].
Qed.

(** X9. [applyPatch] replaces the commit message only at the end of a
    complete run: when the message was set, the calls made are, in this
    order, the lookup of the base branch, the merge base, its commit, the
    diff, the storage directory, the patch file, the checkout of the base
    branch, the pull and the application of the patch. *)
Theorem applyPatch_complete_run env baseBranch workingBranch w :
  messagesSet (trace (applyPatch env baseBranch workingBranch w).2) <>
    messagesSet (trace w) ->
  exists hc bc mergeBase message diff,
    env_HEAD env (EGetBranch baseBranch :: trace w) ≫= commit = Some hc /\
    trace (applyPatch env baseBranch workingBranch w).2 =
      (patchRun env baseBranch hc bc mergeBase message diff ++ trace w)%list.
Proof.
  assert (H : wp (applyPatch env baseBranch workingBranch)
                 (fun _ w' =>
                    messagesSet (trace w') <> messagesSet (trace w) ->
                    exists hc bc mergeBase message diff,
                      env_HEAD env (EGetBranch baseBranch :: trace w) ≫= commit = Some hc /\
                      trace w' =
                        (patchRun env baseBranch hc bc mergeBase message diff ++ trace w)%list)
                 w);
    [|exact H].
  unfold applyPatch. wp_steps.
  all: try (intros Hne; by destruct Hne).
  all: intros _; cbn in *.
  all: match goal with
       | H : env_HEAD _ _ = Some ?h |- _ =>
           rewrite H; destruct (commit h) as [hc|] eqn:Hhc; [|done]
       end.
  all: exists hc; eexists _, _, _, _; split; [done|reflexivity].
Qed.

Lemma applyPatch_complete_run_witness :
  exists hc bc mergeBase message diff,
    env_HEAD envPatch [EGetBranch "main"] ≫= commit = Some hc /\
    trace (applyPatch envPatch "main" "topic" (sampleWorld (sampleConfig None false) ∅)).2 =
      (patchRun envPatch "main" hc bc mergeBase message diff ++ [])%list.
Proof.
  apply (applyPatch_complete_run envPatch "main" "topic"
           (sampleWorld (sampleConfig None false) ∅)).
  vm_compute. discriminate.
Defined.

(** ** The menu of the status bar *)

(** X10. The entries of the status-bar menu are pairwise distinct, whatever
    the number and the title of the issue, the branch name and the defaults:
    the answer of the quick pick names one entry only. *)
Theorem choices_NoDup c d : NoDup (choices c d).
Proof.
  unfold choices, openIssueText, pullRequestText, draftPullRequestText, applyPatchText,
    stopWorkingText.
  destruct (truthy (_branchName c) && bool_decide (is_Some d)).
  all: repeat (apply NoDup_cons; split; [rewrite ?not_elem_of_cons; split_and?|]).
  all: try apply NoDup_nil_2; try apply not_elem_of_nil; try discriminate.
Qed.

(** X11. The draft entry of the status-bar menu pushes for a draft pull
    request whether or not one is recorded for the issue: when the entry is
    picked, one more draft push is made, and neither the persisted state nor
    the current issue changes. *)
Theorem statusBar_draft_entry env w c :
  currentIssue w = Some c ->
  (forall tr ch, env_showQuickPick env tr ch = Ok (Some (draftPullRequestText c))) ->
  let w' := (statusBar env w).2 in
  length (draftPushes (trace w')) = S (length (draftPushes (trace w))) /\
  saved w' = saved w /\ currentIssue w' = currentIssue w.
Proof.
  intros Hc Hpick.
  assert (H : wp (statusBar env)
                 (fun _ w' =>
                    length (draftPushes (trace w')) = S (length (draftPushes (trace w))) /\
                    saved w' = saved w /\ currentIssue w' = currentIssue w) w);
    [|exact H].
  unfold statusBar. wp_step. wp_step. rewrite Hc. cbn iota.
  wp_step. wp_step.
  assert (Hd : forall d (w1 : World),
             draftPushes (trace w1) = draftPushes (trace w) ->
             saved w1 = saved w -> currentIssue w1 = Some c ->
             wp (let* response := call (EShowQuickPick (choices c d) "Current issue options")
                                        (fun tr => env_showQuickPick env tr (choices c d)) in
                 match response with
                 | Some r =>
                     if String.eqb r (openIssueText c) then openIssue env (AIssue (issueModel c))
                     else if String.eqb r (pullRequestText c) then
                       let* _ := pushAndCreatePR env false in ret tt
                     else if String.eqb r (draftPullRequestText c) then
                       let* _ := pushAndCreatePR env true in ret tt
                     else if String.eqb r (applyPatchText c d) then
                       applyPatch env (match d with Some d => base d | None => EmptyString end)
                                  (tpl (_branchName c))
                     else if String.eqb r (stopWorkingText c) then setCurrentIssue env None
                     else ret tt
                 | None => ret tt
                 end)
                (fun _ w' =>
                   length (draftPushes (trace w')) = S (length (draftPushes (trace w))) /\
                   saved w' = saved w /\ currentIssue w' = Some c) w1).
  { intros d w1 Hp Hs Hi. wp_step. wp_step. rewrite Hpick.
    replace (String.eqb (draftPullRequestText c) (openIssueText c)) with false
      by (symmetry; apply String.eqb_neq; unfold draftPullRequestText, openIssueText;
          discriminate).
    replace (String.eqb (draftPullRequestText c) (pullRequestText c)) with false
      by (symmetry; apply String.eqb_neq; unfold draftPullRequestText, pullRequestText;
          discriminate).
    rewrite String.eqb_refl. wp_step. apply wp_pushAndCreatePR. wp_steps.
    all: unfold draftPushes in *; cbn; by rewrite Hp. }
  wp_step. wp_step.
  destruct (env_getPullRequestDefaults env (trace w)) as [d|e]; cbn beta iota.
  all: wp_step; cbn beta iota; apply Hd; done.
Qed.

Lemma statusBar_draft_entry_witness :
  hasDraftPR (getSavedIssueState 7 worldWithDraft) = true /\
  let w' := (statusBar (withQuickPick (Some "$(comment-discussion) Create draft pull request for #7 (pushes branch)") envOk) worldWithDraft).2 in
  length (draftPushes (trace w')) = S (length (draftPushes (trace worldWithDraft))) /\
  saved w' = saved worldWithDraft /\ currentIssue w' = currentIssue worldWithDraft.
Proof.
  split; [vm_compute; reflexivity|].
  apply (statusBar_draft_entry
           (withQuickPick (Some "$(comment-discussion) Create draft pull request for #7 (pushes branch)") envOk)
           worldWithDraft (newCurrentIssue sampleIssue false)).
  - reflexivity.
  - intros tr ch. vm_compute. reflexivity.
Defined.

(** ** Starting work from a reference *)

(** X12. [startWorking] of the registrar on a reference that names no issue
    starts nothing: with an empty owner, an empty repository name or the
    number 0 no call is made at all, and when the lookup of the issue fails
    or finds nothing the lookup is the only call; the current issue and the
    persisted state are as before. *)
Theorem startWorking_unresolved env o r n w :
  o = EmptyString \/ r = EmptyString \/ n = 0%N \/
    (forall i, env_resolveIssue env (trace w) o r n <> Ok (Some i)) ->
  let w' := (registrar_startWorking env (ARef o r n) w).2 in
  currentIssue w' = currentIssue w /\ saved w' = saved w /\
  (trace w' = trace w \/
   trace w' = EResolveIssue o r n :: trace w /\
   o <> EmptyString /\ r <> EmptyString /\ n <> 0%N).
Proof.
  intros H.
  assert (Hwp : wp (registrar_startWorking env (ARef o r n))
                   (fun _ w' =>
                      currentIssue w' = currentIssue w /\ saved w' = saved w /\
                      (trace w' = trace w \/
                       trace w' = EResolveIssue o r n :: trace w /\
                       o <> EmptyString /\ r <> EmptyString /\ n <> 0%N)) w);
    [|exact Hwp].
  unfold registrar_startWorking. wp_step.
  destruct (truthy (Some r) && truthy (Some o) && negb (N.eqb n 0)) eqn:Hv.
  - apply andb_true_iff in Hv as [Hv Hn]. apply andb_true_iff in Hv as [Hr Ho].
    apply negb_true_iff, N.eqb_neq in Hn.
    assert (Ho' : o <> EmptyString) by (by intros ->).
    assert (Hr' : r <> EmptyString) by (by intros ->).
    destruct H as [->|[->|[->|H]]]; try done.
    wp_step. destruct (env_resolveIssue env (trace w) o r n) as [[i|]|e] eqn:Hres.
    + by destruct (H i).
    + wp_step. cbn. split_and!; try done. by right.
    + cbn. split_and!; try done. by right.
  - wp_step. wp_step. cbn. split_and!; try done. by left.
Qed.

Lemma startWorking_unresolved_witness :
  let w := with_currentIssue (Some (newCurrentIssue otherIssue false))
                             (sampleWorld (sampleConfig None false) ∅) in
  let w' := (registrar_startWorking envOk (ARef "octo" EmptyString 7) w).2 in
  currentIssue w' = currentIssue w /\ saved w' = saved w /\
  (trace w' = trace w \/
   trace w' = EResolveIssue "octo" EmptyString 7 :: trace w /\
   "octo" <> EmptyString /\ EmptyString <> EmptyString /\ 7%N <> 0%N).
Proof.
  apply (startWorking_unresolved envOk "octo" EmptyString 7
           (with_currentIssue (Some (newCurrentIssue otherIssue false))
                              (sampleWorld (sampleConfig None false) ∅))).
  right. by left.
Defined.

(** ** Creating an issue from the draft file *)

Lemma append_nil x : EmptyString +:+ x = x.
Proof. reflexivity. Qed.

Lemma append_cons c t x : String c t +:+ x = String c (t +:+ x).
Proof. reflexivity. Qed.

Lemma prefix_nil s : String.prefix EmptyString s = true.
Proof. by destruct s. Qed.

Lemma prefix_cons_ne a s1 b s2 : a <> b -> String.prefix (String a s1) (String b s2) = false.
Proof. intros H. cbn [String.prefix]. by destruct (Ascii.ascii_dec a b). Qed.

Lemma prefix_cons_eq a s1 s2 : String.prefix (String a s1) (String a s2) = String.prefix s1 s2.
Proof. cbn [String.prefix]. by destruct (Ascii.ascii_dec a a). Qed.

Lemma index_cons_skip s1 c s2 :
  String.prefix s1 (String c s2) = false ->
  index 0 s1 (String c s2) = S <$> index 0 s1 s2.
Proof. intros H. cbn [index]. rewrite H. by destruct (index 0 s1 s2). Qed.

Lemma singleLine_cons c t :
  singleLine (String c t) = true -> c <> LF /\ singleLine t = true.
Proof.
  cbn. intros [Hc Ht]%andb_true_iff. split; [|done].
  intros ->. by rewrite Ascii.eqb_refl in Hc.
Qed.

(** In a single line followed by an empty line, the empty line is the first
    one. *)
Lemma index_other_other t rest :
  singleLine t = true ->
  index 0 emptyLineOther (t +:+ emptyLineOther +:+ rest) = Some (String.length t).
Proof.
  induction t as [|c t IH]; intros Ht.
  - rewrite append_nil. unfold emptyLineOther. rewrite !append_cons, append_nil.
    cbn [index]. by rewrite !prefix_cons_eq, prefix_nil.
  - apply singleLine_cons in Ht as [Hc Ht]. rewrite append_cons.
    rewrite index_cons_skip; [by rewrite IH|].
    apply prefix_cons_ne. congruence.
Qed.

Lemma index_windows_other t rest j :
  singleLine t = true ->
  index 0 emptyLineWindows (t +:+ emptyLineOther +:+ rest) = Some j -> String.length t < j.
Proof.
  revert j. induction t as [|c t IH]; intros j Ht.
  - unfold emptyLineOther. rewrite !append_cons, !append_nil. rewrite index_cons_skip by (by apply prefix_cons_ne).
    intros (n & Hn & ->)%fmap_Some. cbn. lia.
  - apply singleLine_cons in Ht as [Hc Ht]. rewrite append_cons.
    rewrite index_cons_skip.
    + intros (n & Hn & ->)%fmap_Some. cbn. apply IH in Hn; [lia|done].
    + unfold emptyLineWindows. destruct (Ascii.ascii_dec CR c) as [<-|];
        [rewrite prefix_cons_eq|by apply prefix_cons_ne].
      destruct t as [|c2 t]; unfold emptyLineOther; rewrite ?append_cons, ?append_nil.
      * rewrite prefix_cons_eq. by apply prefix_cons_ne.
      * apply singleLine_cons in Ht as [Hc2 _]. apply prefix_cons_ne. congruence.
Qed.

Lemma index_windows_windows t rest :
  singleLine t = true ->
  index 0 emptyLineWindows (t +:+ emptyLineWindows +:+ rest) = Some (String.length t).
Proof.
  induction t as [|c t IH]; intros Ht.
  - rewrite append_nil. unfold emptyLineWindows. rewrite !append_cons, append_nil.
    cbn [index]. by rewrite !prefix_cons_eq, prefix_nil.
  - apply singleLine_cons in Ht as [Hc Ht]. rewrite append_cons.
    rewrite index_cons_skip; [by rewrite IH|].
    unfold emptyLineWindows. destruct (Ascii.ascii_dec CR c) as [<-|];
      [rewrite prefix_cons_eq|by apply prefix_cons_ne].
    destruct t as [|c2 t]; rewrite ?append_cons, ?append_nil.
    + by apply prefix_cons_ne.
    + apply singleLine_cons in Ht as [Hc2 _]. apply prefix_cons_ne. congruence.
Qed.

Lemma index_other_windows t rest j :
  singleLine t = true ->
  index 0 emptyLineOther (t +:+ emptyLineWindows +:+ rest) = Some j -> String.length t < j.
Proof.
  revert j. induction t as [|c t IH]; intros j Ht.
  - unfold emptyLineWindows. rewrite !append_cons, !append_nil.
    rewrite index_cons_skip by (by apply prefix_cons_ne).
    intros (n & Hn & ->)%fmap_Some. cbn. lia.
  - apply singleLine_cons in Ht as [Hc Ht]. rewrite append_cons.
    rewrite index_cons_skip by (apply prefix_cons_ne; congruence).
    intros (n & Hn & ->)%fmap_Some. cbn. apply IH in Hn; [lia|done].
Qed.

Lemma length_append s1 s2 : String.length (s1 +:+ s2) = String.length s1 + String.length s2.
Proof.
  induction s1 as [|c s1 IH]; [done|]. rewrite append_cons.
  change (S (String.length (s1 +:+ s2)) = S (String.length s1 + String.length s2)).
  by rewrite IH.
Qed.

Lemma substring_all s : substring 0 (String.length s) s = s.
Proof.
  induction s as [|c s IH]; [done|].
  change (String c (substring 0 (String.length s) s) = String c s). by rewrite IH.
Qed.

Lemma substring_append_prefix t x : substring 0 (String.length t) (t +:+ x) = t.
Proof.
  induction t as [|c t IH]; [by destruct x|]. rewrite append_cons.
  change (String c (substring 0 (String.length t) (t +:+ x)) = String c t). by rewrite IH.
Qed.

Lemma substringFrom_append t a b x :
  substringFrom (String.length t + 2) (t +:+ String a (String b x)) = x.
Proof.
  unfold substringFrom. rewrite length_append. cbn [String.length].
  replace (String.length t + S (S (String.length x)) - (String.length t + 2))
    with (String.length x) by lia.
  induction t as [|c t IH]; [apply substring_all|].
  rewrite append_cons. exact IH.
Qed.

Lemma indexOfEmptyLine_other t rest :
  singleLine t = true ->
  indexOfEmptyLine (t +:+ emptyLineOther +:+ rest) = Some (String.length t).
Proof.
  intros Ht. unfold indexOfEmptyLine. rewrite index_other_other by done.
  destruct (index 0 emptyLineWindows _) as [j|] eqn:Hj; [|done].
  apply index_windows_other in Hj; [|done]. f_equal. lia.
Qed.

Lemma indexOfEmptyLine_windows t rest :
  singleLine t = true ->
  indexOfEmptyLine (t +:+ emptyLineWindows +:+ rest) = Some (String.length t).
Proof.
  intros Ht. unfold indexOfEmptyLine. rewrite index_windows_windows by done.
  destruct (index 0 emptyLineOther _) as [j|] eqn:Hj; [|done].
  apply index_other_windows in Hj; [|done]. f_equal. lia.
Qed.

(** [createIssueFromFile] on a text that is a non-empty first line [title],
    two characters [a] and [b], and a non-empty rest [body]: the issue is
    created from them, then the draft is forgotten and the editor closed. *)
Lemma createIssueFromFile_eq env r info ed title a b body :
  createIssueInfo r = Some info ->
  env_activeTextEditor env (trace (reg_world r)) = Some ed ->
  getText (document ed) None = title +:+ String a (String b body) ->
  indexOfEmptyLine (getText (document ed) None) = Some (String.length title) ->
  title <> EmptyString -> body <> EmptyString ->
  createIssueFromFile env r =
    match doCreateIssue env (cii_document info) (cii_newIssue info) title (Some body)
            (cii_assignee info) (cii_lineNumber info) (cii_insertIndex info) (reg_world r) with
    | (Ok _, w') =>
        (Ok tt, {| createIssueInfo := None;
                   reg_world := log (EExecuteCommand "workbench.action.closeActiveEditor") w' |})
    | (Throw e, w') => (Throw e, {| createIssueInfo := createIssueInfo r; reg_world := w' |})
    end.
Proof.
  intros Hi He Ht Hx Htitle Hbody.
  unfold createIssueFromFile, bind, get. rewrite Hi, He. cbn zeta. rewrite Hx, Ht.
  rewrite substring_append_prefix, substringFrom_append.
  rewrite !truthy_nonempty by done. cbn [negb orb].
  unfold liftR, modify, emit.
  destruct (doCreateIssue _ _ _ _ _ _ _ _ _) as [[[]|e] w']; cbn; by rewrite ?Hi.
Qed.

Lemma doCreateIssue_created env doc newIssue title body assignee ln ii w d :
  env_getPullRequestDefaults env (trace w) = Ok d ->
  body <> EmptyString ->
  wp (doCreateIssue env doc newIssue title (Some body) assignee ln ii)
     (fun _ w' =>
        createdIssues (trace w') =
          {| cp_owner := defaults_owner d; cp_repo := defaults_repo d; cp_title := title;
             cp_body := Some body; cp_assignee := assignee |} :: createdIssues (trace w)) w.
Proof.
  intros Hd Hb. unfold doCreateIssue, issueBodyOf.
  rewrite (truthy_nonempty body) by done. cbn [orb].
  wp_step. wp_step. wp_step. wp_step. rewrite Hd. wp_steps; cbn; done.
Qed.

(** X13. The draft written by the edit button reads back: when the editor
    shows the draft of a non-empty one-line title, [createIssueFromFile]
    requests one issue with that title and with the assignee kept from the
    input box; its body is the body of the draft followed by an empty line
    and the instructions of the draft, which are not removed. *)
Theorem createIssueFromFile_draft env q title w d ed :
  singleLine title = true -> title <> EmptyString ->
  env_activeTextEditor env (trace w) = Some ed ->
  getText (document ed) None = draftText title (qi_body q) ->
  env_getPullRequestDefaults env (trace w) = Ok d ->
  createdIssues (trace (reg_world (createIssueFromFile env (draftingRegistrar q w)).2)) =
    {| cp_owner := defaults_owner d; cp_repo := defaults_repo d; cp_title := title;
       cp_body := Some (default EmptyString (qi_body q) +:+ emptyLineOther +:+ draftComment);
       cp_assignee := qi_assignee q |} :: createdIssues (trace w).
Proof.
  intros Hs Ht He Hx Hd.
  set (body := default EmptyString (qi_body q) +:+ emptyLineOther +:+ draftComment).
  assert (Hb : body <> EmptyString) by (unfold body; by destruct (default _ _)).
  rewrite (createIssueFromFile_eq env _ (infoOf q) ed title LF LF body); try done.
  - pose proof (doCreateIssue_created env (qi_document q) (qi_newIssue q) title body
                  (qi_assignee q) (qi_lineNumber q) (qi_insertIndex q) w d Hd Hb) as H.
    unfold wp in H. cbn [draftingRegistrar reg_world infoOf cii_document cii_newIssue
                          cii_assignee cii_lineNumber cii_insertIndex].
    by destruct (doCreateIssue _ _ _ _ _ _ _ _ _) as [[[]|e] w'].
  - rewrite Hx. by apply indexOfEmptyLine_other.
Qed.

Lemma createIssueFromFile_draft_witness :
  createdIssues
    (trace (reg_world
              (createIssueFromFile (withEditor sampleDraft (Ok (Some sampleIssue)) envOk)
                 (draftingRegistrar sampleInput (sampleWorld (sampleConfig None false) ∅))).2)) =
    [ {| cp_owner := "octo"; cp_repo := "demo"; cp_title := "Fix parsing";
         cp_body := Some ("The parser stops early." +:+ emptyLineOther +:+ draftComment);
         cp_assignee := Some "alice" |} ].
Proof.
  apply (createIssueFromFile_draft (withEditor sampleDraft (Ok (Some sampleIssue)) envOk)
           sampleInput "Fix parsing" (sampleWorld (sampleConfig None false) ∅) sampleDefaults
           {| document := documentOf sampleDraft;
              selection := {| range_start := {| line := 0; character := 0 |};
                              range_end := {| line := 0; character := 0 |} |} |});
    reflexivity || discriminate.
Defined.

(** X14. With Windows line ends the body keeps a line end at its start: for
    a text that is a non-empty one-line title, an empty line of the form
    CR LF CR LF and a rest, the issue is requested with that title and with
    CR LF followed by the rest as its body, also when the rest is empty. *)
Theorem createIssueFromFile_windows env r info title rest d ed :
  singleLine title = true -> title <> EmptyString ->
  createIssueInfo r = Some info ->
  env_activeTextEditor env (trace (reg_world r)) = Some ed ->
  getText (document ed) None = title +:+ emptyLineWindows +:+ rest ->
  env_getPullRequestDefaults env (trace (reg_world r)) = Ok d ->
  createdIssues (trace (reg_world (createIssueFromFile env r).2)) =
    {| cp_owner := defaults_owner d; cp_repo := defaults_repo d; cp_title := title;
       cp_body := Some (String CR (String LF rest));
       cp_assignee := cii_assignee info |} :: createdIssues (trace (reg_world r)).
Proof.
  intros Hs Ht Hi He Hx Hd.
  rewrite (createIssueFromFile_eq env r info ed title CR LF (String CR (String LF rest)));
    try done.
  - pose proof (doCreateIssue_created env (cii_document info) (cii_newIssue info) title
                  (String CR (String LF rest)) (cii_assignee info) (cii_lineNumber info)
                  (cii_insertIndex info) (reg_world r) d Hd) as H.
    unfold wp in H.
    destruct (doCreateIssue _ _ _ _ _ _ _ _ _) as [[[]|e] w']; by apply H.
  - rewrite Hx. by apply indexOfEmptyLine_windows.
Qed.

Lemma createIssueFromFile_windows_witness :
  createdIssues
    (trace (reg_world
              (createIssueFromFile (withEditor windowsDraft (Ok (Some sampleIssue)) envOk)
                 (draftingRegistrar sampleInput (sampleWorld (sampleConfig None false) ∅))).2)) =
    [ {| cp_owner := "octo"; cp_repo := "demo"; cp_title := "Fix parsing";
         cp_body := Some (String CR (String LF "The parser stops early."));
         cp_assignee := Some "alice" |} ].
Proof.
  apply (createIssueFromFile_windows (withEditor windowsDraft (Ok (Some sampleIssue)) envOk)
           (draftingRegistrar sampleInput (sampleWorld (sampleConfig None false) ∅))
           (infoOf sampleInput) "Fix parsing" "The parser stops early." sampleDefaults
           {| document := documentOf windowsDraft;
              selection := {| range_start := {| line := 0; character := 0 |};
                              range_end := {| line := 0; character := 0 |} |} |});
    reflexivity || discriminate.
Defined.

Lemma substring_start p s :
  substring 0 (String.length p) s = p -> exists b, s = p +:+ b.
Proof.
  revert s. induction p as [|c p IHp]; intros s H.
  - by exists s.
  - destruct s as [|c' s]; [done|].
    change (String c' (substring 0 (String.length p) s) = String c p) in H.
    injection H as -> H. destruct (IHp s H) as (b & ->). by exists b.
Qed.

Lemma substring_occurrence m p s :
  substring m (String.length p) s = p -> exists a b, s = a +:+ p +:+ b.
Proof.
  revert s. induction m as [|m IH]; intros s H.
  - exists EmptyString. by apply substring_start.
  - destruct s as [|c s].
    + destruct p; [|done]. by exists EmptyString, EmptyString.
    + change (substring m (String.length p) s = p) in H.
      destruct (IH s H) as (a & b & ->). by exists (String c a), b.
Qed.

(** A text in which a pattern does not occur has no index of it. *)
Lemma index_no_occurrence p s :
  (forall a b, s <> a +:+ p +:+ b) -> index 0 p s = None.
Proof.
  intros H. destruct (index 0 p s) as [m|] eqn:Hm; [|done].
  apply index_correct1 in Hm. apply substring_occurrence in Hm as (a & b & ->).
  by destruct (H a b).
Qed.

Lemma index_at_start p rest : index 0 p (p +:+ rest) = Some 0.
Proof.
  assert (Hp : String.prefix p (p +:+ rest) = true).
  { induction p as [|c p IH]; [apply prefix_nil|].
    rewrite append_cons, prefix_cons_eq. exact IH. }
  destruct p as [|c p]; [by destruct rest|].
  rewrite append_cons in *. cbn [index]. by rewrite Hp.
Qed.

Lemma indexOfEmptyLine_start p rest :
  p = emptyLineOther \/ p = emptyLineWindows ->
  indexOfEmptyLine (p +:+ rest) = Some 0.
Proof.
  intros [-> | ->]; unfold indexOfEmptyLine.
  - rewrite (index_at_start emptyLineOther).
    destruct (index 0 emptyLineWindows _); [f_equal; lia|done].
  - rewrite (index_at_start emptyLineWindows).
    by destruct (index 0 emptyLineOther _).
Qed.

(** X15. [createIssueFromFile] creates nothing and keeps the draft when the
    text has no empty line (neither LF LF nor CR LF CR LF occurs in it),
    when it starts with an empty line of either form, so that the title is
    empty, and when it is a one-line title followed by LF LF and nothing
    else, so that the body is empty: it returns with no call made and the
    registrar as it was. *)
Theorem createIssueFromFile_ignored env r ed :
  env_activeTextEditor env (trace (reg_world r)) = Some ed ->
  let text := getText (document ed) None in
  ((forall a b, text <> a +:+ emptyLineOther +:+ b) /\
   (forall a b, text <> a +:+ emptyLineWindows +:+ b)) \/
  (exists rest, text = emptyLineOther +:+ rest) \/
  (exists rest, text = emptyLineWindows +:+ rest) \/
  (exists title, singleLine title = true /\ text = title +:+ emptyLineOther) ->
  createIssueFromFile env r = (Ok tt, r).
Proof.
  intros He text H. unfold createIssueFromFile, bind, get.
  destruct (createIssueInfo r) as [info|]; [|done]. rewrite He. cbn zeta. fold text.
  destruct H as [[Ho Hw]|[[rest ->]|[[rest ->]|(title & Ht & ->)]]].
  - unfold indexOfEmptyLine. by rewrite !index_no_occurrence.
  - rewrite indexOfEmptyLine_start by (by left). by destruct rest.
  - rewrite indexOfEmptyLine_start by (by right). done.
  - replace (title +:+ emptyLineOther) with (title +:+ emptyLineOther +:+ EmptyString)
      by (unfold emptyLineOther; by rewrite !append_cons, !append_nil).
    rewrite indexOfEmptyLine_other by done.
    unfold emptyLineOther at 2. rewrite !append_cons, append_nil.
    rewrite substringFrom_append. cbn [truthy String.eqb negb orb].
    by rewrite orb_true_r.
Qed.

Lemma createIssueFromFile_ignored_witness :
  let r := draftingRegistrar sampleInput (sampleWorld (sampleConfig None false) ∅) in
  createIssueFromFile (withEditor twoLines (Ok (Some sampleIssue)) envOk) r = (Ok tt, r) /\
  createIssueFromFile (withEditor (emptyLineWindows +:+ "The parser stops early.")
                         (Ok (Some sampleIssue)) envOk) r = (Ok tt, r) /\
  createIssueFromFile (withEditor ("Fix parsing" +:+ emptyLineOther)
                         (Ok (Some sampleIssue)) envOk) r = (Ok tt, r).
Proof.
  cbn zeta. split_and!.
  - apply (createIssueFromFile_ignored
             (withEditor twoLines (Ok (Some sampleIssue)) envOk)
             (draftingRegistrar sampleInput (sampleWorld (sampleConfig None false) ∅))
             {| document := documentOf twoLines;
                selection := {| range_start := {| line := 0; character := 0 |};
                                range_end := {| line := 0; character := 0 |} |} |});
      [reflexivity|].
    left. split; intros a b H; unfold twoLines in H.
    all: do 19 (destruct a as [|? a]; [simpl in H; discriminate|]).
    all: simpl in H; discriminate.
  - apply (createIssueFromFile_ignored
             (withEditor (emptyLineWindows +:+ "The parser stops early.")
                (Ok (Some sampleIssue)) envOk)
             (draftingRegistrar sampleInput (sampleWorld (sampleConfig None false) ∅))
             {| document := documentOf (emptyLineWindows +:+ "The parser stops early.");
                selection := {| range_start := {| line := 0; character := 0 |};
                                range_end := {| line := 0; character := 0 |} |} |});
      [reflexivity|].
    right. right. left. by eexists.
  - apply (createIssueFromFile_ignored
             (withEditor ("Fix parsing" +:+ emptyLineOther) (Ok (Some sampleIssue)) envOk)
             (draftingRegistrar sampleInput (sampleWorld (sampleConfig None false) ∅))
             {| document := documentOf ("Fix parsing" +:+ emptyLineOther);
                selection := {| range_start := {| line := 0; character := 0 |};
                                range_end := {| line := 0; character := 0 |} |} |});
      [reflexivity|].
    right. right. right. by exists "Fix parsing".
Defined.

(** X16. Without a remote the draft is lost: when the text has a title and a
    body but the defaults cannot be determined, [createIssueFromFile] shows
    the error message, requests no issue, and still forgets the draft and
    closes the editor. *)
Theorem createIssueFromFile_without_remote env r info title body ed e :
  singleLine title = true -> title <> EmptyString -> body <> EmptyString ->
  createIssueInfo r = Some info ->
  env_activeTextEditor env (trace (reg_world r)) = Some ed ->
  getText (document ed) None = title +:+ emptyLineOther +:+ body ->
  env_getPullRequestDefaults env (trace (reg_world r)) = Throw e ->
  let r' := (createIssueFromFile env r).2 in
  let tr := trace (reg_world r) in
  let tr' := trace (reg_world r') in
  (createIssueFromFile env r).1 = Ok tt /\
  createIssueInfo r' = None /\
  createdIssues tr' = createdIssues tr /\
  errorMessages tr' = "There is no remote. Can't create an issue." :: errorMessages tr /\
  executedCommands tr' = "workbench.action.closeActiveEditor" :: executedCommands tr.
Proof.
  intros Hs Ht Hb Hi He Hx Hd. cbn zeta.
  rewrite (createIssueFromFile_eq env r info ed title LF LF body); try done.
  - unfold doCreateIssue, bind, try_catch, call, emit, modify, ret. rewrite Hd. by cbn.
  - rewrite Hx. by apply indexOfEmptyLine_other.
Qed.

Lemma createIssueFromFile_without_remote_witness :
  let env := withEditor sampleDraft (Ok (Some sampleIssue))
               (sampleEnv defaultsFail gitOk None (fun v => default "x" v)
                          (fun _ => Ok true) (Some sampleIssue)) in
  let r := draftingRegistrar sampleInput (sampleWorld (sampleConfig None false) ∅) in
  (createIssueFromFile env r).1 = Ok tt /\
  createIssueInfo (createIssueFromFile env r).2 = None /\
  createdIssues (trace (reg_world (createIssueFromFile env r).2)) =
    createdIssues (trace (reg_world r)) /\
  errorMessages (trace (reg_world (createIssueFromFile env r).2)) =
    "There is no remote. Can't create an issue." :: errorMessages (trace (reg_world r)) /\
  executedCommands (trace (reg_world (createIssueFromFile env r).2)) =
    "workbench.action.closeActiveEditor" :: executedCommands (trace (reg_world r)).
Proof.
  apply (createIssueFromFile_without_remote
           (withEditor sampleDraft (Ok (Some sampleIssue))
              (sampleEnv defaultsFail gitOk None (fun v => default "x" v)
                         (fun _ => Ok true) (Some sampleIssue)))
           (draftingRegistrar sampleInput (sampleWorld (sampleConfig None false) ∅))
           (infoOf sampleInput) "Fix parsing"
           ("The parser stops early." +:+ emptyLineOther +:+ draftComment)
           {| document := documentOf sampleDraft;
              selection := {| range_start := {| line := 0; character := 0 |};
                              range_end := {| line := 0; character := 0 |} |} |}
           "no remote");
    reflexivity || discriminate.
Defined.

(** X17. A failed creation keeps the draft: when the text has a title and a
    body and the request to create the issue fails, [createIssueFromFile]
    fails with the same error, the registrar still holds the draft, and the
    editor is not closed. *)
Theorem createIssueFromFile_failure env r info title body ed d e :
  singleLine title = true -> title <> EmptyString -> body <> EmptyString ->
  createIssueInfo r = Some info ->
  env_activeTextEditor env (trace (reg_world r)) = Some ed ->
  getText (document ed) None = title +:+ emptyLineOther +:+ body ->
  env_getPullRequestDefaults env (trace (reg_world r)) = Ok d ->
  (forall tr p, env_createIssue env tr p = Throw e) ->
  let r' := (createIssueFromFile env r).2 in
  (createIssueFromFile env r).1 = Throw e /\
  createIssueInfo r' = Some info /\
  executedCommands (trace (reg_world r')) = executedCommands (trace (reg_world r)).
Proof.
  intros Hs Ht Hb Hi He Hx Hd Hc. cbn zeta.
  rewrite (createIssueFromFile_eq env r info ed title LF LF body); try done.
  - unfold doCreateIssue, issueBodyOf. rewrite (truthy_nonempty body) by done. cbn [orb].
    unfold bind, try_catch, call, emit, modify, ret. rewrite Hd. cbn. rewrite Hc. by cbn.
  - rewrite Hx. by apply indexOfEmptyLine_other.
Qed.

Lemma createIssueFromFile_failure_witness :
  let env := withEditor sampleDraft (Throw "HttpError") envOk in
  let r := draftingRegistrar sampleInput (sampleWorld (sampleConfig None false) ∅) in
  (createIssueFromFile env r).1 = Throw "HttpError" /\
  createIssueInfo (createIssueFromFile env r).2 = Some (infoOf sampleInput) /\
  executedCommands (trace (reg_world (createIssueFromFile env r).2)) =
    executedCommands (trace (reg_world r)).
Proof.
  apply (createIssueFromFile_failure
           (withEditor sampleDraft (Throw "HttpError") envOk)
           (draftingRegistrar sampleInput (sampleWorld (sampleConfig None false) ∅))
           (infoOf sampleInput) "Fix parsing"
           ("The parser stops early." +:+ emptyLineOther +:+ draftComment)
           {| document := documentOf sampleDraft;
              selection := {| range_start := {| line := 0; character := 0 |};
                              range_end := {| line := 0; character := 0 |} |} |}
           sampleDefaults "HttpError");
    reflexivity || discriminate.
Defined.

(** ** Settings, the input box and the clipboard *)

(** X18. [editQuery] writes to the settings at most once, and then it writes
    the default value of the queries to the global settings: this happens
    only when the setting has no workspace value and the effective value
    prints like the default. *)
Theorem editQuery_settings env label w :
  let tr := trace w in
  let tr' := trace (editQuery env label w).2 in
  let inspect := queriesInspect (config w) in
  configUpdates tr' = configUpdates tr \/
  exists dv,
    inspect ≫= defaultValue = Some dv /\ inspect ≫= workspaceValue = None /\
    env_JSON_stringify env (Some dv) = env_JSON_stringify env (queriesValue (config w)) /\
    configUpdates tr' = dv :: configUpdates tr.
Proof.
  cbn zeta.
  assert (H : wp (editQuery env label)
                 (fun _ w' =>
                    configUpdates (trace w') = configUpdates (trace w) \/
                    exists dv,
                      queriesInspect (config w) ≫= defaultValue = Some dv /\
                      queriesInspect (config w) ≫= workspaceValue = None /\
                      env_JSON_stringify env (Some dv) =
                        env_JSON_stringify env (queriesValue (config w)) /\
                      configUpdates (trace w') = dv :: configUpdates (trace w)) w);
    [|exact H].
  unfold editQuery. wp_step. wp_step. wp_step.
  destruct (bool_decide _) eqn:Hw.
  { wp_steps; by left. }
  apply bool_decide_eq_false in Hw.
  assert (Hn : queriesInspect (config w) ≫= workspaceValue = None).
  { destruct (_ ≫= workspaceValue) eqn:E; [|done]. destruct Hw. by eexists. }
  wp_step. destruct (queriesInspect (config w) ≫= defaultValue) as [dv|] eqn:Hdv.
  - destruct (String.eqb _ _) eqn:Heq.
    + apply String.eqb_eq in Heq. wp_steps; right; exists dv; by split_and!.
    + wp_steps; by left.
  - wp_steps; by left.
Qed.

(** X19. The handler of a confirmed input box hides the box exactly when it
    returns normally: with an empty value it requests no issue and only
    hides the box, and when the creation fails the box stays shown. *)
Theorem onDidAccept_hides env q value w :
  let r := (onDidAccept env q value w).1 in
  let tr := trace w in
  let tr' := trace (onDidAccept env q value w).2 in
  (value = EmptyString -> r = Ok tt /\ tr' = EInputBoxHide :: tr) /\
  (r = Ok tt -> inputBoxesHidden tr' = S (inputBoxesHidden tr)) /\
  (r <> Ok tt -> inputBoxesHidden tr' = inputBoxesHidden tr).
Proof.
  cbn zeta. split; [by intros ->|].
  assert (Hk : wp (doCreateIssue env (qi_document q) (qi_newIssue q) value (qi_body q)
                     (qi_assignee q) (qi_lineNumber q) (qi_insertIndex q))
                  (fun _ w' => inputBoxesHidden (trace w') = inputBoxesHidden (trace w)) w).
  { unfold doCreateIssue, issueBodyOf. wp_steps; done. }
  assert (H : wp (onDidAccept env q value)
                 (fun r w' =>
                    (r = Ok tt -> inputBoxesHidden (trace w') = S (inputBoxesHidden (trace w))) /\
                    (r <> Ok tt -> inputBoxesHidden (trace w') = inputBoxesHidden (trace w))) w);
    [|exact H].
  unfold onDidAccept. wp_step.
  assert (Hc : wp (if truthy (Some value)
                   then doCreateIssue env (qi_document q) (qi_newIssue q) value (qi_body q)
                          (qi_assignee q) (qi_lineNumber q) (qi_insertIndex q)
                   else ret tt)
                  (fun _ w' => inputBoxesHidden (trace w') = inputBoxesHidden (trace w)) w).
  { destruct (truthy (Some value)); [exact Hk|by wp_step]. }
  eapply wp_mono; [exact Hc|]. cbn beta. intros [[]|e] w' Hw'.
  - wp_step. unfold inputBoxesHidden in *. cbn. by rewrite Hw'.
  - split; [discriminate|done].
Qed.

Lemma onDidAccept_hides_witness :
  let r := (onDidAccept envOk sampleInput EmptyString (sampleWorld (sampleConfig None false) ∅)).1 in
  let tr' := trace (onDidAccept envOk sampleInput EmptyString
                      (sampleWorld (sampleConfig None false) ∅)).2 in
  r = Ok tt /\ tr' = [EInputBoxHide].
Proof.
  apply (proj1 (onDidAccept_hides envOk sampleInput EmptyString
                  (sampleWorld (sampleConfig None false) ∅))).
  reflexivity.
Defined.

(** X20. An issue from the clipboard: with an active editor and a non-empty
    clipboard, [createTodoIssueClipboard] shows an input box with an empty
    title and asks for no permalink; when a title is then confirmed, one
    issue is requested with that title and the clipboard text as its body,
    its page is opened in the browser, and no document is edited. *)
Theorem createTodoIssueClipboard_issue env clipboard title w ed d issue :
  env_activeTextEditor env (trace w) = Some ed ->
  clipboard <> EmptyString -> title <> EmptyString ->
  (forall tr, env_getPullRequestDefaults env tr = Ok d) ->
  (forall tr p, env_createIssue env tr p = Ok (Some issue)) ->
  exists q,
    createTodoIssueClipboard env clipboard w = (Ok (Some q), log (EInputBoxShow EmptyString) w) /\
    let tr' := trace (onDidAccept env q title (log (EInputBoxShow EmptyString) w)).2 in
    createdIssues tr' =
      {| cp_owner := defaults_owner d; cp_repo := defaults_repo d; cp_title := title;
         cp_body := Some clipboard;
         cp_assignee := assigneeOf (userMap w) (getText (document ed) (Some (selection ed))) |}
      :: createdIssues (trace w) /\
    openedUrls tr' = html_url issue :: openedUrls (trace w) /\
    appliedEdits tr' = appliedEdits (trace w).
Proof.
  intros He Hc Ht Hd Hi. eexists. split.
  - unfold createTodoIssueClipboard, createTodoIssue, bind, get, issueBodyOf.
    rewrite He. cbn [todoSource]. rewrite (truthy_nonempty clipboard) by done.
    cbn. reflexivity.
  - cbn zeta. unfold onDidAccept. rewrite (truthy_nonempty title) by done.
    cbn [qi_document qi_newIssue qi_body qi_assignee qi_lineNumber qi_insertIndex].
    unfold doCreateIssue, issueBodyOf. rewrite (truthy_nonempty clipboard) by done.
    unfold bind, try_catch, call, emit, modify, ret. rewrite Hd. cbn. rewrite Hi. cbn.
    destruct (env_openExternal _ _ _); by cbn.
Qed.

Lemma createTodoIssueClipboard_issue_witness :
  let env := withEditor "// TODO ask @alice" (Ok (Some sampleIssue)) envOk in
  let w := sampleWorld (sampleConfig None false) ∅ in
  exists q,
    createTodoIssueClipboard env "stack trace" w =
      (Ok (Some q), log (EInputBoxShow EmptyString) w) /\
    let tr' := trace (onDidAccept env q "Crash" (log (EInputBoxShow EmptyString) w)).2 in
    createdIssues tr' =
      {| cp_owner := "octo"; cp_repo := "demo"; cp_title := "Crash";
         cp_body := Some "stack trace";
         cp_assignee :=
           assigneeOf (userMap w)
             (getText (documentOf "// TODO ask @alice")
                (Some {| range_start := {| line := 0; character := 0 |};
                         range_end := {| line := 0; character := 0 |} |})) |}
      :: createdIssues (trace w) /\
    openedUrls tr' = html_url sampleIssue :: openedUrls (trace w) /\
    appliedEdits tr' = appliedEdits (trace w).
Proof.
  apply (createTodoIssueClipboard_issue
           (withEditor "// TODO ask @alice" (Ok (Some sampleIssue)) envOk)
           "stack trace" "Crash" (sampleWorld (sampleConfig None false) ∅)
           {| document := documentOf "// TODO ask @alice";
              selection := {| range_start := {| line := 0; character := 0 |};
                              range_end := {| line := 0; character := 0 |} |} |}
           sampleDefaults sampleIssue);
    reflexivity || discriminate.
Defined.

(** ** The commit message of a session without a repository *)

Lemma calm_trans s1 s2 s3 : calm s1 s2 -> calm s2 s3 -> calm s1 s3.
Proof. intros [H1 H2] [H3 H4]. split; congruence. Qed.

Lemma resolveIssueBranchName_calm env cfg state s :
  wp (resolveIssueBranchName env cfg state) (fun _ s' => calm s s') s.
Proof.
  unfold resolveIssueBranchName, candidateBranchName, resolveBranchName, useBasicBranchName,
    promptBranchName, substituteBranchName, getUser.
  wp_steps; by split.
Qed.

Lemma checkoutPhase_calm env name st s :
  wp (try_catch (createOrCheckoutBranch env name) (fun _ => checkoutFailed env name st))
     (fun _ s' => calm s s') s.
Proof.
  unfold checkoutFailed, createOrCheckoutBranch, branchExists, getUser, showErrorMessage,
    setSavedIssueState.
  wp_steps; by split.
Qed.

Lemma createIssueBranch_calm env s :
  wp (createIssueBranch env) (fun _ s' => calm s s') s.
Proof.
  unfold createIssueBranch. wp_step. wp_step. wp_step. wp_step.
  wp_step; [wp_step; by split|].
  wp_step. wp_use resolveIssueBranchName_calm.
  destruct r as [name|e]; [|done].
  wp_step. unfold wp at 1. rewrite saveBranchName_eq. cbn [fst snd].
  eapply wp_mono; [apply checkoutPhase_calm|].
  cbn beta. intros _ s3 H3. eapply calm_trans; [exact H|]. eapply calm_trans; [|exact H3].
  by split.
Qed.

(** X21. A session whose issue matches no local repository sets no commit
    message: [startWorking] then writes to the commit message box of no
    repository, whatever the settings and the collaborators answer. *)
Theorem startWorking_without_repository env s :
  repo (this s) = None ->
  inputBoxValues (trace (world (startWorking env s).2)) = inputBoxValues (trace (world s)).
Proof.
  intros Hr.
  assert (H : wp (startWorking env)
                 (fun _ s' => inputBoxValues (trace (world s')) =
                              inputBoxValues (trace (world s))) s);
    [|exact H].
  unfold startWorking. wp_step.
  assert (Hf : wp (fetchDefaults env) (fun _ s' => calm s s') s).
  { unfold fetchDefaults, showErrorMessage. wp_steps; by split. }
  wp_use Hf. destruct r as [[]|e]; [|by destruct H].
  wp_step. wp_use createIssueBranch_calm.
  assert (Hc : calm s s'0) by (by eapply calm_trans).
  destruct Hc as [Hb Hrepo]. rewrite Hr in Hrepo.
  destruct r as [[]|e]; [|done].
  wp_step. unfold setCommitMessageAndGitEvent. wp_step. wp_step. wp_step. wp_step.
  rewrite Hrepo. wp_step. wp_step.
  unfold setStatusBar, createDraftPR. wp_steps; cbn; done.
Qed.

Lemma startWorking_without_repository_witness :
  let s := sampleSession envOk false (sampleWorld (sampleConfig (Some "on") true) ∅) in
  inputBoxValues (trace (world (startWorking envOk s).2)) = inputBoxValues (trace (world s)).
Proof.
  apply (startWorking_without_repository envOk
           (sampleSession envOk false (sampleWorld (sampleConfig (Some "on") true) ∅))).
  reflexivity.
Defined.
